(** * migros_api: receipts scraper for the Migros/Cumulus portal

    A shallow embedding of [migros_api/exceptions_migros.py] and
    [migros_api/migros_api.py], with the properties of the session
    sequence, the paginated listing walk and the record extractor.

    Python [str] values are modelled as [string]s whose characters are
    the code points 0..255 (the Latin-1 range); the character tables of
    the interpreter ([str.isnumeric], [str.strip], [int], [repr]) are
    written out for that range. *)

From stdpp Require Import base option list strings gmap.
From Stdlib Require Import ZArith Lia Ascii String.

Set Warnings "-register-all".
Local Open Scope string_scope.
Local Open Scope list_scope.

(** ** Python strings *)

Module PyStr.

Definition code (c : ascii) : nat := nat_of_ascii c.

Definition between (lo hi : nat) (c : ascii) : bool :=
  (lo <=? code c)%nat && (code c <=? hi)%nat.

(** [Py_UNICODE_ISSPACE] below U+0100. *)
Definition isspace_char (c : ascii) : bool :=
  between 9 13 c || between 28 32 c || (code c =? 133)%nat || (code c =? 160)%nat.

(** Numeric_Type=Decimal below U+0100: the ASCII digits. *)
Definition isdecimal_char (c : ascii) : bool := between 48 57 c.

(** Characters with a Numeric_Type below U+0100: the ASCII digits, the
    superscripts 2, 3, 1 and the vulgar fractions 1/4, 1/2, 3/4. *)
Definition isnumeric_char (c : ascii) : bool :=
  isdecimal_char c || between 178 179 c || (code c =? 185)%nat || between 188 190 c.

Fixpoint chars (s : string) : list ascii :=
  match s with
  | EmptyString => []
  | String c r => c :: chars r
  end.

Fixpoint of_chars (l : list ascii) : string :=
  match l with
  | [] => EmptyString
  | c :: r => String c (of_chars r)
  end.

Fixpoint all_chars (p : ascii -> bool) (s : string) : bool :=
  match s with
  | EmptyString => true
  | String c r => p c && all_chars p r
  end.

Definition nonempty (s : string) : bool :=
  match s with EmptyString => false | String _ _ => true end.

(** [str.isnumeric()]: at least one character and all of them numeric. *)
Definition isnumeric (s : string) : bool := nonempty s && all_chars isnumeric_char s.

(** [str.isdecimal()]. *)
Definition isdecimal (s : string) : bool := nonempty s && all_chars isdecimal_char s.

Fixpoint lstrip (s : string) : string :=
  match s with
  | String c r => if isspace_char c then lstrip r else s
  | EmptyString => EmptyString
  end.

Fixpoint rstrip (s : string) : string :=
  match s with
  | EmptyString => EmptyString
  | String c r =>
      match rstrip r with
      | EmptyString => if isspace_char c then EmptyString else String c EmptyString
      | r' => String c r'
      end
  end.

(** [str.strip()] without argument. *)
Definition strip (s : string) : string := rstrip (lstrip s).

(** [prefix p s]: [s.startswith(p)]. *)
Fixpoint startswith (p s : string) : bool :=
  match p, s with
  | EmptyString, _ => true
  | String a p', String b s' => if Ascii.eqb a b then startswith p' s' else false
  | String _ _, EmptyString => false
  end.

(** [drop n s]: [s[n:]]. *)
Fixpoint drop (n : nat) (s : string) : string :=
  match n, s with
  | O, _ => s
  | S n', String _ r => drop n' r
  | S _, EmptyString => EmptyString
  end.

(** [take n s]: [s[:n]]. *)
Fixpoint take (n : nat) (s : string) : string :=
  match n, s with
  | O, _ => EmptyString
  | S n', String c r => String c (take n' r)
  | S _, EmptyString => EmptyString
  end.

(** [sub in s] for a non-empty [sub]. *)
Fixpoint contains (sub s : string) : bool :=
  startswith sub s ||
  match s with
  | EmptyString => false
  | String _ r => contains sub r
  end.

(** [s.split(sep)[-1]] for a non-empty separator: [split] cuts at the
    leftmost occurrence and goes on after it, the last piece is what
    follows the last cut.  [acc] is the piece being read, reversed. *)
Fixpoint split_last_from (fuel : nat) (sep : string) (acc : list ascii) (s : string) : string :=
  match fuel with
  | O => of_chars (rev acc)
  | S fuel' =>
      if startswith sep s then split_last_from fuel' sep [] (drop (String.length sep) s)
      else match s with
           | EmptyString => of_chars (rev acc)
           | String c r => split_last_from fuel' sep (c :: acc) r
           end
  end.

Definition split_last (sep s : string) : string :=
  split_last_from (S (String.length s)) sep [] s.

(** [str.lower()] below U+0100: A-Z, and the capital letters U+00C0..U+00DE
    except the multiplication sign. *)
Definition lower_char (c : ascii) : ascii :=
  if between 65 90 c || between 192 214 c || between 216 222 c
  then ascii_of_nat (code c + 32) else c.

Fixpoint lower (s : string) : string :=
  match s with
  | EmptyString => EmptyString
  | String c r => String (lower_char c) (lower r)
  end.

(** [sep.join(l)]. *)
Fixpoint join (sep : string) (l : list string) : string :=
  match l with
  | [] => EmptyString
  | [x] => x
  | x :: r => x +:+ sep +:+ join sep r
  end.

Definition digit_char (n : nat) : ascii := ascii_of_nat (48 + n).

Fixpoint digits_of_nat (fuel n : nat) (acc : string) : string :=
  match fuel with
  | O => acc
  | S fuel' =>
      let acc' := String (digit_char (n mod 10)) acc in
      if (n <? 10)%nat then acc' else digits_of_nat fuel' (n / 10) acc'
  end.

(** [str(n)] for a non-negative integer. *)
Definition str_of_nat (n : nat) : string := digits_of_nat (S n) n EmptyString.

(** [str(z)] for an integer. *)
Definition str_of_Z (z : Z) : string :=
  match z with
  | Zneg p => "-" +:+ str_of_nat (Pos.to_nat p)
  | _ => str_of_nat (Z.to_nat z)
  end.

(** [s.zfill(width)] for a string without sign. *)
Definition zfill (width : nat) (s : string) : string :=
  of_chars (replicate (width - String.length s) "0"%char) +:+ s.

Definition hex_char (n : nat) : ascii :=
  if (n <? 10)%nat then ascii_of_nat (48 + n) else ascii_of_nat (87 + n).

(** Characters that [repr] shows as they are below U+0100. *)
Definition isprintable_char (c : ascii) : bool :=
  between 32 126 c || (between 161 255 c && negb (code c =? 173)%nat).

Definition backslash : ascii := ascii_of_nat 92.
Definition dquote : ascii := ascii_of_nat 34.
Definition squote : ascii := ascii_of_nat 39.

Definition escaped (c : ascii) : string := String backslash (String c EmptyString).

Definition repr_char (quote c : ascii) : string :=
  if Ascii.eqb c quote then escaped c
  else if Ascii.eqb c backslash then escaped backslash
  else if (code c =? 9)%nat then escaped "t"
  else if (code c =? 10)%nat then escaped "n"
  else if (code c =? 13)%nat then escaped "r"
  else if isprintable_char c then String c EmptyString
  else String backslash (String "x"%char
         (String (hex_char (code c / 16)) (String (hex_char (code c mod 16)) EmptyString))).

Fixpoint repr_body (quote : ascii) (s : string) : string :=
  match s with
  | EmptyString => EmptyString
  | String c r => repr_char quote c +:+ repr_body quote r
  end.

(** [repr(s)]: single quotes, unless the text has a single quote and no
    double quote. *)
Definition repr (s : string) : string :=
  let q := if contains (String squote EmptyString) s && negb (contains (String dquote EmptyString) s)
           then dquote else squote in
  String q (repr_body q s) +:+ String q EmptyString.

End PyStr.

(** ** Exceptions and results *)

(** The exceptions that reach the code of this package.  [ExceptionMigrosApi]
    carries the two attributes its constructor sets; [RequestException]
    stands for [requests.exceptions.RequestException] and its subclasses;
    [Exception] is a plain [Exception(msg)]; [OtherError] is any other
    exception raised by a library. *)
Inductive exn : Type :=
| ExceptionMigrosApi (code : option string) (msg : option string)
| RequestException (msg : string)
| ValueError (msg : string)
| TypeError (msg : string)
| AttributeError (msg : string)
| OtherError (msg : string)
| Exception (msg : string).

Inductive result (A : Type) : Type :=
| Ok (a : A)
| Raise (e : exn).
Arguments Ok {A} a.
Arguments Raise {A} e.

Definition rbind {A B : Type} (r : result A) (k : A -> result B) : result B :=
  match r with
  | Ok a => k a
  | Raise e => Raise e
  end.

Module PyInt.
Import PyStr.

(** [sys.int_info.default_max_str_digits]. *)
Definition int_max_str_digits : nat := 4300.

(** The characters [int] skips around the number: what
    [_PyUnicode_TransformDecimalAndSpaceToASCII] turns into a blank
    (U+0085, U+00A0) and the blanks of [Py_ISSPACE]. *)
Definition int_space (c : ascii) : bool :=
  between 9 13 c || (code c =? 32)%nat || (code c =? 133)%nat || (code c =? 160)%nat.

Fixpoint skip_space (s : string) : string :=
  match s with
  | String c r => if int_space c then skip_space r else s
  | EmptyString => EmptyString
  end.

Definition underscore : ascii := "_"%char.

(** The digits and single underscores of the literal: the value read, the
    number of digits and the rest of the text; [None] for a doubled or
    trailing underscore. *)
Fixpoint scan_digits (prev_us : bool) (acc : Z) (n : nat) (s : string)
  : option (Z * nat * string) :=
  match s with
  | String c r =>
      if isdecimal_char c
      then scan_digits false (10 * acc + Z.of_nat (code c - 48)) (S n) r
      else if Ascii.eqb c underscore
           then if prev_us then None else scan_digits true acc n r
           else if prev_us then None else Some (acc, n, s)
  | EmptyString => if prev_us then None else Some (acc, n, s)
  end.

Definition invalid_literal (s : string) : exn :=
  ValueError ("invalid literal for int() with base 10: " +:+ PyStr.take 200 (repr s)).

Definition too_many_digits (n : nat) : exn :=
  ValueError ("Exceeds the limit (" +:+ str_of_nat int_max_str_digits
    +:+ " digits) for integer string conversion: value has " +:+ str_of_nat n
    +:+ " digits; use sys.set_int_max_str_digits() to increase the limit").

(** [int(s)] for a [str] argument, base 10. *)
Definition int (s : string) : result Z :=
  let t := skip_space s in
  let '(neg, t) :=
    match t with
    | String c r =>
        if Ascii.eqb c "+"%char then (false, r)
        else if Ascii.eqb c "-"%char then (true, r)
        else (false, t)
    | EmptyString => (false, t)
    end in
  if startswith "_" t then Raise (invalid_literal s)
  else
    match scan_digits false 0 0 t with
    | None => Raise (invalid_literal s)
    | Some (v, n, rest) =>
        if (int_max_str_digits <? n)%nat then Raise (too_many_digits n)
        else if (n =? 0)%nat then Raise (invalid_literal s)
        else match skip_space rest with
             | EmptyString => Ok (if neg then (- v)%Z else v)
             | String _ _ => Raise (invalid_literal s)
             end
    end.

End PyInt.

(** ** exceptions_migros.py *)

Module Exceptions.

(** A value passed as [code]: [None], an [int] or a [str]. *)
Inductive pycode : Type :=
| CNone
| CInt (z : Z)
| CStr (s : string).

(** Keys of [ERROR_CODES]: an [int] (left) or a [str] (right). *)
Abbreviation key := (Z + string)%type.

Definition ERROR_CODES : gmap key string :=
  list_to_map
    [ (inl 1%Z, "Could not authenticate");
      (inr "1", "Could not authenticate");
      (inl 2%Z, "Could not find username when authenticating");
      (inr "2", "Could not find username when authenticating");
      (inl 3%Z, "Could not authenticate to cumulus");
      (inr "3", "Could not authenticate to cumulus");
      (inl 4%Z, "period_from and period_to should be datetime objects");
      (inr "4", "period_from and period_to should be datetime objects");
      (inl 5%Z, "`period_from` should be <= to `period_to`");
      (inr "5", "`period_from` should be <= to `period_to`");
      (inl 6%Z, "Request again the item and indicate request_pdf=True");
      (inr "6", "Request again the item and indicate request_pdf=True") ].

(** The dictionary key a value passed as [code] stands for. *)
Definition key_of (c : pycode) : option key :=
  match c with
  | CNone => None
  | CInt z => Some (inl z)
  | CStr s => Some (inr s)
  end.

(** [str(code)] for a code that is not [None]. *)
Definition str_of_code (c : pycode) : option string :=
  match c with
  | CNone => None
  | CInt z => Some (PyStr.str_of_Z z)
  | CStr s => Some s
  end.

(** [ExceptionMigrosApi.__init__(code, message)]: the exception built, or
    the exception the constructor itself raises. *)
Definition init (code : pycode) (message : option string) : result exn :=
  let self_code := str_of_code code in
  match message with
  | Some m => Ok (ExceptionMigrosApi self_code (Some m))
  | None =>
      match self_code with
      | Some c =>
          match ERROR_CODES !! (inr c : key) with
          | Some (String a r) => Ok (ExceptionMigrosApi self_code (Some (String a r)))
          | _ =>
              rbind (PyInt.int c) (fun z =>
                Ok (ExceptionMigrosApi self_code (ERROR_CODES !! (inl z : key))))
          end
      | None => Ok (ExceptionMigrosApi self_code (Some "Unknown error occurred"))
      end
  end.

(** [raise ExceptionMigrosApi(code, message)]. *)
Definition raise_api {A : Type} (code : pycode) (message : option string) : result A :=
  match init code message with
  | Ok e => Raise e
  | Raise e => Raise e
  end.

(** [str(None)] is the text [None]. *)
Definition str_of_opt (o : option string) : string :=
  match o with Some s => s | None => "None" end.

(** [str(e)]: [ExceptionMigrosApi.__str__] for the package's exception,
    the message for the others. *)
Definition str_of_exn (e : exn) : string :=
  match e with
  | ExceptionMigrosApi (Some (String a r)) msg =>
      "Error " +:+ String a r +:+ ": " +:+ str_of_opt msg
  | ExceptionMigrosApi _ msg => str_of_opt msg
  | RequestException m | ValueError m | TypeError m | AttributeError m
  | OtherError m | Exception m => m
  end.

End Exceptions.


(** ** datetime values *)

Module Datetime.

(** A [datetime.datetime]: the calendar fields and the UTC offset of its
    [tzinfo] in microseconds, [None] for a naive value. *)
Record datetime : Type := mk_datetime {
  year : Z; month : Z; day : Z;
  hour : Z; minute : Z; second : Z; microsecond : Z;
  utcoffset : option Z
}.

(** The values a caller can pass where a [datetime] is expected. *)
Inductive pyobj : Type :=
| ODatetime (d : datetime)
| ODate (y m d : Z)
| OStr (s : string)
| OInt (z : Z)
| ONone.

(** [isinstance(x, datetime)]. *)
Definition is_datetime (x : pyobj) : option datetime :=
  match x with
  | ODatetime d => Some d
  | _ => None
  end.

Definition fields (d : datetime) : list Z :=
  [year d; month d; day d; hour d; minute d; second d; microsecond d].

Fixpoint lex_gt (a b : list Z) : bool :=
  match a, b with
  | x :: a', y :: b' => (y <? x)%Z || ((x =? y)%Z && lex_gt a' b')
  | _, _ => false
  end.

Definition is_leap (y : Z) : bool :=
  ((y mod 4 =? 0) && (negb (y mod 100 =? 0) || (y mod 400 =? 0)))%Z.

Definition days_before_year (y : Z) : Z :=
  let p := (y - 1)%Z in (p * 365 + p / 4 - p / 100 + p / 400)%Z.

Definition days_before_month (y m : Z) : Z :=
  (nth (Z.to_nat m) [0; 0; 31; 59; 90; 120; 151; 181; 212; 243; 273; 304; 334] 0
   + (if (2 <? m) && is_leap y then 1 else 0))%Z.

Definition ordinal (d : datetime) : Z :=
  (days_before_year (year d) + days_before_month (year d) (month d) + day d)%Z.

(** Microseconds since the start of year 1, on the UTC scale. *)
Definition instant (d : datetime) (off : Z) : Z :=
  ((((ordinal d * 24 + hour d) * 60 + minute d) * 60 + second d) * 1000000
   + microsecond d - off)%Z.

(** [a > b] on two [datetime]s: the fields are compared when the offsets
    agree, the instants when they differ; a naive and an aware value do
    not compare. *)
Definition gt (a b : datetime) : result bool :=
  match utcoffset a, utcoffset b with
  | None, None => Ok (lex_gt (fields a) (fields b))
  | Some oa, Some ob =>
      if (oa =? ob)%Z then Ok (lex_gt (fields a) (fields b))
      else Ok (instant b ob <? instant a oa)%Z
  | _, _ => Raise (TypeError "can't compare offset-naive and offset-aware datetimes")
  end.

End Datetime.

(** ** The parsed document *)

Module Soup.

(** The tree BeautifulSoup builds: text nodes and tags.  A tag has its
    name, its attribute dictionary without [class], the tokens of its
    [class] attribute (bs4 keeps that one as a list), and its children. *)
Inductive node : Type :=
| Text (s : string)
| Tag (name : string) (attrs : gmap string string) (classes : list string)
      (children : list node).

(** A tag as [find_all] and [find_next] meet it, with the text nodes
    below it in document order. *)
Record element : Type := mk_element {
  name : string;
  attrs : gmap string string;
  classes : list string;
  strings : list string
}.

Fixpoint strings_of (n : node) : list string :=
  match n with
  | Text s => [s]
  | Tag _ _ _ ch => flat_map strings_of ch
  end.

(** The tags of a subtree in document order ([next_elements], tags only). *)
Fixpoint elements_of (n : node) : list element :=
  match n with
  | Text _ => []
  | Tag nm at_ cl ch =>
      mk_element nm at_ cl (flat_map strings_of ch) :: flat_map elements_of ch
  end.

(** A document is the list of the top-level nodes. *)
Definition all_strings (doc : list node) : list string := flat_map strings_of doc.
Definition all_elements (doc : list node) : list element := flat_map elements_of doc.

(** [tag.get(attr)]. *)
Definition get (e : element) (attr : string) : option string := attrs e !! attr.

(** [tag.text]. *)
Definition text (e : element) : string := PyStr.join EmptyString (strings e).

(** [tag.get_text(strip=True)]: the stripped text nodes that are not empty. *)
Definition get_text_strip (e : element) : string :=
  PyStr.join EmptyString
    (filter (fun s => PyStr.nonempty s = true) (map PyStr.strip (strings e))).

Definition str_eqb (a b : string) : bool := bool_decide (a = b).

(** Matching a [class] criterion against the token list of a tag: one of
    the tokens matches, or the tokens joined by blanks do. *)
Definition class_matches (wanted : list string) (e : element) : bool :=
  existsb (fun w => existsb (str_eqb w) (classes e)
                    || (PyStr.nonempty (PyStr.join " " (classes e))
                        && str_eqb w (PyStr.join " " (classes e)))) wanted.

(** [find_next] along the elements that follow: the first match and what
    follows it. *)
Fixpoint find_next (p : element -> bool) (l : list element) : option (element * list element) :=
  match l with
  | [] => None
  | e :: r => if p e then Some (e, r) else find_next p r
  end.

End Soup.

(** ** The HTTP session *)

Module Net.

Inductive method : Type := GET | POST.

(** A request as the session sends it: method, URL, query parameters and
    form payload.  The header and cookie dictionaries are kept out: no
    branch of the code reads them. *)
Record request : Type := mk_request {
  meth : method;
  url : string;
  params : list (string * string);
  data : list (string * string)
}.

(** What a library outside this package raises: an exception of
    [requests] (a subclass of [RequestException]), or anything else. *)
Inductive lib_exn : Type :=
| RequestError (msg : string)
| LibraryError (msg : string).

Definition exn_of (e : lib_exn) : exn :=
  match e with
  | RequestError m => RequestException m
  | LibraryError m => OtherError m
  end.

(** The outcome of a library call, as a result of this package. *)
Definition from_lib {A : Type} (r : lib_exn + A) : result A :=
  match r with
  | inr a => Ok a
  | inl e => Raise (exn_of e)
  end.

(** A response: status line, final URL, body, and the document
    [BeautifulSoup] makes of the body (the builder is not part of this
    package; it either returns a document or raises). *)
Record response : Type := mk_response {
  status_code : nat;
  reason : string;
  resp_url : string;
  body : string;
  html : lib_exn + list Soup.node
}.

(** What the process does to the outside, in order: a request sent, or a
    [time.sleep] of so many seconds. *)
Inductive event : Type :=
| Request (r : request)
| Sleep (seconds : nat).

(** The network: what a request brings back, given all that happened
    before it; a transport failure is an exception. *)
Definition network : Type := list event -> request -> lib_exn + response.

(** Computations that send requests and sleep: from the events so far to
    a result and the events after. *)
Definition M (A : Type) : Type := list event -> result A * list event.

Definition ret {A : Type} (a : A) : M A := fun t => (Ok a, t).
Definition raise {A : Type} (e : exn) : M A := fun t => (Raise e, t).
Definition lift {A : Type} (r : result A) : M A := fun t => (r, t).

Definition bind {A B : Type} (m : M A) (k : A -> M B) : M B :=
  fun t => match m t with
           | (Ok a, t') => k a t'
           | (Raise e, t') => (Raise e, t')
           end.

(** [try: m except Exception as e: h e]. *)
Definition try_except {A : Type} (m : M A) (h : exn -> M A) : M A :=
  fun t => match m t with
           | (Ok a, t') => (Ok a, t')
           | (Raise e, t') => h e t'
           end.

Definition send (net : network) (r : request) : M response :=
  fun t => (from_lib (net t r), t ++ [Request r]).

Definition sleep (seconds : nat) : M unit :=
  fun t => (Ok tt, t ++ [Sleep seconds]).

(** [response.raise_for_status()]. *)
Definition raise_for_status (r : response) : result unit :=
  let line kind :=
    PyStr.str_of_nat (status_code r) +:+ kind +:+ reason r +:+ " for url: " +:+ resp_url r in
  if (400 <=? status_code r)%nat && (status_code r <? 500)%nat
  then Raise (RequestException (line " Client Error: "))
  else if (500 <=? status_code r)%nat && (status_code r <? 600)%nat
  then Raise (RequestException (line " Server Error: "))
  else Ok tt.

#[global] Instance M_ret : MRet M := @ret.
#[global] Instance M_bind : MBind M := fun A B k m => bind m k.

End Net.


(** ** migros_api.py *)

Module MigrosApi.
Import Net Exceptions.

Definition csrf_marker : string :=
  String PyStr.dquote ("_csrf" +:+ String PyStr.dquote
    (" content=" +:+ String PyStr.dquote EmptyString)).

Fixpoint until_quote (s : string) : string :=
  match s with
  | String c r => if Ascii.eqb c PyStr.dquote then EmptyString else String c (until_quote r)
  | EmptyString => EmptyString
  end.

(** [re.search(self.csrf_pattern, text)], giving [group(1)]: the leftmost
    place that has the marker right before it and a character other than
    a double quote at it; the group runs up to the next double quote. *)
Fixpoint csrf_search (s : string) : option string :=
  let here :=
    if PyStr.startswith csrf_marker s
    then until_quote (PyStr.drop (String.length csrf_marker) s)
    else EmptyString in
  match here with
  | String _ _ => Some here
  | EmptyString =>
      match s with
      | String _ r => csrf_search r
      | EmptyString => None
      end
  end.

(** The [status_forcelist] of the [Retry] mounted on the session in
    [__init__]: a GET that is still answered with one of these statuses
    after the retries ends in an exception of [requests], so that no
    response with such a status reaches the code that sent the GET. *)
Definition status_forcelist : list nat := [429; 500; 502; 503; 504]%nat.

Definition main_page : string := "https://www.migros.ch/".
Definition login_url : string := "https://login.migros.ch/login".
Definition cumulus_login : string :=
  "https://www.migros.ch/de/cumulus/konto~checkImmediate=true~.html".
Definition url_export_data : string := "https://www.migros.ch/service/avantaReceiptExport/".

(** [self.url_receipts.format(a, b)]. *)
Definition url_receipts (a b : string) : string :=
  "https://www.migros.ch/de/cumulus/konto/kassenbons.html?sort=dateDsc&dateFrom="
  +:+ a +:+ "&dateTo=" +:+ b.

Definition get (u : string) (ps : list (string * string)) : request :=
  mk_request GET u ps [].

(** [_format_date]. *)
Definition _format_date (date : Datetime.datetime) : string :=
  let day := PyStr.zfill 2 (PyStr.str_of_Z (Datetime.day date)) in
  let month := PyStr.zfill 2 (PyStr.str_of_Z (Datetime.month date)) in
  PyStr.str_of_Z (Datetime.year date) +:+ "-" +:+ month +:+ "-" +:+ day.

(** One entry of the dictionary [get_all_receipts] returns. *)
Record receipt_info : Type := mk_receipt_info {
  pdf_ref : string;
  receipt_id : string;
  store_name : string;
  cost : string;
  cumulus_points : string
}.

(** The result dictionary: the key is [item.get('value')], which is
    [None] for a checkbox without that attribute. *)
Abbreviation receipts := (gmap (option string) receipt_info).

Definition is_page_link (e : Soup.element) : bool :=
  Soup.str_eqb (Soup.name e) "a"
  && bool_decide (Soup.get e "aria-label" = Some "Seite").

Definition is_checkbox (e : Soup.element) : bool :=
  Soup.str_eqb (Soup.name e) "input"
  && bool_decide (Soup.get e "type" = Some "checkbox").

Definition is_modal_link (e : Soup.element) : bool :=
  Soup.str_eqb (Soup.name e) "a" && Soup.class_matches ["ui-js-toggle-modal"] e.

Definition is_td (e : Soup.element) : bool := Soup.str_eqb (Soup.name e) "td".

(** The pagination loop of [_parse_receipt_data]: the page numbers of
    the links labelled [Seite], in document order. *)
Fixpoint page_values (l : list Soup.element) : result (list Z) :=
  match l with
  | [] => Ok []
  | item :: r =>
      if is_page_link item then
        match Soup.get item "data-value" with
        | Some page_value =>
            if PyStr.nonempty page_value && PyStr.isnumeric page_value
            then rbind (PyInt.int page_value) (fun z =>
                 rbind (page_values r) (fun zs => Ok (z :: zs)))
            else page_values r
        | None => page_values r
        end
      else page_values r
  end.

(** [max(pages) if pages else 1]. *)
Definition total_of (pages : list Z) : Z :=
  match pages with
  | [] => 1%Z
  | z :: zs => fold_left Z.max zs z
  end.

(** The three [td] cells looked up one after the other from the link on. *)
Definition find_cells (after : list Soup.element)
  : option (Soup.element * Soup.element * Soup.element) :=
  match Soup.find_next is_td after with
  | Some (store_name, a1) =>
      match Soup.find_next is_td a1 with
      | Some (cost, a2) =>
          match Soup.find_next is_td a2 with
          | Some (points, _) => Some (store_name, cost, points)
          | None => None
          end
      | None => None
      end
  | None => None
  end.

(** The receipt loop of [_parse_receipt_data] over the elements in
    document order: each checkbox looks forward in the elements that
    follow it. *)
Fixpoint parse_items (l : list Soup.element) (result_dict : receipts) : result receipts :=
  match l with
  | [] => Ok result_dict
  | item :: rest =>
      if is_checkbox item then
        if bool_decide (Soup.get item "value" = Some "all") then parse_items rest result_dict
        else
          let download_id := Soup.get item "value" in
          match Soup.find_next is_modal_link rest with
          | None => parse_items rest result_dict
          | Some (link, after) =>
              match Soup.get link "href" with
              | None =>
                  Raise (AttributeError "'NoneType' object has no attribute 'split'")
              | Some href =>
                  let rid := PyStr.split_last "receiptId=" href in
                  match find_cells after with
                  | None => parse_items rest result_dict
                  | Some (store, cost_cell, points) =>
                      parse_items rest
                        (<[download_id :=
                             mk_receipt_info href rid
                               (PyStr.strip (Soup.text store))
                               (PyStr.strip (Soup.text cost_cell))
                               (PyStr.strip (Soup.text points))]> result_dict)
                  end
              end
          end
      else parse_items rest result_dict
  end.

(** [_parse_receipt_data(response, result_dict)]: the page count and the
    dictionary after the updates; any exception inside is replaced by a
    plain [Exception]. *)
Definition _parse_receipt_data (response : response) (result_dict : receipts)
  : result (Z * receipts) :=
  let body :=
    rbind (from_lib (html response)) (fun soup =>
    rbind (page_values (Soup.all_elements soup)) (fun pages =>
    rbind (parse_items (Soup.all_elements soup) result_dict) (fun d =>
    Ok (total_of pages, d)))) in
  match body with
  | Ok r => Ok r
  | Raise err => Raise (Exception ("Failed to parse receipt data: " +:+ str_of_exn err))
  end.

Section Session.

(** The network the session talks to, and the credentials. *)
Variable net : network.
Variable username password : string.

(** [_init_session]: the visit of the main page. *)
Definition _init_session : M unit :=
  try_except
    (response ← send net (get main_page []);
     lift (raise_for_status response);;
     sleep 1)
    (fun e => raise e).

Definition error_classes : list string := ["error"; "error-message"; "alert-danger"].

(** The [except] clauses of [__authenticate]. *)
Definition authenticate_handlers (e : exn) : M unit :=
  match e with
  | RequestException _ =>
      lift (raise_api (CInt 1)
              (Some ("Network error during authentication: " +:+ str_of_exn e)))
  | ExceptionMigrosApi _ _ => raise e
  | _ => lift (raise_api (CInt 1) (Some ("Authentication failed: " +:+ str_of_exn e)))
  end.

(** [__authenticate]. *)
Definition __authenticate : M unit :=
  try_except
    (response ← send net (get login_url []);
     lift (raise_for_status response);;
     sleep 1;;
     match csrf_search (body response) with
     | None => lift (raise_api (CInt 1) (Some "CSRF token not found"))
     | Some csrf_token =>
         let payload :=
           [("_csrf", csrf_token); ("username", username);
            ("password", password); ("remember-me", "true")] in
         sleep 2;;
         response ← send net (mk_request POST login_url [] payload);
         lift (raise_for_status response);;
         soup ← lift (from_lib (html response));
         let error_messages :=
           filter (fun e => Soup.class_matches error_classes e = true)
                  (Soup.all_elements soup) in
         match error_messages with
         | _ :: _ =>
             let error_text := PyStr.join " | " (map Soup.get_text_strip error_messages) in
             lift (raise_api (CInt 1) (Some ("Login failed: " +:+ error_text)))
         | [] =>
             if PyStr.contains "authentication_error" (PyStr.lower (resp_url response))
             then lift (raise_api (CInt 1) (Some "Authentication failed"))
             else mret tt
         end
     end)
    authenticate_handlers.

Definition cumulus_params : list (string * string) :=
  [("referrer", "https://www.migros.ch/resources/loginPage~lang=de~.html");
   ("referrerPolicy", "no-referrer-when-downgrade")].

(** [_login_cumulus]. *)
Definition _login_cumulus : M unit :=
  try_except
    (__authenticate;;
     response ← send net (get cumulus_login cumulus_params);
     lift (raise_for_status response);;
     soup ← lift (from_lib (html response));
     let cumulus_elements :=
       filter (fun s => PyStr.contains "Cumulus" s = true) (Soup.all_strings soup) in
     match cumulus_elements with
     | [] => lift (raise_api (CInt 3) (Some "Failed to access Cumulus account"))
     | _ :: _ => mret tt
     end)
    (fun e =>
       match e with
       | ExceptionMigrosApi _ _ => raise e
       | _ => lift (raise_api (CInt 3) (Some ("Cumulus login failed: " +:+ str_of_exn e)))
       end).

(** [MigrosApi.__init__]: the two steps, whose exceptions are logged and
    raised again. *)
Definition __init__ : M unit :=
  try_except (_init_session;; _login_cumulus) (fun e => raise e).

Definition receipts_params : list (string * string) :=
  [("referrer", "https://www.migros.ch/de/cumulus/konto/kassenbons.html");
   ("referrerPolicy", "no-referrer-when-downgrade")].

(** The [while True] loop of [get_all_receipts].  [fuel] bounds the
    number of pages fetched; [None] is returned when it runs out before
    the loop breaks. *)
Fixpoint fetch_pages (fuel : nat) (request_url : string) (current_page : nat)
    (final_dict : receipts) : M (option receipts) :=
  match fuel with
  | O => mret None
  | S fuel' =>
      let url := request_url +:+ "&p=" +:+ PyStr.str_of_nat current_page in
      response ← send net (get url receipts_params);
      '(total_pages, final_dict') ← lift (_parse_receipt_data response final_dict);
      if (total_pages <=? Z.of_nat current_page)%Z
      then mret (Some final_dict')
      else sleep 1;; fetch_pages fuel' request_url (S current_page) final_dict'
  end.

(** The two checks at the head of [get_all_receipts]. *)
Definition validate_dates (period_from period_to : Datetime.pyobj)
  : result (Datetime.datetime * Datetime.datetime) :=
  match Datetime.is_datetime period_from with
  | None => raise_api (CInt 4) None
  | Some a =>
      match Datetime.is_datetime period_to with
      | None => raise_api (CInt 4) None
      | Some b =>
          rbind (Datetime.gt a b) (fun inverted =>
            if inverted then raise_api (CInt 5) None else Ok (a, b))
      end
  end.

(** [get_all_receipts(period_from, period_to)]. *)
Definition get_all_receipts (fuel : nat) (period_from period_to : Datetime.pyobj)
  : M (option receipts) :=
  try_except
    ('(a, b) ← lift (validate_dates period_from period_to);
     let request_url := url_receipts (_format_date a) (_format_date b) in
     fetch_pages fuel request_url 1 ∅)
    (fun e =>
       match e with
       | ExceptionMigrosApi _ _ => raise e
       | err => raise (Exception ("Failed to get receipts: " +:+ str_of_exn err))
       end).

End Session.

Section Receipt.

Variable net : network.

(** [ReceiptItem] lives in [receipt_item.py]; here it is any type with a
    constructor taking the receipt id and the two bodies, which may
    raise. *)
Variable ReceiptItem : Type.
Variable new_ReceiptItem : string -> string -> string -> result ReceiptItem.

(** [s.split(sep)[0]] for a one-character separator. *)
Fixpoint split_first (sep : ascii) (s : string) : string :=
  match s with
  | EmptyString => EmptyString
  | String c r => if Ascii.eqb c sep then EmptyString else String c (split_first sep r)
  end.

(** The [except] clauses of [get_receipt]; [rid] is the value of
    [receipt_id] when the exception arrives. *)
Definition get_receipt_handlers {A : Type} (rid : string) (e : exn) : M A :=
  match e with
  | RequestException _ =>
      lift (raise_api (CStr ("Failed to retrieve receipt " +:+ rid)) None)
  | err =>
      lift (raise_api
              (CStr ("Failed to process receipt " +:+ rid +:+ ": " +:+ str_of_exn err)) None)
  end.

(** [get_receipt(receipt_id)]. *)
Definition get_receipt (receipt_id : string) : M ReceiptItem :=
  let request_url := url_export_data +:+ "html?receiptId=" +:+ receipt_id in
  let request_pdf := url_export_data +:+ "pdf?receiptId=" +:+ receipt_id in
  '(response, response_pdf) ←
    try_except
      (response ← send net (get request_url receipts_params);
       response_pdf ← send net (get request_pdf receipts_params);
       lift (raise_for_status response);;
       lift (raise_for_status response_pdf);;
       mret (response, response_pdf))
      (get_receipt_handlers receipt_id);
  let receipt_id := split_first "?" receipt_id in
  try_except
    (lift (new_ReceiptItem receipt_id (body response) (body response_pdf)))
    (get_receipt_handlers receipt_id).

End Receipt.

End MigrosApi.

(** ** Notions used by the statements *)

Module Props.
Import Net Soup MigrosApi.

(** The entries of [ERROR_CODES] as they are written in the class. *)
Definition catalog_entries : list (Exceptions.key * string) :=
  [ (inl 1%Z, "Could not authenticate");
    (inr "1", "Could not authenticate");
    (inl 2%Z, "Could not find username when authenticating");
    (inr "2", "Could not find username when authenticating");
    (inl 3%Z, "Could not authenticate to cumulus");
    (inr "3", "Could not authenticate to cumulus");
    (inl 4%Z, "period_from and period_to should be datetime objects");
    (inr "4", "period_from and period_to should be datetime objects");
    (inl 5%Z, "`period_from` should be <= to `period_to`");
    (inr "5", "`period_from` should be <= to `period_to`");
    (inl 6%Z, "Request again the item and indicate request_pdf=True");
    (inr "6", "Request again the item and indicate request_pdf=True") ].

(** The requests of a trace, in order. *)
Definition requests (t : list event) : list request :=
  omap (fun ev => match ev with Request r => Some r | Sleep _ => None end) t.

(** Every request after the first comes after sleeps of at least one
    second in all since the request before it.  [since] is the time slept
    since the last request, [None] before the first one. *)
Fixpoint paced_from (since : option nat) (t : list event) : bool :=
  match t with
  | [] => true
  | Sleep n :: r => paced_from (Nat.add n <$> since) r
  | Request _ :: r =>
      match since with
      | Some d => (1 <=? d)%nat
      | None => true
      end && paced_from (Some 0%nat) r
  end.

Definition paced (t : list event) : bool := paced_from None t.

(** A response with status 200 and the given body and document. *)
Definition ok_response (u b : string) (doc : list node) : response :=
  mk_response 200 "OK" u b (inr doc).

(** Markup helpers for examples. *)
Definition tag (nm : string) (at_ : list (string * string)) (cl : list string)
    (ch : list node) : node :=
  Tag nm (list_to_map at_) cl ch.

Definition checkbox (v : string) : node :=
  tag "td" [] [] [tag "input" [("type", "checkbox"); ("value", v)] [] []].

Definition detail_link (href label : string) : node :=
  tag "td" [] [] [tag "a" [("href", href)] ["ui-js-toggle-modal"] [Text label]].

Definition cell (s : string) : node := tag "td" [] [] [Text s].

Definition page_link (v : string) : node :=
  tag "a" [("aria-label", "Seite"); ("data-value", v)] [] [Text v].

Definition full_row (v href store cst pts : string) : node :=
  tag "tr" [] [] [checkbox v; detail_link href "x"; cell store; cell cst; cell pts].

(** A login page answered with status 404 and no token in it. *)
Definition c3_response : response :=
  mk_response 404 "Not Found" login_url "<html><body>Not Found</body></html>" (inr []).

Definition c3_net : network := fun _ _ => inr c3_response.

(** The number a text of decimal digits denotes. *)
Fixpoint decimal_value_from (acc : Z) (s : string) : Z :=
  match s with
  | EmptyString => acc
  | String c r => decimal_value_from (10 * acc + Z.of_nat (PyStr.code c - 48)) r
  end.

Definition decimal_value (s : string) : Z := decimal_value_from 0 s.

(** The numeric page-index texts of a page: the [data-value] of every
    pagination link that has one for which [isnumeric] holds, in
    document order. *)
Definition page_index_texts (els : list element) : list string :=
  omap (fun e =>
          if is_page_link e then
            match Soup.get e "data-value" with
            | Some v => if PyStr.isnumeric v then Some v else None
            | None => None
            end
          else None) els.

(** [count] is the greatest of [values], or 1 when there is none. *)
Definition max_or_one (count : Z) (values : list Z) : Prop :=
  match values with
  | [] => count = 1%Z
  | _ :: _ => count ∈ values /\ forall v, v ∈ values -> (v <= count)%Z
  end.

(** A page-index text that [int] reads: decimal digits, no more than
    [int] takes. *)
Definition readable (v : string) : Prop :=
  PyStr.isdecimal v = true /\ (String.length v <= PyInt.int_max_str_digits)%nat.

(** [unaddressed els]: the receipt loop comes to a link without [href]:
    some checkbox of the page whose value is not [all] has, as the first
    detail link after it in the document, a link that has no [href]. *)
Definition unaddressed (els : list element) : Prop :=
  exists (pre rest after : list element) (item link : element),
    els = pre ++ item :: rest
    /\ is_checkbox item = true
    /\ Soup.get item "value" <> Some "all"
    /\ find_next is_modal_link rest = Some (link, after)
    /\ Soup.get link "href" = None.

(** A listing page with the pagination links 1, 2, 3 and 5 and one row
    whose detail link has no [href]. *)
Definition c4_page : list node :=
  [ tag "table" [] []
      [ tag "tr" [] []
          [ checkbox "d1";
            tag "td" [] [] [tag "a" [] ["ui-js-toggle-modal"] [Text "x"]];
            cell "Store"; cell "1.00"; cell "10" ] ];
    page_link "1"; page_link "2"; page_link "3"; page_link "5" ].

(** A listing page whose pagination links carry 3 and a superscript two
    (U+00B2), a character for which [isnumeric] holds. *)
Definition c4_page_superscript : list node :=
  [ page_link "3"; page_link (String (ascii_of_nat 178) EmptyString) ].

(** A listing page with two full rows and the pagination links 1, 2, 3
    and 5. *)
Definition listing_page_1235 : list node :=
  [ tag "table" [] []
      [ full_row "d1" "/service/avantaReceiptExport/html?receiptId=r1" " Store A " "1.00" "10";
        full_row "d2" "/service/avantaReceiptExport/html?receiptId=r2" "Store B" "2.00" "20" ];
    page_link "1"; page_link "2"; page_link "3"; page_link "5" ].

Definition listing_url : string :=
  "https://www.migros.ch/de/cumulus/konto/kassenbons.html".

(** The rows of a page are its [tr] tags; a row has a detail link when a
    link of class [ui-js-toggle-modal] is among its tags, and its
    selector is the first checkbox among them. *)
Definition row_has_detail_link (row : node) : bool :=
  existsb is_modal_link (elements_of row).

Definition row_selector_value (row : node) : option string :=
  match find_next is_checkbox (elements_of row) with
  | Some (item, _) => Soup.get item "value"
  | None => None
  end.

(** Two rows: the first has a selector and three cells but no detail
    link, the second is complete. *)
Definition row_without_link : node :=
  tag "tr" [] [] [checkbox "A"; cell "Store A"; cell "1.00"; cell "10"].

Definition row_complete : node :=
  full_row "B" "/service/avantaReceiptExport/html?receiptId=R2" "Store B" "2.00" "20".

Definition c5_page : list node := [tag "table" [] [] [row_without_link; row_complete]].

(** Two rows: the first has a selector and a detail link but no cell
    after it, the second is complete. *)
Definition row_without_cells : node :=
  tag "tr" [] []
    [checkbox "A"; detail_link "/service/avantaReceiptExport/html?receiptId=R1" "x"].

Definition c5_page_cells : list node :=
  [tag "table" [] [] [row_without_cells; row_complete]].

(** [derived_from els k info]: the page with the elements [els] has a
    checkbox whose [value] attribute is [k], the first detail link after
    that checkbox in document order has an [href], and [info] carries
    that [href] and what follows its last [receiptId=]. *)
Definition derived_from (els : list element) (k : option string) (info : receipt_info)
  : Prop :=
  exists (pre rest after : list element) (item link : element) (href : string),
    els = pre ++ item :: rest
    /\ is_checkbox item = true
    /\ Soup.get item "value" = k
    /\ find_next is_modal_link rest = Some (link, after)
    /\ Soup.get link "href" = Some href
    /\ pdf_ref info = href
    /\ receipt_id info = PyStr.split_last "receiptId=" href.

(** [without item l l']: [l'] is [l] with one occurrence of [item] taken
    out. *)
Definition without (item : element) (l l' : list element) : Prop :=
  exists x post, l = x ++ item :: post /\ l' = x ++ post.

(** The conditions under which the receipt loop passes over a checkbox:
    no detail link follows it, or fewer than three cells follow the
    link (which has an [href]). *)
Definition passed_over (rest : list element) : Prop :=
  find_next is_modal_link rest = None
  \/ exists link after href,
       find_next is_modal_link rest = Some (link, after)
       /\ Soup.get link "href" = Some href
       /\ find_cells after = None.

(** The request for page [p] of a listing. *)
Definition page_request (request_url : string) (p : nat) : request :=
  get (request_url +:+ "&p=" +:+ PyStr.str_of_nat p) receipts_params.

(** The events of fetching [k] pages from page [first] on: the requests
    in ascending order, one second of sleep between two of them. *)
Fixpoint pages_trace (request_url : string) (first k : nat) : list event :=
  match k with
  | O => []
  | S k' =>
      Request (page_request request_url first)
      :: match k' with
         | O => []
         | S _ => Sleep 1 :: pages_trace request_url (S first) k'
         end
  end.

Definition jan_1 : Datetime.datetime := Datetime.mk_datetime 2024 1 1 0 0 0 0 None.
Definition jan_31 : Datetime.datetime := Datetime.mk_datetime 2024 1 31 0 0 0 0 None.

Definition january_url : string := url_receipts (_format_date jan_1) (_format_date jan_31).

(** The page number a listing request asks for, as text. *)
Definition asked_page (r : request) : string := PyStr.split_last "&p=" (url r).

(** The listing of the end-to-end scenario: page 1 has two rows and the
    pagination links 1 and 2, page 2 has one row. *)
Definition two_page_1 : list node :=
  [ tag "table" [] []
      [ full_row "d1" "/service/avantaReceiptExport/html?receiptId=r1" "Store A" "1.00" "10";
        full_row "d2" "/service/avantaReceiptExport/html?receiptId=r2" "Store B" "2.00" "20" ];
    page_link "1"; page_link "2" ].

Definition two_page_2 : list node :=
  [ tag "table" [] []
      [ full_row "d3" "/service/avantaReceiptExport/html?receiptId=r3" "Store C" "3.00" "30" ] ].

Definition two_page_resp (p : nat) : response :=
  ok_response listing_url "(listing)"
    (match p with 1 => two_page_1 | _ => two_page_2 end).

Definition two_page_net : network := fun _ r =>
  inr (if str_eqb (asked_page r) "1" then two_page_resp 1 else two_page_resp 2).

(** A listing whose pagination shows a window of links: page 1 shows the
    links 1 and 2, page 2 the links 1, 2 and 3, page 3 the links 2
    and 3. *)
Definition window_page (p : string) : list node :=
  if str_eqb p "1" then [page_link "1"; page_link "2"]
  else if str_eqb p "2" then [page_link "1"; page_link "2"; page_link "3"]
  else [page_link "2"; page_link "3"].

Definition window_net : network := fun _ r =>
  inr (ok_response listing_url "(listing)" (window_page (asked_page r))).

(** The events of a whole login, with the token [tok] posted. *)
Definition login_post (username password tok : string) : request :=
  mk_request POST login_url []
    [("_csrf", tok); ("username", username); ("password", password);
     ("remember-me", "true")].

Definition login_trace (username password tok : string) : list event :=
  [ Request (get main_page []); Sleep 1;
    Request (get login_url []); Sleep 1; Sleep 2;
    Request (login_post username password tok);
    Request (get cumulus_login cumulus_params) ].

(** A portal on which the login goes through. *)
Definition login_page_body : string :=
  "<meta name=" +:+ csrf_marker +:+ "tok123" +:+ String PyStr.dquote "/>".

Definition friendly_net : network := fun _ r =>
  match meth r with
  | POST => inr (ok_response main_page "(home)" [Text "Welcome"])
  | GET =>
      if str_eqb (url r) login_url
      then inr (ok_response login_url login_page_body [])
      else if str_eqb (url r) cumulus_login
      then inr (ok_response cumulus_login "(account)" [Text "Ihr Cumulus-Konto"])
      else inr (ok_response main_page "(home)" [])
  end.



(** The dictionaries of the end-to-end scenario after page 1 and after
    page 2. *)
Definition two_page_acc (p : nat) : receipts :=
  match p with
  | 0 => ∅
  | 1 =>
      <[Some "d2" := mk_receipt_info "/service/avantaReceiptExport/html?receiptId=r2" "r2"
                       "Store B" "2.00" "20"]>
      (<[Some "d1" := mk_receipt_info "/service/avantaReceiptExport/html?receiptId=r1" "r1"
                        "Store A" "1.00" "10"]> ∅)
  | _ =>
      <[Some "d3" := mk_receipt_info "/service/avantaReceiptExport/html?receiptId=r3" "r3"
                       "Store C" "3.00" "30"]>
      (<[Some "d2" := mk_receipt_info "/service/avantaReceiptExport/html?receiptId=r2" "r2"
                        "Store B" "2.00" "20"]>
       (<[Some "d1" := mk_receipt_info "/service/avantaReceiptExport/html?receiptId=r1" "r1"
                         "Store A" "1.00" "10"]> ∅))
  end.

Definition two_page_total (p : nat) : Z :=
  match p with 1 => 2%Z | _ => 1%Z end.

(** What can be raised inside the [try] of [__authenticate]. *)
Definition auth_body_exn (e : exn) : Prop :=
  (exists le, e = exn_of le)
  \/ (exists m, e = RequestException m)
  \/ (exists m, e = ExceptionMigrosApi (Some "1") (Some m)).


(** A listing of one page, made of the row without detail link and the
    complete row. *)
Definition c6_net : network := fun _ _ =>
  inr (ok_response listing_url "(listing)" c5_page).

(** [from_page net k info]: some response of the network has a document
    from which the entry is derived. *)
Definition from_page (net : network) (k : option string) (info : receipt_info) : Prop :=
  exists t0 req r doc,
    net t0 req = inr r /\ html r = inr doc /\ derived_from (all_elements doc) k info.

(** [no_cut sep a s]: no place inside [a] starts an occurrence of the
    separator in [a +:+ s]. *)
Definition no_cut (sep a s : string) : Prop :=
  forall a1 c a2,
    a = a1 +:+ String c a2 -> PyStr.startswith sep (String c a2 +:+ s) = false.

(** The characters that can stand in a text [int] accepts: digits,
    blanks, signs and the underscore. *)
Definition int_char (c : ascii) : bool :=
  PyStr.isdecimal_char c || PyInt.int_space c
  || Ascii.eqb c "+" || Ascii.eqb c "-" || Ascii.eqb c PyInt.underscore.

(** A network on which every request fails in the transport. *)
Definition down_net : network := fun _ _ => inl (RequestError "Connection refused").

End Props.

(** ** Notions for the properties of the whole code *)

Module Shapes.
Import Net Soup MigrosApi.

(** The record the receipt loop stores for a link with the address
    [href] followed by the three cells. *)
Definition record_of (href : string) (store cost_cell points : element) : receipt_info :=
  mk_receipt_info href (PyStr.split_last "receiptId=" href)
    (PyStr.strip (Soup.text store))
    (PyStr.strip (Soup.text cost_cell))
    (PyStr.strip (Soup.text points)).

(** [built_from els k info]: the page with the elements [els] has a
    checkbox whose [value] is [k] and is not [all]; the first detail link
    after it has an [href]; the first three [td] after that link are the
    cells; and [info] is the record made of them. *)
Definition built_from (els : list element) (k : option string) (info : receipt_info)
  : Prop :=
  exists (pre rest after : list element) (item link store cost_cell points : element)
         (href : string),
    els = pre ++ item :: rest
    /\ is_checkbox item = true
    /\ Soup.get item "value" = k
    /\ k <> Some "all"
    /\ find_next is_modal_link rest = Some (link, after)
    /\ Soup.get link "href" = Some href
    /\ find_cells after = Some (store, cost_cell, points)
    /\ info = record_of href store cost_cell points.

(** [received net request_url t t' k info]: a call that started with the
    events [t] behind it and ended with the events [t'] has sent the
    request for a page of the listing [request_url]; the network
    answered it, at that point, with a response that has a document; and
    the entry is built from that document. *)
Definition received (net : network) (request_url : string) (t t' : list event)
    (k : option string) (info : receipt_info) : Prop :=
  exists (mid rest : list event) (p : nat) (r : response) (doc : list node),
    t' = (t ++ mid) ++ Request (Props.page_request request_url p) :: rest
    /\ net (t ++ mid) (Props.page_request request_url p) = inr r
    /\ html r = inr doc
    /\ built_from (all_elements doc) k info.

(** A text without a blank at either end. *)
Definition trimmed (s : string) : Prop := PyStr.strip s = s.

(** The [td] elements of a list, in order. *)
Definition cells_of (l : list element) : list element :=
  filter (fun e => is_td e = true) l.

(** Two networks that answer alike up to the status line, the final URL
    and the body of their responses: the same transport failures, and
    responses with the same document. *)
Definition same_documents (net1 net2 : network) : Prop :=
  forall t req,
    match net1 t req, net2 t req with
    | inl e1, inl e2 => e1 = e2
    | inr r1, inr r2 => html r1 = html r2
    | _, _ => False
    end.

(** A page with the checkbox that selects all rows and one full row. *)
Definition page_with_select_all : list node :=
  [ Props.tag "table" [] []
      [ Props.tag "tr" [] []
          [ Props.tag "th" [] []
              [Props.tag "input" [("type", "checkbox"); ("value", "all")] [] []] ];
        Props.full_row "d1" "/service/avantaReceiptExport/html?receiptId=r1"
          "Store A" "1.00" "10" ] ].

(** A page on which the same selector value stands in two full rows. *)
Definition page_with_duplicate : list node :=
  [ Props.tag "table" [] []
      [ Props.full_row "d1" "/service/avantaReceiptExport/html?receiptId=r1"
          "Store A" "1.00" "10";
        Props.full_row "d1" "/service/avantaReceiptExport/html?receiptId=r9"
          "Store Z" "9.00" "90" ] ].

(** A listing of which every page shows the pagination link 9. *)
Definition always_nine_net : network := fun _ _ =>
  inr (Props.ok_response Props.listing_url "(listing)" [Props.page_link "9"]).

(** The two requests of [get_receipt]. *)
Definition receipt_html_request (receipt_id : string) : request :=
  get (url_export_data +:+ "html?receiptId=" +:+ receipt_id) receipts_params.

Definition receipt_pdf_request (receipt_id : string) : request :=
  get (url_export_data +:+ "pdf?receiptId=" +:+ receipt_id) receipts_params.

(** A portal that answers every request with status 200 and the body
    [content]. *)
Definition plain_net : network := fun _ r =>
  inr (Props.ok_response (url r) "content" []).

(** A portal that answers every request with status 404. *)
Definition missing_net : network := fun _ r =>
  inr (mk_response 404 "Not Found" (url r) "gone" (inr [])).

(** A page whose last row has a checkbox and cells but no detail link,
    and the same page without that checkbox. *)
Definition page_last_row_no_link : list node :=
  [ Props.tag "table" [] []
      [ Props.full_row "d1" "/service/avantaReceiptExport/html?receiptId=r1"
          "Store A" "1.00" "10";
        Props.tag "tr" [] []
          [ Props.tag "td" [] []
              [Props.tag "input" [("type", "checkbox"); ("value", "d2")] [] []];
            Props.cell "Store B"; Props.cell "2.00"; Props.cell "20" ] ] ].

Definition page_last_row_no_checkbox : list node :=
  [ Props.tag "table" [] []
      [ Props.full_row "d1" "/service/avantaReceiptExport/html?receiptId=r1"
          "Store A" "1.00" "10";
        Props.tag "tr" [] []
          [ Props.tag "td" [] [] [];
            Props.cell "Store B"; Props.cell "2.00"; Props.cell "20" ] ] ].

(** The element at place [n] of a document, in document order. *)
Definition element_at (n : nat) (doc : list node) : element :=
  nth n (all_elements doc) (mk_element EmptyString ∅ [] []).

(** The elements of a login answer that tell of a refusal. *)
Definition error_elements (soup : list node) : list element :=
  filter (fun e => Soup.class_matches error_classes e = true) (all_elements soup).

(** The listing of the end-to-end scenario, answered with status 404, a
    status the session hands on as a response: it is not in
    [status_forcelist]. *)
Definition two_page_net_404 : network := fun _ r =>
  inr (mk_response 404 "Not Found" Props.listing_url "(listing)"
         (inr (if str_eqb (Props.asked_page r) "1"
               then Props.two_page_1 else Props.two_page_2))).

(** A network whose responses the session can hand on: no answer to a
    GET has a status of [status_forcelist]. *)
Definition handed_on (net : network) : Prop :=
  forall t req r, meth req = GET -> net t req = inr r -> status_code r ∉ status_forcelist.

(** A login answer with status 200 that shows an alert. *)
Definition refusing_net : network := fun _ r =>
  match meth r with
  | POST =>
      inr (Props.ok_response login_url "(login)"
             [Props.tag "div" [] ["alert"; "alert-danger"] [Text " Wrong password "]])
  | GET => inr (Props.ok_response login_url Props.login_page_body [])
  end.

End Shapes.

(** * Properties *)

(** ** The error catalog *)

Section Catalog.
Import Exceptions Props.

Lemma ERROR_CODES_entries : ERROR_CODES = list_to_map catalog_entries.
Proof. reflexivity. Qed.

(** Every entry of the catalog is one of the twelve written in the class. *)
Lemma catalog_lookup_inv (k : key) (m : string) :
  ERROR_CODES !! k = Some m -> (k, m) ∈ catalog_entries.
Proof.
  rewrite ERROR_CODES_entries. apply elem_of_list_to_map_2.
Qed.

Lemma key_of_inl (c : pycode) (z : Z) : key_of c = Some (inl z) -> c = CInt z.
Proof. destruct c; simpl; congruence. Qed.

Lemma key_of_inr (c : pycode) (s : string) : key_of c = Some (inr s) -> c = CStr s.
Proof. destruct c; simpl; congruence. Qed.

(** A custom message is kept as it is, whatever the code. *)
Lemma init_custom (c : pycode) (custom : string) :
  init c (Some custom) = Ok (ExceptionMigrosApi (str_of_code c) (Some custom)).
Proof. reflexivity. Qed.

(** The constructor only reads [str(code)]. *)
Lemma init_int_str (z : Z) (msg : option string) :
  init (CInt z) msg = init (CStr (PyStr.str_of_Z z)) msg.
Proof. reflexivity. Qed.

Lemma raise_api_custom {A : Type} (c : pycode) (custom : string) :
  @raise_api A c (Some custom) = Raise (ExceptionMigrosApi (str_of_code c) (Some custom)).
Proof. reflexivity. Qed.

Lemma raise_api_4 {A : Type} :
  @raise_api A (CInt 4) None =
  Raise (ExceptionMigrosApi (Some "4")
           (Some "period_from and period_to should be datetime objects")).
Proof. vm_compute. reflexivity. Qed.

Lemma raise_api_5 {A : Type} :
  @raise_api A (CInt 5) None =
  Raise (ExceptionMigrosApi (Some "5") (Some "`period_from` should be <= to `period_to`")).
Proof. vm_compute. reflexivity. Qed.

(** [int] raises nothing but [ValueError]. *)
Lemma int_raises_ValueError (s : string) (e : exn) :
  PyInt.int s = Raise e -> exists m, e = ValueError m.
Proof.
  unfold PyInt.int.
  destruct (match PyInt.skip_space s with
            | String c r => _
            | EmptyString => _
            end) as [neg t].
  destruct (PyStr.startswith "_" t).
  - intros [= <-]. eexists. reflexivity.
  - destruct (PyInt.scan_digits false 0 0 t) as [[[v n] rest]|].
    + destruct (PyInt.int_max_str_digits <? n)%nat.
      * intros [= <-]. eexists. reflexivity.
      * destruct (n =? 0)%nat.
        -- intros [= <-]. eexists. reflexivity.
        -- destruct (PyInt.skip_space rest); [discriminate|].
           intros [= <-]. eexists. reflexivity.
    + intros [= <-]. eexists. reflexivity.
Qed.

(** A text that starts with a capital letter F is no integer literal. *)
Lemma int_of_message (r : string) :
  PyInt.int (String "F" r) = Raise (PyInt.invalid_literal (String "F" r)).
Proof. reflexivity. Qed.

Lemma catalog_miss_message (r : string) :
  ERROR_CODES !! (inr (String "F" r) : key) = None.
Proof.
  rewrite ERROR_CODES_entries. apply not_elem_of_list_to_map_1.
  unfold catalog_entries. simpl.
  rewrite !elem_of_cons, elem_of_nil.
  intros H. repeat (destruct H as [H|H]; [discriminate H|]). exact H.
Qed.

(** Building the exception from a message passed as the code fails in
    the integer conversion. *)
Lemma raise_api_message {A : Type} (r : string) :
  @raise_api A (CStr (String "F" r)) None = Raise (PyInt.invalid_literal (String "F" r)).
Proof.
  unfold raise_api, init. simpl str_of_code. cbv iota beta.
  rewrite catalog_miss_message. rewrite int_of_message. reflexivity.
Qed.

Lemma skip_space_chars (s : string) :
  PyStr.all_chars int_char (PyInt.skip_space s) = true -> PyStr.all_chars int_char s = true.
Proof.
  induction s as [|c s IH]; [reflexivity|]. simpl.
  destruct (PyInt.int_space c) eqn:E; [|tauto].
  intros H. rewrite (IH H). unfold int_char. rewrite E.
  destruct (PyStr.isdecimal_char c); reflexivity.
Qed.

Lemma skip_space_empty (s : string) :
  PyInt.skip_space s = EmptyString -> PyStr.all_chars int_char s = true.
Proof.
  intros H. apply skip_space_chars. rewrite H. reflexivity.
Qed.

Lemma scan_digits_chars (s : string) (p : bool) (acc : Z) (n : nat)
    (v : Z) (m : nat) (rest : string) :
  PyInt.scan_digits p acc n s = Some (v, m, rest) ->
  PyStr.all_chars int_char rest = true -> PyStr.all_chars int_char s = true.
Proof.
  revert p acc n. induction s as [|c s IH]; intros p acc n H Hrest.
  - simpl in H. destruct p; [discriminate|]. injection H as _ _ <-. exact Hrest.
  - simpl in H.
    destruct (PyStr.isdecimal_char c) eqn:Ed.
    + simpl. unfold int_char at 1. rewrite Ed. simpl. eapply IH; eassumption.
    + destruct (Ascii.eqb c PyInt.underscore) eqn:Eu.
      * simpl. unfold int_char at 1. rewrite Eu, !orb_true_r. simpl.
        destruct p; [discriminate|]. eapply IH; eassumption.
      * destruct p; [discriminate|]. injection H as _ _ <-. exact Hrest.
Qed.

(** A text that [int] reads is made of digits, blanks, signs and
    underscores only. *)
Lemma int_ok_chars (s : string) (z : Z) :
  PyInt.int s = Ok z -> PyStr.all_chars int_char s = true.
Proof.
  unfold PyInt.int. intros H. apply skip_space_chars.
  destruct (PyInt.skip_space s) as [|c t].
  - reflexivity.
  - assert (forall u, (if PyStr.startswith "_" u then Raise (PyInt.invalid_literal s)
                       else match PyInt.scan_digits false 0 0 u with
                            | None => Raise (PyInt.invalid_literal s)
                            | Some (v, n, rest) =>
                                if (PyInt.int_max_str_digits <? n)%nat
                                then Raise (PyInt.too_many_digits n)
                                else if (n =? 0)%nat then Raise (PyInt.invalid_literal s)
                                else match PyInt.skip_space rest with
                                     | EmptyString => Ok v
                                     | String _ _ => Raise (PyInt.invalid_literal s)
                                     end
                            end) = Ok z \/
                      (if PyStr.startswith "_" u then Raise (PyInt.invalid_literal s)
                       else match PyInt.scan_digits false 0 0 u with
                            | None => Raise (PyInt.invalid_literal s)
                            | Some (v, n, rest) =>
                                if (PyInt.int_max_str_digits <? n)%nat
                                then Raise (PyInt.too_many_digits n)
                                else if (n =? 0)%nat then Raise (PyInt.invalid_literal s)
                                else match PyInt.skip_space rest with
                                     | EmptyString => Ok (- v)%Z
                                     | String _ _ => Raise (PyInt.invalid_literal s)
                                     end
                            end) = Ok z ->
                      PyStr.all_chars int_char u = true) as Hu.
    { intros u Hz.
      destruct (PyStr.startswith "_" u); [destruct Hz; discriminate|].
      destruct (PyInt.scan_digits false 0 0 u) as [[[v n] rest]|] eqn:E;
        [|destruct Hz; discriminate].
      destruct (PyInt.int_max_str_digits <? n)%nat; [destruct Hz; discriminate|].
      destruct (n =? 0)%nat; [destruct Hz; discriminate|].
      destruct (PyInt.skip_space rest) eqn:Er; [|destruct Hz; discriminate].
      eapply scan_digits_chars; [exact E|]. apply skip_space_empty, Er. }
    destruct (Ascii.eqb c "+") eqn:Ep.
    + simpl. unfold int_char at 1. rewrite Ep, !orb_true_r. simpl.
      apply Hu. left. exact H.
    + destruct (Ascii.eqb c "-") eqn:Em.
      * simpl. unfold int_char at 1. rewrite Em, !orb_true_r. simpl.
        apply Hu. right. exact H.
      * apply Hu. left. exact H.
Qed.

(** A text with a character that is no digit, blank, sign or underscore
    is no integer literal. *)
Lemma int_foreign_char (s : string) :
  PyStr.all_chars int_char s = false -> exists m, PyInt.int s = Raise (ValueError m).
Proof.
  intros H. destruct (PyInt.int s) as [z|e] eqn:E.
  - rewrite (int_ok_chars s z E) in H. discriminate.
  - destruct (int_raises_ValueError s e E) as [m ->]. eauto.
Qed.

End Catalog.

(** C8. For a code of the catalog, given as a number or as the string of
    that number, the exception built without a message has the message of
    the catalog, and the exception built with a message has that message;
    the number and its string are keys of the same entry and build the
    same exception. *)
Theorem C8_catalog_message (c : Exceptions.pycode) (k : Exceptions.key) (m : string) :
  Exceptions.key_of c = Some k ->
  Exceptions.ERROR_CODES !! k = Some m ->
  Exceptions.init c None = Ok (ExceptionMigrosApi (Exceptions.str_of_code c) (Some m))
  /\ (forall custom : string,
        Exceptions.init c (Some custom)
        = Ok (ExceptionMigrosApi (Exceptions.str_of_code c) (Some custom)))
  /\ (exists z : Z,
        Exceptions.str_of_code c = Some (PyStr.str_of_Z z)
        /\ Exceptions.ERROR_CODES !! (inl z : Exceptions.key) = Some m
        /\ Exceptions.ERROR_CODES !! (inr (PyStr.str_of_Z z) : Exceptions.key) = Some m
        /\ forall msg : option string,
             Exceptions.init (Exceptions.CInt z) msg = Exceptions.init c msg
             /\ Exceptions.init (Exceptions.CStr (PyStr.str_of_Z z)) msg = Exceptions.init c msg).
Proof.
  intros Hk Hm. pose proof (catalog_lookup_inv k m Hm) as Hin.
  unfold Props.catalog_entries in Hin.
  repeat (apply elem_of_cons in Hin as [Hin|Hin];
    [ injection Hin as -> ->;
      first [ apply key_of_inl in Hk | apply key_of_inr in Hk ]; subst c;
      (split; [vm_compute; reflexivity|]);
      (split; [intros custom; reflexivity|]);
      first [ exists 1%Z; repeat split; vm_compute; reflexivity
            | exists 2%Z; repeat split; vm_compute; reflexivity
            | exists 3%Z; repeat split; vm_compute; reflexivity
            | exists 4%Z; repeat split; vm_compute; reflexivity
            | exists 5%Z; repeat split; vm_compute; reflexivity
            | exists 6%Z; repeat split; vm_compute; reflexivity ]
    | ]).
  apply elem_of_nil in Hin. destruct Hin.
Qed.

Lemma C8_catalog_message_witness :
  Exceptions.init (Exceptions.CStr "5") None
  = Ok (ExceptionMigrosApi (Some "5") (Some "`period_from` should be <= to `period_to`")).
Proof.
  apply (C8_catalog_message (Exceptions.CStr "5") (inr "5")
           "`period_from` should be <= to `period_to`"); reflexivity.
Defined.

(** ** The session monad *)

Section MonadFacts.
Import Net.

Lemma bind_unfold {A B : Type} (m : M A) (k : A -> M B) (t : list event) :
  (m ≫= k) t = match m t with
               | (Ok a, t') => k a t'
               | (Raise e, t') => (Raise e, t')
               end.
Proof. reflexivity. Qed.

Lemma bind_send {B : Type} (net : network) (r : request) (k : response -> M B)
    (t : list event) :
  (send net r ≫= k) t = match net t r with
                         | inr a => k a (t ++ [Request r])
                         | inl e => (Raise (exn_of e), t ++ [Request r])
                         end.
Proof. rewrite bind_unfold. unfold send. destruct (net t r); reflexivity. Qed.

Lemma bind_lift {A B : Type} (r : result A) (k : A -> M B) (t : list event) :
  (lift r ≫= k) t = match r with
                     | Ok a => k a t
                     | Raise e => (Raise e, t)
                     end.
Proof. rewrite bind_unfold. unfold lift. destruct r; reflexivity. Qed.

Lemma bind_sleep {B : Type} (n : nat) (k : unit -> M B) (t : list event) :
  (sleep n ≫= k) t = k tt (t ++ [Sleep n]).
Proof. reflexivity. Qed.

Lemma try_except_unfold {A : Type} (m : M A) (h : exn -> M A) (t : list event) :
  try_except m h t = match m t with
                     | (Ok a, t') => (Ok a, t')
                     | (Raise e, t') => h e t'
                     end.
Proof. reflexivity. Qed.

End MonadFacts.

(** ** get_receipt *)

Section ReceiptFacts.
Import Net Exceptions MigrosApi.

Variable net : network.
Variable ReceiptItem : Type.
Variable new_ReceiptItem : string -> string -> string -> result ReceiptItem.

(** Whatever reaches the [except] clauses of [get_receipt], what leaves
    them is the [ValueError] of the integer conversion. *)
Lemma get_receipt_handlers_raise {A : Type} (rid : string) (e : exn) (t : list event) :
  exists m, @get_receipt_handlers A rid e t = (Raise (ValueError m), t).
Proof.
  unfold get_receipt_handlers, lift.
  destruct e; cbv [String.append]; rewrite raise_api_message; eexists; reflexivity.
Qed.

Lemma get_receipt_raises (rid : string) (t t' : list event) (e : exn) :
  get_receipt net ReceiptItem new_ReceiptItem rid t = (Raise e, t') ->
  exists m, e = ValueError m.
Proof.
  unfold get_receipt. rewrite bind_unfold, try_except_unfold.
  match goal with |- context [match ?m t with _ => _ end] => destruct (m t) as [[[r1 r2]|e1] t1] end.
  - rewrite try_except_unfold. unfold lift at 1.
    destruct (new_ReceiptItem _ _ _) as [item|e2].
    + discriminate.
    + destruct (get_receipt_handlers_raise (A := ReceiptItem)
                  (split_first "?" rid) e2 t1) as [m Hm].
      rewrite Hm. intros [= <- _]. eauto.
  - destruct (get_receipt_handlers_raise (A := response * response) rid e1 t1) as [m Hm].
    rewrite Hm. intros [= <- _]. eauto.
Qed.

(** When the first request fails in the transport, the caller gets the
    [ValueError] for the message that was passed as the code. *)
Lemma get_receipt_network_failure (rid m : string) (t : list event) :
  let req := get (url_export_data +:+ "html?receiptId=" +:+ rid) receipts_params in
  net t req = inl (RequestError m) ->
  get_receipt net ReceiptItem new_ReceiptItem rid t
  = (Raise (PyInt.invalid_literal ("Failed to retrieve receipt " +:+ rid)),
     t ++ [Request req]).
Proof.
  intros req Hnet. unfold get_receipt.
  rewrite bind_unfold, try_except_unfold, bind_send. fold req. rewrite Hnet.
  unfold get_receipt_handlers, lift. cbv [String.append].
  rewrite raise_api_message. reflexivity.
Qed.

End ReceiptFacts.

(** C10. Built with no message from a text that is no key of the catalog
    and that [int] does not read as a number, the constructor raises the
    [ValueError] of the conversion in place of the exception; this is
    what happens in [get_receipt], which passes its message as the code:
    a failed request ends in that [ValueError], and no exception leaving
    [get_receipt] is anything else.  A text with a character that is no
    digit, blank, sign or underscore is such a text. *)
Theorem C10_message_as_code_raises_ValueError :
  (forall (s : string) (e : exn),
      Exceptions.ERROR_CODES !! (inr s : Exceptions.key) = None ->
      PyInt.int s = Raise e ->
      Exceptions.init (Exceptions.CStr s) None = Raise e
      /\ exists m, e = ValueError m)
  /\ (forall (net : Net.network) (R : Type) (new_R : string -> string -> string -> result R)
        (rid m : string) (t : list Net.event),
        net t (MigrosApi.get (MigrosApi.url_export_data +:+ "html?receiptId=" +:+ rid)
                 MigrosApi.receipts_params) = inl (Net.RequestError m) ->
        fst (MigrosApi.get_receipt net R new_R rid t)
        = Raise (PyInt.invalid_literal ("Failed to retrieve receipt " +:+ rid)))
  /\ (forall (net : Net.network) (R : Type) (new_R : string -> string -> string -> result R)
        (rid : string) (t : list Net.event) (e : exn),
        fst (MigrosApi.get_receipt net R new_R rid t) = Raise e ->
        exists m, e = ValueError m)
  /\ (forall s : string,
        Exceptions.ERROR_CODES !! (inr s : Exceptions.key) = None ->
        PyStr.all_chars Props.int_char s = false ->
        exists m, Exceptions.init (Exceptions.CStr s) None = Raise (ValueError m)).
Proof.
  split; [|split; [|split]]; cycle 3.
  { intros s Hmiss Hch. destruct (int_foreign_char s Hch) as [m Hm]. exists m.
    unfold Exceptions.init. simpl Exceptions.str_of_code. cbv iota beta.
    rewrite Hmiss, Hm. reflexivity. }
  - intros s e Hmiss Hint. split; [|eapply int_raises_ValueError; eassumption].
    unfold Exceptions.init. simpl Exceptions.str_of_code. cbv iota beta.
    rewrite Hmiss, Hint. reflexivity.
  - intros net R new_R rid m t Hnet.
    rewrite (get_receipt_network_failure net R new_R rid m t Hnet). reflexivity.
  - intros net R new_R rid t e H.
    destruct (MigrosApi.get_receipt net R new_R rid t) as [r t'] eqn:E.
    simpl in H. subst r. eapply get_receipt_raises. exact E.
Qed.

Lemma C10_message_as_code_raises_ValueError_witness :
  Exceptions.init (Exceptions.CStr "Failed to retrieve receipt 42") None
  = Raise (ValueError "invalid literal for int() with base 10: 'Failed to retrieve receipt 42'").
Proof.
  apply (proj1 C10_message_as_code_raises_ValueError
           "Failed to retrieve receipt 42"
           (ValueError "invalid literal for int() with base 10: 'Failed to retrieve receipt 42'")).
  - vm_compute. reflexivity.
  - vm_compute. reflexivity.
Defined.

(** ** Date checks *)

(** C2. A call with a first or second argument that is no [datetime]
    fails with the exception of code 4, and a call with two [datetime]s
    of which the first is later than the second fails with the exception
    of code 5; each carries the message of the catalog, and the events
    after the call are the events before it: nothing was sent. *)
Theorem C2_dates_checked_before_any_request (net : Net.network) (fuel : nat)
    (period_from period_to : Datetime.pyobj) (t : list Net.event) :
  (Datetime.is_datetime period_from = None \/ Datetime.is_datetime period_to = None ->
   MigrosApi.get_all_receipts net fuel period_from period_to t
   = (Raise (ExceptionMigrosApi (Some "4")
               (Exceptions.ERROR_CODES !! (inl 4%Z : Exceptions.key))), t)
   /\ Exceptions.ERROR_CODES !! (inl 4%Z : Exceptions.key)
      = Some "period_from and period_to should be datetime objects")
  /\ (forall a b : Datetime.datetime,
        period_from = Datetime.ODatetime a -> period_to = Datetime.ODatetime b ->
        Datetime.gt a b = Ok true ->
        MigrosApi.get_all_receipts net fuel period_from period_to t
        = (Raise (ExceptionMigrosApi (Some "5")
                    (Exceptions.ERROR_CODES !! (inl 5%Z : Exceptions.key))), t)
        /\ Exceptions.ERROR_CODES !! (inl 5%Z : Exceptions.key)
           = Some "`period_from` should be <= to `period_to`").
Proof.
  split.
  - intros H. split; [|reflexivity].
    unfold MigrosApi.get_all_receipts.
    rewrite try_except_unfold, bind_lift. unfold MigrosApi.validate_dates.
    destruct H as [H|H].
    + rewrite H, raise_api_4. reflexivity.
    + destruct (Datetime.is_datetime period_from); rewrite ?H, raise_api_4; reflexivity.
  - intros a b -> -> Hgt. split; [|reflexivity].
    unfold MigrosApi.get_all_receipts.
    rewrite try_except_unfold, bind_lift. unfold MigrosApi.validate_dates.
    simpl Datetime.is_datetime. cbv iota. rewrite Hgt. unfold rbind.
    rewrite raise_api_5. reflexivity.
Qed.

Lemma C2_dates_checked_before_any_request_witness :
  MigrosApi.get_all_receipts Props.c3_net 3
    (Datetime.ODatetime (Datetime.mk_datetime 2024 1 31 0 0 0 0 None))
    (Datetime.ODatetime (Datetime.mk_datetime 2024 1 1 0 0 0 0 None)) []
  = (Raise (ExceptionMigrosApi (Some "5")
              (Exceptions.ERROR_CODES !! (inl 5%Z : Exceptions.key))), [])
  /\ MigrosApi.get_all_receipts Props.c3_net 3 (Datetime.OStr "2024-01-01")
       (Datetime.ODatetime (Datetime.mk_datetime 2024 1 1 0 0 0 0 None)) []
     = (Raise (ExceptionMigrosApi (Some "4")
                 (Exceptions.ERROR_CODES !! (inl 4%Z : Exceptions.key))), []).
Proof.
  split.
  - apply (proj2 (C2_dates_checked_before_any_request Props.c3_net 3 _ _ [])
             (Datetime.mk_datetime 2024 1 31 0 0 0 0 None)
             (Datetime.mk_datetime 2024 1 1 0 0 0 0 None));
      reflexivity.
  - apply (proj1 (C2_dates_checked_before_any_request Props.c3_net 3
                    (Datetime.OStr "2024-01-01") _ [])).
    left. reflexivity.
Defined.

(** ** The login page and its token *)

Section Token.
Import Net Exceptions MigrosApi Props.

Lemma append_cons (a : ascii) (p x : string) : String a p +:+ x = String a (p +:+ x).
Proof. reflexivity. Qed.

Lemma append_nil (x : string) : EmptyString +:+ x = x.
Proof. reflexivity. Qed.

Lemma startswith_split (p s : string) :
  PyStr.startswith p s = true -> s = p +:+ PyStr.drop (String.length p) s.
Proof.
  revert s. induction p as [|a p IH]; intros s H.
  - reflexivity.
  - destruct s as [|b s]; [discriminate|]. simpl in H.
    destruct (Ascii.eqb_spec a b) as [->|]; [|discriminate].
    rewrite append_cons. simpl PyStr.drop. f_equal. apply IH, H.
Qed.

Lemma startswith_append (p r : string) : PyStr.startswith p (p +:+ r) = true.
Proof.
  induction p as [|a p IH]; [reflexivity|].
  rewrite append_cons. simpl. rewrite Ascii.eqb_refl. exact IH.
Qed.

Lemma drop_append (p r : string) : PyStr.drop (String.length p) (p +:+ r) = r.
Proof. induction p as [|a p IH]; [reflexivity|]. rewrite append_cons. exact IH. Qed.

Lemma csrf_search_eq (s : string) :
  csrf_search s =
  match (if PyStr.startswith csrf_marker s
         then until_quote (PyStr.drop (String.length csrf_marker) s)
         else EmptyString) with
  | String a b => Some (String a b)
  | EmptyString =>
      match s with
      | String _ r => csrf_search r
      | EmptyString => None
      end
  end.
Proof.
  destruct s as [|c s]; [reflexivity|]. cbn [csrf_search].
  destruct (if PyStr.startswith csrf_marker (String c s) then _ else _); reflexivity.
Qed.

Lemma csrf_search_tail (a : ascii) (s : string) :
  csrf_search (String a s) = None -> csrf_search s = None.
Proof.
  rewrite csrf_search_eq.
  destruct (if PyStr.startswith csrf_marker (String a s) then _ else _); [tauto|discriminate].
Qed.

(** The search finds nothing exactly when no place of the text has the
    marker followed by a character other than the double quote. *)
Lemma csrf_search_None (s : string) :
  csrf_search s = None <->
  forall (pre : string) (c : ascii) (rest : string),
    s = pre +:+ csrf_marker +:+ String c rest -> c = PyStr.dquote.
Proof.
  split.
  - intros Hnone pre. revert s Hnone.
    induction pre as [|a pre IH]; intros s Hnone c rest Heq.
    + rewrite append_nil in Heq. rewrite csrf_search_eq in Hnone.
      rewrite Heq, startswith_append, drop_append in Hnone.
      simpl until_quote in Hnone.
      destruct (Ascii.eqb_spec c PyStr.dquote); [assumption|discriminate].
    + rewrite append_cons in Heq. subst s.
      apply csrf_search_tail in Hnone. eapply IH; [exact Hnone|reflexivity].
  - induction s as [|a s IH]; intros H.
    + reflexivity.
    + rewrite csrf_search_eq.
      assert ((if PyStr.startswith csrf_marker (String a s)
               then until_quote (PyStr.drop (String.length csrf_marker) (String a s))
               else EmptyString) = EmptyString) as ->.
      { destruct (PyStr.startswith csrf_marker (String a s)) eqn:E; [|reflexivity].
        apply startswith_split in E.
        destruct (PyStr.drop (String.length csrf_marker) (String a s)) as [|c rest];
          [reflexivity|].
        rewrite (H EmptyString c rest E). reflexivity. }
      apply IH. intros pre c rest Heq.
      apply (H (String a pre) c rest). rewrite append_cons, Heq. reflexivity.
Qed.

Variable net : network.
Variable username password : string.

Lemma authenticate_no_token (t : list event) (r : response) :
  net t (get login_url []) = inr r ->
  raise_for_status r = Ok tt ->
  csrf_search (body r) = None ->
  __authenticate net username password t
  = (Raise (ExceptionMigrosApi (Some "1") (Some "CSRF token not found")),
     t ++ [Request (get login_url []); Sleep 1]).
Proof.
  intros Hnet Hst Htok. unfold __authenticate.
  rewrite try_except_unfold, bind_send, Hnet, bind_lift, Hst, bind_sleep, Htok.
  unfold lift. rewrite raise_api_custom. simpl.
  rewrite <- app_assoc. reflexivity.
Qed.

Lemma authenticate_bad_status (t : list event) (r : response) (m : string) :
  net t (get login_url []) = inr r ->
  raise_for_status r = Raise (RequestException m) ->
  __authenticate net username password t
  = (Raise (ExceptionMigrosApi (Some "1")
              (Some ("Network error during authentication: " +:+ m))),
     t ++ [Request (get login_url [])]).
Proof.
  intros Hnet Hst. unfold __authenticate.
  rewrite try_except_unfold, bind_send, Hnet, bind_lift, Hst.
  unfold authenticate_handlers, lift. rewrite raise_api_custom. reflexivity.
Qed.

Lemma raise_for_status_cases (r : response) :
  raise_for_status r = Ok tt \/ exists m, raise_for_status r = Raise (RequestException m).
Proof.
  unfold raise_for_status.
  destruct (_ && _); [right; eauto|].
  destruct (_ && _); [right; eauto|]. left. reflexivity.
Qed.

Lemma requests_app (t1 t2 : list event) : requests (t1 ++ t2) = requests t1 ++ requests t2.
Proof. unfold requests. apply omap_app. Qed.

End Token.

(** C3, as the code has it.  When the response to the login page passes
    the status check and its body has no token, authentication fails
    with the exception of code 1 and the message [CSRF token not found],
    after the one GET and a sleep.  When the response has an error
    status, which is checked first, authentication fails with code 1 and
    the message [Network error during authentication: ] followed by the
    text of the status error, right after the GET.  A response is in one
    of these two cases; in both the only request sent is that GET: no
    credentials are posted. *)
Theorem C3_no_token_no_post (net : Net.network) (username password : string)
    (t : list Net.event) (r : Net.response) :
  net t (MigrosApi.get MigrosApi.login_url []) = inr r ->
  MigrosApi.csrf_search (Net.body r) = None ->
  (Net.raise_for_status r = Ok tt ->
   MigrosApi.__authenticate net username password t
   = (Raise (ExceptionMigrosApi (Some "1") (Some "CSRF token not found")),
      t ++ [Net.Request (MigrosApi.get MigrosApi.login_url []); Net.Sleep 1]))
  /\ (forall m : string,
        Net.raise_for_status r = Raise (RequestException m) ->
        MigrosApi.__authenticate net username password t
        = (Raise (ExceptionMigrosApi (Some "1")
                    (Some ("Network error during authentication: " +:+ m))),
           t ++ [Net.Request (MigrosApi.get MigrosApi.login_url [])]))
  /\ (Net.raise_for_status r = Ok tt
      \/ exists m : string, Net.raise_for_status r = Raise (RequestException m))
  /\ (exists m : string,
        fst (MigrosApi.__authenticate net username password t)
        = Raise (ExceptionMigrosApi (Some "1") (Some m))
        /\ Props.requests (snd (MigrosApi.__authenticate net username password t))
           = Props.requests t ++ [MigrosApi.get MigrosApi.login_url []]).
Proof.
  intros Hnet Htok. split; [|split; [|split]].
  - intros Hst. apply (authenticate_no_token net username password t r); assumption.
  - intros m Hst. apply (authenticate_bad_status net username password t r m); assumption.
  - apply raise_for_status_cases.
  - destruct (raise_for_status_cases r) as [Hst|[m Hst]].
    + rewrite (authenticate_no_token net username password t r Hnet Hst Htok).
      eexists. split; [reflexivity|]. simpl snd. rewrite requests_app. reflexivity.
    + rewrite (authenticate_bad_status net username password t r m Hnet Hst).
      eexists. split; [reflexivity|]. simpl snd. rewrite requests_app. reflexivity.
Qed.

Lemma C3_no_token_no_post_witness :
  MigrosApi.__authenticate
    (fun _ _ => inr (Props.ok_response MigrosApi.login_url "<html>no token</html>" []))
    "user" "secret" []
  = (Raise (ExceptionMigrosApi (Some "1") (Some "CSRF token not found")),
     [Net.Request (MigrosApi.get MigrosApi.login_url []); Net.Sleep 1]).
Proof.
  apply (proj1 (C3_no_token_no_post
                  (fun _ _ => inr (Props.ok_response MigrosApi.login_url
                                     "<html>no token</html>" []))
                  "user" "secret" []
                  (Props.ok_response MigrosApi.login_url "<html>no token</html>" [])
                  eq_refl eq_refl)).
  reflexivity.
Defined.

(** C3 as it was stated fails: a login page answered with status 404 has
    no token in its body, and authentication fails with the message of a
    network error, not with the message of the missing token. *)
Lemma C3_counterexample :
  Props.c3_net [] (MigrosApi.get MigrosApi.login_url []) = inr Props.c3_response
  /\ MigrosApi.csrf_search (Net.body Props.c3_response) = None
  /\ fst (MigrosApi.__authenticate Props.c3_net "user" "secret" [])
     = Raise (ExceptionMigrosApi (Some "1")
         (Some "Network error during authentication: 404 Client Error: Not Found for url: https://login.migros.ch/login"))
  /\ fst (MigrosApi.__authenticate Props.c3_net "user" "secret" [])
     <> Raise (ExceptionMigrosApi (Some "1") (Some "CSRF token not found")).
Proof.
  split; [reflexivity|]. split; [reflexivity|]. split; [reflexivity|].
  intros H. vm_compute in H. discriminate H.
Qed.

(** ** The record extractor *)

Section Extractor.
Import Net Exceptions Soup MigrosApi Props.

(** What [find_next] returns is the first match, with what precedes it
    free of matches. *)
Lemma find_next_Some (p : element -> bool) (l : list element) (e : element)
    (r : list element) :
  find_next p l = Some (e, r) ->
  p e = true /\ exists pre, l = pre ++ e :: r /\ Forall (fun x => p x = false) pre.
Proof.
  revert e r. induction l as [|x l IH]; intros e r H; [discriminate|].
  simpl in H. destruct (p x) eqn:Px.
  - injection H as <- <-. split; [assumption|]. exists []. split; [reflexivity|constructor].
  - destruct (IH e r H) as [Pe [pre [-> Hpre]]].
    split; [assumption|]. exists (x :: pre). split; [reflexivity|].
    constructor; assumption.
Qed.

Lemma find_next_None (p : element -> bool) (l : list element) :
  find_next p l = None <-> Forall (fun x => p x = false) l.
Proof.
  induction l as [|x l IH]; simpl.
  - split; [constructor|reflexivity].
  - destruct (p x) eqn:Px.
    + split; [discriminate|]. intros H. apply Forall_cons in H as [H _]. congruence.
    + rewrite IH. split; [intros H; constructor; assumption|].
      intros H. apply Forall_cons in H as [_ H]. exact H.
Qed.

Lemma find_next_elem (p : element -> bool) (l : list element) (e : element)
    (r : list element) :
  find_next p l = Some (e, r) -> e ∈ l.
Proof.
  intros H. destruct (find_next_Some p l e r H) as [_ [pre [-> _]]].
  apply elem_of_app. right. apply elem_of_cons. left. reflexivity.
Qed.

(** A digit is none of the characters [int] treats apart. *)
Lemma decimal_char_plain (c : ascii) :
  PyStr.isdecimal_char c = true ->
  PyInt.int_space c = false /\ Ascii.eqb c "+" = false /\ Ascii.eqb c "-" = false
  /\ Ascii.eqb c PyInt.underscore = false.
Proof.
  destruct c as [b0 b1 b2 b3 b4 b5 b6 b7].
  destruct b0, b1, b2, b3, b4, b5, b6, b7; intros H;
    first [discriminate H | repeat split; reflexivity].
Qed.

Lemma scan_digits_decimal (s : string) (acc : Z) (n : nat) :
  PyStr.all_chars PyStr.isdecimal_char s = true ->
  PyInt.scan_digits false acc n s
  = Some (decimal_value_from acc s, (n + String.length s)%nat, EmptyString).
Proof.
  revert acc n. induction s as [|c s IH]; intros acc n H.
  - simpl. rewrite Nat.add_0_r. reflexivity.
  - simpl in H. apply andb_prop in H as [Hc Hs].
    simpl. rewrite Hc. rewrite (IH _ _ Hs). f_equal. f_equal. f_equal. lia.
Qed.

(** [int] reads a text of at most 4300 decimal digits as its number. *)
Lemma int_decimal (v : string) :
  PyStr.isdecimal v = true ->
  (String.length v <= PyInt.int_max_str_digits)%nat ->
  PyInt.int v = Ok (decimal_value v).
Proof.
  unfold PyStr.isdecimal. intros H Hlen.
  apply andb_prop in H as [Hne Hall].
  destruct v as [|c v]; [discriminate|].
  pose proof Hall as Hall'. simpl in Hall'. apply andb_prop in Hall' as [Hc _].
  destruct (decimal_char_plain c Hc) as [Hsp [Hplus [Hminus Hus]]].
  unfold PyInt.int. simpl PyInt.skip_space. rewrite Hsp, Hplus, Hminus.
  change (PyStr.startswith "_" (String c v))
    with (if Ascii.eqb PyInt.underscore c then true else false).
  rewrite Ascii.eqb_sym, Hus.
  rewrite (scan_digits_decimal _ _ _ Hall). simpl Nat.add.
  simpl String.length in *.
  destruct (PyInt.int_max_str_digits <? S (String.length v))%nat eqn:E.
  - apply Nat.ltb_lt in E. lia.
  - reflexivity.
Qed.

Lemma page_values_decimal (els : list element) :
  (forall v, v ∈ page_index_texts els ->
     PyStr.isdecimal v = true /\ (String.length v <= PyInt.int_max_str_digits)%nat) ->
  page_values els = Ok (map decimal_value (page_index_texts els)).
Proof.
  induction els as [|e els IH]; intros H; [reflexivity|].
  unfold page_index_texts in *. simpl in *.
  destruct (is_page_link e); [|apply IH, H].
  destruct (Soup.get e "data-value") as [v|]; [|apply IH, H].
  assert (PyStr.nonempty v && PyStr.isnumeric v = PyStr.isnumeric v) as ->.
  { unfold PyStr.isnumeric. destruct (PyStr.nonempty v); reflexivity. }
  destruct (PyStr.isnumeric v); [|apply IH, H].
  destruct (H v) as [Hd Hl]; [apply elem_of_cons; left; reflexivity|].
  rewrite (int_decimal v Hd Hl). simpl. rewrite IH; [reflexivity|].
  intros w Hw. apply H. apply elem_of_cons. right. exact Hw.
Qed.

Lemma fold_max_spec (zs : list Z) (z : Z) :
  fold_left Z.max zs z ∈ z :: zs /\ forall v, v ∈ z :: zs -> (v <= fold_left Z.max zs z)%Z.
Proof.
  revert z. induction zs as [|y zs IH]; intros z; simpl.
  - split; [apply elem_of_cons; left; reflexivity|].
    intros v Hv. apply elem_of_cons in Hv as [->|Hv]; [lia|]. apply elem_of_nil in Hv. tauto.
  - destruct (IH (Z.max z y)) as [Hin Hub]. split.
    + apply elem_of_cons in Hin as [Hin|Hin].
      * rewrite Hin. destruct (Z.max_spec z y) as [[_ ->]|[_ ->]].
        -- apply elem_of_cons. right. apply elem_of_cons. left. reflexivity.
        -- apply elem_of_cons. left. reflexivity.
      * apply elem_of_cons. right. apply elem_of_cons. right. exact Hin.
    + intros v Hv.
      assert (Z.max z y <= fold_left Z.max zs (Z.max z y))%Z as Hm.
      { apply Hub. apply elem_of_cons. left. reflexivity. }
      apply elem_of_cons in Hv as [->|Hv]; [lia|].
      apply elem_of_cons in Hv as [->|Hv]; [lia|].
      apply Hub. apply elem_of_cons. right. exact Hv.
Qed.

(** [total_of] is the greatest page number, or 1 for no page number. *)
Lemma total_of_spec (pages : list Z) : max_or_one (total_of pages) pages.
Proof. destruct pages as [|z zs]; [reflexivity|]. apply fold_max_spec. Qed.

(** The receipt loop returns when every detail link has an [href]. *)
Lemma parse_items_returns (l : list element) (d : receipts) :
  (forall e, e ∈ l -> is_modal_link e = true -> is_Some (Soup.get e "href")) ->
  exists d', parse_items l d = Ok d'.
Proof.
  revert d. induction l as [|item rest IH]; intros d H; [eexists; reflexivity|].
  assert (forall d0, exists d', parse_items rest d0 = Ok d') as IH'.
  { intros d0. apply IH. intros e He. apply H. apply elem_of_cons. right. exact He. }
  simpl. destruct (is_checkbox item); [|apply IH'].
  destruct (bool_decide _); [apply IH'|].
  destruct (find_next is_modal_link rest) as [[link after]|] eqn:E; [|apply IH'].
  destruct (find_next_Some _ _ _ _ E) as [Hl _].
  destruct (H link) as [href Hhref];
    [apply elem_of_cons; right; eapply find_next_elem; exact E|exact Hl|].
  rewrite Hhref. destruct (find_cells after) as [[[s c] p]|]; apply IH'.
Qed.

End Extractor.

(** The page counts of the example of the specification: the links 1, 2,
    3 and 5 give 5, and a page without links gives 1. *)
Example page_count_examples :
  fst <$> match MigrosApi._parse_receipt_data
            (Props.ok_response Props.listing_url "(listing)" Props.listing_page_1235) ∅ with
          | Ok r => Some r
          | Raise _ => None
          end = Some 5%Z
  /\ fst <$> match MigrosApi._parse_receipt_data
               (Props.ok_response Props.listing_url "(listing)" []) ∅ with
             | Ok r => Some r
             | Raise _ => None
             end = Some 1%Z.
Proof. split; vm_compute; reflexivity. Qed.

(** Two pages on which no page count is reported: a page with the
    pagination links 1, 2, 3 and 5 and a row whose detail link has no
    [href] makes the extraction raise; so does a page whose pagination
    links carry 3 and a superscript two. *)
Example page_count_lost_examples :
  Props.page_index_texts (Soup.all_elements Props.c4_page) = ["1"; "2"; "3"; "5"]
  /\ MigrosApi._parse_receipt_data
       (Props.ok_response Props.listing_url "(listing)" Props.c4_page) ∅
     = Raise (Exception
         "Failed to parse receipt data: 'NoneType' object has no attribute 'split'")
  /\ Props.page_index_texts (Soup.all_elements Props.c4_page_superscript)
     = ["3"; String (ascii_of_nat 178) EmptyString]
  /\ MigrosApi._parse_receipt_data
       (Props.ok_response Props.listing_url "(listing)" Props.c4_page_superscript) ∅
     = Raise (Exception
         ("Failed to parse receipt data: invalid literal for int() with base 10: '"
          +:+ String (ascii_of_nat 178) "'")).
Proof. repeat split; vm_compute; reflexivity. Qed.

(** C5 at the failing input.  The first row of the page has a selector
    with value [A] and no detail link; the extraction returns, and the
    dictionary has an entry under [A], made of the link and the cells of
    the row after it.  A row that has its link but no cell gets an
    entry as well, made of its link and of the first three cells of the
    row after it (the cell of the checkbox, the cell of the link and the
    store cell). *)
Theorem C5_row_without_link_is_emitted :
  Props.row_has_detail_link Props.row_without_link = false
  /\ Props.row_selector_value Props.row_without_link = Some "A"
  /\ (exists d : MigrosApi.receipts,
        MigrosApi._parse_receipt_data
          (Props.ok_response Props.listing_url "(listing)" Props.c5_page) ∅
        = Ok (1%Z, d)
        /\ d !! Some "A"
           = Some (MigrosApi.mk_receipt_info
                     "/service/avantaReceiptExport/html?receiptId=R2" "R2"
                     "Store B" "2.00" "20"))
  /\ (exists d : MigrosApi.receipts,
        MigrosApi._parse_receipt_data
          (Props.ok_response Props.listing_url "(listing)" Props.c5_page_cells) ∅
        = Ok (1%Z, d)
        /\ d !! Some "A"
           = Some (MigrosApi.mk_receipt_info
                     "/service/avantaReceiptExport/html?receiptId=R1" "R1"
                     EmptyString "x" "Store B")).
Proof.
  split; [reflexivity|]. split; [reflexivity|]. split.
  - eexists. split; [vm_compute; reflexivity|]. vm_compute. reflexivity.
  - eexists. split; [vm_compute; reflexivity|]. vm_compute. reflexivity.
Qed.

(** ** Rows passed over, and where the entries come from *)

Section Rows.
Import Net Exceptions Soup MigrosApi Props.

Lemma find_next_app (p : element -> bool) (x y : list element) :
  find_next p (x ++ y)
  = match find_next p x with
    | Some (e, r) => Some (e, r ++ y)
    | None => find_next p y
    end.
Proof.
  induction x as [|a x IH]; [reflexivity|].
  simpl. destruct (p a); [reflexivity|exact IH].
Qed.

(** Looking forward does not see an element the criterion rejects: the
    match is the same, and what follows it is the same up to that
    element. *)
Lemma find_next_without (p : element -> bool) (item : element) (l l' : list element) :
  p item = false -> l = l' \/ without item l l' ->
  match find_next p l, find_next p l' with
  | Some (e, r), Some (e', r') => e = e' /\ (r = r' \/ without item r r')
  | None, None => True
  | _, _ => False
  end.
Proof.
  intros Hp [<-|[x [post [-> ->]]]].
  - destruct (find_next p l) as [[e r]|]; [|exact I]. split; [reflexivity|left; reflexivity].
  - rewrite !find_next_app.
    destruct (find_next p x) as [[e r]|].
    + split; [reflexivity|]. right. exists r, post. split; reflexivity.
    + simpl. rewrite Hp. destruct (find_next p post) as [[e r]|]; [|exact I].
      split; [reflexivity|left; reflexivity].
Qed.

Lemma find_cells_without (item : element) (l l' : list element) :
  is_td item = false -> l = l' \/ without item l l' ->
  find_cells l = find_cells l'.
Proof.
  intros Hp H. unfold find_cells.
  pose proof (find_next_without is_td item l l' Hp H) as H1.
  destruct (find_next is_td l) as [[e1 r1]|], (find_next is_td l') as [[e1' r1']|];
    try contradiction; [|reflexivity].
  destruct H1 as [<- H1].
  pose proof (find_next_without is_td item r1 r1' Hp H1) as H2.
  destruct (find_next is_td r1) as [[e2 r2]|], (find_next is_td r1') as [[e2' r2']|];
    try contradiction; [|reflexivity].
  destruct H2 as [<- H2].
  pose proof (find_next_without is_td item r2 r2' Hp H2) as H3.
  destruct (find_next is_td r2) as [[e3 r3]|], (find_next is_td r2') as [[e3' r3']|];
    try contradiction; [|reflexivity].
  destruct H3 as [<- _]. reflexivity.
Qed.

Lemma checkbox_not_link (item : element) :
  is_checkbox item = true ->
  is_modal_link item = false /\ is_td item = false /\ is_page_link item = false.
Proof.
  unfold is_checkbox, is_modal_link, is_td, is_page_link, str_eqb.
  intros H. apply andb_prop in H as [H _]. apply bool_decide_eq_true in H.
  rewrite H. repeat split; reflexivity.
Qed.

(** A checkbox that the loop passes over leaves no trace: the loop over
    the page gives what it gives over the page without that checkbox,
    be it a dictionary or an exception. *)
Lemma parse_items_passed_over (pre post : list element) (item : element) (d : receipts) :
  is_checkbox item = true ->
  passed_over post ->
  parse_items (pre ++ item :: post) d = parse_items (pre ++ post) d.
Proof.
  intros Hcb Hskip. destruct (checkbox_not_link item Hcb) as [Hl [Htd _]].
  revert d. induction pre as [|x pre IH]; intros d.
  - simpl. rewrite Hcb.
    destruct (bool_decide (Soup.get item "value" = Some "all")); [reflexivity|].
    destruct Hskip as [->|[link [after [href [-> [-> ->]]]]]]; reflexivity.
  - simpl. destruct (is_checkbox x); [|apply IH].
    destruct (bool_decide (Soup.get x "value" = Some "all")); [apply IH|].
    pose proof (find_next_without is_modal_link item (pre ++ item :: post) (pre ++ post) Hl) as H.
    destruct (find_next is_modal_link (pre ++ item :: post)) as [[link after]|],
             (find_next is_modal_link (pre ++ post)) as [[link' after']|];
      try (exfalso; apply H; right; exists pre, post; split; reflexivity);
      [|apply IH].
    destruct H as [<- Hafter]; [right; exists pre, post; split; reflexivity|].
    destruct (Soup.get link "href"); [|reflexivity].
    rewrite (find_cells_without item after after' Htd Hafter).
    destruct (find_cells after') as [[[c1 c2] c3]|]; apply IH.
Qed.

Lemma page_values_without (pre post : list element) (item : element) :
  is_page_link item = false ->
  page_values (pre ++ item :: post) = page_values (pre ++ post).
Proof.
  intros H. induction pre as [|x pre IH].
  - simpl. rewrite H. reflexivity.
  - simpl. rewrite IH. reflexivity.
Qed.

(** Every entry the loop adds comes from a checkbox of the page and the
    first detail link after it. *)
Lemma parse_items_provenance (els pre l : list element) (d d' : receipts) :
  els = pre ++ l ->
  parse_items l d = Ok d' ->
  forall k info, d' !! k = Some info -> d !! k = Some info \/ derived_from els k info.
Proof.
  revert pre d. induction l as [|item rest IH]; intros pre d Hels Hrun k info Hk.
  - injection Hrun as <-. left. exact Hk.
  - assert (els = (pre ++ [item]) ++ rest) as Hels'.
    { rewrite <- app_assoc. exact Hels. }
    simpl in Hrun.
    destruct (is_checkbox item) eqn:Hcb; [|eapply IH; eassumption].
    destruct (bool_decide (Soup.get item "value" = Some "all")); [eapply IH; eassumption|].
    destruct (find_next is_modal_link rest) as [[link after]|] eqn:Hlink;
      [|eapply IH; eassumption].
    destruct (Soup.get link "href") as [href|] eqn:Hhref; [|discriminate].
    destruct (find_cells after) as [[[c1 c2] c3]|]; [|eapply IH; eassumption].
    destruct (IH _ _ Hels' Hrun k info Hk) as [Hin|Hder]; [|right; exact Hder].
    destruct (decide (Soup.get item "value" = k)) as [Heq|Hne].
    + rewrite Heq, lookup_insert_eq in Hin. injection Hin as <-.
      right. exists pre, rest, after, item, link, href.
      repeat split; assumption || reflexivity.
    + rewrite lookup_insert_ne in Hin by exact Hne. left. exact Hin.
Qed.

End Rows.

(** ** The walk over the pages *)

Section Pages.
Import Net Exceptions Soup MigrosApi Props.

Variable net : network.

(** One turn of the loop. *)
Lemma fetch_pages_step (fuel : nat) (request_url : string) (p : nat) (d : receipts)
    (t : list event) :
  fetch_pages net (S fuel) request_url p d t
  = match net t (page_request request_url p) with
    | inl e => (Raise (exn_of e), t ++ [Request (page_request request_url p)])
    | inr r =>
        match _parse_receipt_data r d with
        | Raise e => (Raise e, t ++ [Request (page_request request_url p)])
        | Ok (total_pages, d') =>
            if (total_pages <=? Z.of_nat p)%Z
            then (Ok (Some d'), t ++ [Request (page_request request_url p)])
            else fetch_pages net fuel request_url (S p) d'
                   (t ++ [Request (page_request request_url p); Sleep 1])
        end
    end.
Proof.
  cbn [fetch_pages]. rewrite bind_send. fold (page_request request_url p).
  destruct (net t (page_request request_url p)) as [e|r]; [reflexivity|].
  rewrite bind_lift. destruct (_parse_receipt_data r d) as [[total d']|e]; [|reflexivity].
  destruct (total <=? Z.of_nat p)%Z; [reflexivity|].
  rewrite bind_sleep, <- app_assoc. reflexivity.
Qed.

Lemma pages_trace_next (request_url : string) (p k : nat) (t : list event) :
  (t ++ [Request (page_request request_url p); Sleep 1])
    ++ pages_trace request_url (S p) (S k)
  = t ++ pages_trace request_url p (S (S k)).
Proof. rewrite <- app_assoc. reflexivity. Qed.

(** Unless the fuel runs out, the events of the loop are the requests
    for the pages [p], [p+1], ... in this order, with one second of
    sleep between two of them. *)
Lemma fetch_pages_trace (fuel : nat) (request_url : string) (p : nat) (d : receipts)
    (t : list event) :
  fst (fetch_pages net fuel request_url p d t) <> Ok None ->
  exists k, (1 <= k <= fuel)%nat
            /\ snd (fetch_pages net fuel request_url p d t)
               = t ++ pages_trace request_url p k.
Proof.
  revert p d t. induction fuel as [|fuel IH]; intros p d t H.
  - exfalso. apply H. reflexivity.
  - rewrite fetch_pages_step in *.
    destruct (net t (page_request request_url p)) as [e|r];
      [exists 1%nat; split; [lia|reflexivity]|].
    destruct (_parse_receipt_data r d) as [[total d']|e];
      [|exists 1%nat; split; [lia|reflexivity]].
    destruct (total <=? Z.of_nat p)%Z; [exists 1%nat; split; [lia|reflexivity]|].
    destruct (IH _ _ _ H) as [k [Hk ->]].
    exists (S k). split; [lia|].
    destruct k as [|k]; [lia|]. apply pages_trace_next.
Qed.

(** On a listing that answers page [p] with [resp p], whatever came
    before, the loop stops at the first page [n] whose own page count
    does not exceed [n]; [acc p] is the dictionary after page [p]. *)
Lemma fetch_pages_static (request_url : string) (n : nat) (resp : nat -> response)
    (total : nat -> Z) (acc : nat -> receipts) :
  (forall t p, (1 <= p <= n)%nat -> net t (page_request request_url p) = inr (resp p)) ->
  (forall p, (1 <= p <= n)%nat ->
     _parse_receipt_data (resp p) (acc (p - 1)%nat) = Ok (total p, acc p)) ->
  (forall p, (1 <= p < n)%nat -> (Z.of_nat p < total p)%Z) ->
  (total n <= Z.of_nat n)%Z ->
  forall j p fuel t, (p + j = n)%nat -> (1 <= p)%nat -> (j < fuel)%nat ->
    fetch_pages net fuel request_url p (acc (p - 1)%nat) t
    = (Ok (Some (acc n)), t ++ pages_trace request_url p (S j)).
Proof.
  intros Hnet Hparse Hmore Hlast.
  induction j as [|j IH]; intros p fuel t Hp H1 Hfuel.
  - destruct fuel as [|fuel]; [lia|].
    assert (p = n) as -> by lia.
    rewrite fetch_pages_step, Hnet, Hparse by lia.
    destruct (Z.leb_spec (total n) (Z.of_nat n)); [reflexivity|lia].
  - destruct fuel as [|fuel]; [lia|].
    rewrite fetch_pages_step, Hnet, Hparse by lia.
    destruct (Z.leb_spec (total p) (Z.of_nat p)) as [Hle|_].
    + specialize (Hmore p). lia.
    + replace (acc p) with (acc (S p - 1)%nat) by (f_equal; lia).
      rewrite (IH (S p) fuel) by lia. rewrite pages_trace_next. reflexivity.
Qed.

Lemma requests_pages_trace (request_url : string) (p k : nat) :
  requests (pages_trace request_url p k) = map (page_request request_url) (seq p k).
Proof.
  revert p. induction k as [|k IH]; intros p; [reflexivity|].
  destruct k as [|k]; [reflexivity|].
  change (requests (pages_trace request_url p (S (S k))))
    with (page_request request_url p :: requests (pages_trace request_url (S p) (S k))).
  rewrite IH. reflexivity.
Qed.

Lemma paced_pages_trace (request_url : string) (p k : nat) (since : option nat) :
  (since = None \/ exists d, since = Some d /\ (1 <= d)%nat) ->
  paced_from since (pages_trace request_url p k) = true.
Proof.
  revert p since. induction k as [|k IH]; intros p since Hs; [reflexivity|].
  assert (match since with Some d => (1 <=? d)%nat | None => true end = true) as Hc.
  { destruct Hs as [->|[d [-> Hd]]]; [reflexivity|]. apply Nat.leb_le. exact Hd. }
  destruct k as [|k].
  - change (paced_from since (pages_trace request_url p 1))
      with (match since with Some d => (1 <=? d)%nat | None => true end && true).
    rewrite Hc. reflexivity.
  - change (paced_from since (pages_trace request_url p (S (S k))))
      with (match since with Some d => (1 <=? d)%nat | None => true end
            && paced_from (Some 1%nat) (pages_trace request_url (S p) (S k))).
    rewrite Hc, IH; [reflexivity|]. right. exists 1%nat. split; [reflexivity|lia].
Qed.

(** The handlers of [get_all_receipts] change the exception only. *)
Lemma get_all_receipts_unfold (fuel : nat) (period_from period_to : Datetime.pyobj)
    (t : list event) :
  get_all_receipts net fuel period_from period_to t
  = match validate_dates period_from period_to with
    | Raise e =>
        (Raise (match e with
                | ExceptionMigrosApi _ _ => e
                | err => Exception ("Failed to get receipts: " +:+ str_of_exn err)
                end), t)
    | Ok (a, b) =>
        match fetch_pages net fuel (url_receipts (_format_date a) (_format_date b)) 1 ∅ t with
        | (Ok r, t') => (Ok r, t')
        | (Raise e, t') =>
            (Raise (match e with
                    | ExceptionMigrosApi _ _ => e
                    | err => Exception ("Failed to get receipts: " +:+ str_of_exn err)
                    end), t')
        end
    end.
Proof.
  unfold get_all_receipts. rewrite try_except_unfold, bind_lift.
  destruct (validate_dates period_from period_to) as [[a b]|e].
  - destruct (fetch_pages net fuel _ 1 ∅ t) as [[r|e] t']; [reflexivity|].
    destruct e; reflexivity.
  - destruct e; reflexivity.
Qed.

Lemma validate_dates_ok (a b : Datetime.datetime) :
  Datetime.gt a b = Ok false ->
  validate_dates (Datetime.ODatetime a) (Datetime.ODatetime b) = Ok (a, b).
Proof. intros H. unfold validate_dates. simpl. rewrite H. reflexivity. Qed.

(** Whatever the arguments and the network, the events of a call that
    does not run out of fuel are the requests for the pages 1, 2, ...
    of one URL, one second of sleep between two of them. *)
Lemma get_all_receipts_trace (fuel : nat) (period_from period_to : Datetime.pyobj)
    (t : list event) :
  fst (get_all_receipts net fuel period_from period_to t) <> Ok None ->
  exists request_url k,
    (k <= fuel)%nat
    /\ snd (get_all_receipts net fuel period_from period_to t)
       = t ++ pages_trace request_url 1 k.
Proof.
  rewrite get_all_receipts_unfold.
  destruct (validate_dates period_from period_to) as [[a b]|e].
  - intros H.
    destruct (fetch_pages_trace fuel (url_receipts (_format_date a) (_format_date b)) 1 ∅ t)
      as [k [Hk Htr]].
    { destruct (fetch_pages net fuel _ 1 ∅ t) as [[r|e] t']; [exact H|discriminate]. }
    exists (url_receipts (_format_date a) (_format_date b)), k. split; [lia|].
    destruct (fetch_pages net fuel _ 1 ∅ t) as [[r|e] t']; exact Htr.
  - intros _. exists EmptyString, 0%nat. split; [lia|]. simpl. rewrite app_nil_r. reflexivity.
Qed.

End Pages.

(** C1, as the code has it.  For a valid date range, the events of a
    call are the requests for the pages 1, 2, ... in ascending order.
    The loop bound is read again from every page: on a listing that
    answers page [p] with [resp p], the call stops at the first page [n]
    whose own count [total n] does not exceed [n], and with fuel for [n]
    pages it returns the dictionary accumulated over the pages 1 to [n]
    after exactly the requests for these pages.  (When every page up to
    [n] reports the count [n], as in a two-page listing whose pages
    report 2 and at most 2, these are exactly [n] requests.) *)
Theorem C1_pages_walk (net : Net.network) (fuel : nat) (a b : Datetime.datetime)
    (t : list Net.event) :
  Datetime.gt a b = Ok false ->
  let request_url :=
    MigrosApi.url_receipts (MigrosApi._format_date a) (MigrosApi._format_date b) in
  let run :=
    MigrosApi.get_all_receipts net fuel (Datetime.ODatetime a) (Datetime.ODatetime b) t in
  (fst run <> Ok None ->
   exists k, (k <= fuel)%nat
             /\ snd run = t ++ Props.pages_trace request_url 1 k
             /\ Props.requests (Props.pages_trace request_url 1 k)
                = map (Props.page_request request_url) (seq 1 k))
  /\ (forall (n : nat) (resp : nat -> Net.response) (total : nat -> Z)
         (acc : nat -> MigrosApi.receipts),
        acc 0%nat = ∅ ->
        (forall t' p, (1 <= p <= n)%nat ->
           net t' (Props.page_request request_url p) = inr (resp p)) ->
        (forall p, (1 <= p <= n)%nat ->
           MigrosApi._parse_receipt_data (resp p) (acc (p - 1)%nat) = Ok (total p, acc p)) ->
        (forall p, (1 <= p < n)%nat -> (Z.of_nat p < total p)%Z) ->
        (total n <= Z.of_nat n)%Z ->
        (1 <= n <= fuel)%nat ->
        run = (Ok (Some (acc n)), t ++ Props.pages_trace request_url 1 n)
        /\ Props.requests (Props.pages_trace request_url 1 n)
           = map (Props.page_request request_url) (seq 1 n)).
Proof.
  intros Hgt request_url run. split.
  - intros Hrun. subst run. rewrite get_all_receipts_unfold in *.
    rewrite (validate_dates_ok a b Hgt) in *. fold request_url in Hrun |- *.
    destruct (fetch_pages_trace net fuel request_url 1 ∅ t) as [k [Hk Htr]].
    { destruct (MigrosApi.fetch_pages net fuel request_url 1 ∅ t) as [[r|e] t'];
        [exact Hrun|discriminate]. }
    exists k. split; [lia|]. split; [|apply requests_pages_trace].
    destruct (MigrosApi.fetch_pages net fuel request_url 1 ∅ t) as [[r|e] t']; exact Htr.
  - intros n resp total acc Hacc Hnet Hparse Hmore Hlast Hn.
    split; [|apply requests_pages_trace].
    subst run. rewrite get_all_receipts_unfold, (validate_dates_ok a b Hgt).
    fold request_url.
    pose proof (fetch_pages_static net request_url n resp total acc Hnet Hparse Hmore Hlast
                  (n - 1)%nat 1%nat fuel t) as H.
    change (acc (1 - 1)%nat) with (acc 0%nat) in H. rewrite Hacc in H.
    rewrite H by lia. replace (S (n - 1)) with n by lia. reflexivity.
Qed.

(** The end-to-end scenario of the specification: two requests, for page
    1 then page 2, and a dictionary of three entries. *)
Lemma C1_pages_walk_witness :
  MigrosApi.get_all_receipts Props.two_page_net 5
    (Datetime.ODatetime Props.jan_1) (Datetime.ODatetime Props.jan_31) []
  = (Ok (Some (Props.two_page_acc 2)), [] ++ Props.pages_trace Props.january_url 1 2)
  /\ Props.requests (Props.pages_trace Props.january_url 1 2)
     = map (Props.page_request Props.january_url) (seq 1 2).
Proof.
  apply (proj2 (C1_pages_walk Props.two_page_net 5 Props.jan_1 Props.jan_31 [] eq_refl)
           2%nat Props.two_page_resp Props.two_page_total Props.two_page_acc).
  - reflexivity.
  - intros t' p Hp. assert (p = 1 \/ p = 2)%nat as [->| ->] by lia; vm_compute; reflexivity.
  - intros p Hp. assert (p = 1 \/ p = 2)%nat as [->| ->] by lia; vm_compute; reflexivity.
  - intros p Hp. assert (p = 1)%nat as -> by lia. reflexivity.
  - vm_compute. discriminate.
  - lia.
Defined.

Example two_page_scenario :
  size (Props.two_page_acc 2) = 3%nat
  /\ Props.pages_trace Props.january_url 1 2
     = [ Net.Request (MigrosApi.get
           "https://www.migros.ch/de/cumulus/konto/kassenbons.html?sort=dateDsc&dateFrom=2024-01-01&dateTo=2024-01-31&p=1"
           MigrosApi.receipts_params);
         Net.Sleep 1;
         Net.Request (MigrosApi.get
           "https://www.migros.ch/de/cumulus/konto/kassenbons.html?sort=dateDsc&dateFrom=2024-01-01&dateTo=2024-01-31&p=2"
           MigrosApi.receipts_params) ].
Proof. split; vm_compute; reflexivity. Qed.

(** C1 as it was stated fails: on a listing whose first page reports the
    page count 2 and whose second page reports 3, the call sends three
    requests, for the pages 1, 2 and 3: the count of the first page was
    not kept as the bound. *)
Lemma C1_counterexample :
  (exists d,
     MigrosApi._parse_receipt_data
       (Props.ok_response Props.listing_url "(listing)" (Props.window_page "1")) ∅
     = Ok (2%Z, d))
  /\ fst (MigrosApi.get_all_receipts Props.window_net 10
            (Datetime.ODatetime Props.jan_1) (Datetime.ODatetime Props.jan_31) [])
     = Ok (Some ∅)
  /\ Props.requests
       (snd (MigrosApi.get_all_receipts Props.window_net 10
               (Datetime.ODatetime Props.jan_1) (Datetime.ODatetime Props.jan_31) []))
     = map (Props.page_request Props.january_url) [1; 2; 3]%nat
  /\ Props.requests
       (snd (MigrosApi.get_all_receipts Props.window_net 10
               (Datetime.ODatetime Props.jan_1) (Datetime.ODatetime Props.jan_31) []))
     <> map (Props.page_request Props.january_url) [1; 2]%nat.
Proof.
  split; [eexists; vm_compute; reflexivity|].
  split; [vm_compute; reflexivity|].
  split; [vm_compute; reflexivity|].
  intros H. vm_compute in H. discriminate H.
Qed.

(** ** The login sequence *)

Section Login.
Import Net Exceptions Soup MigrosApi Props.

Variable net : network.
Variable username password : string.

Lemma authenticate_handlers_code (e : exn) (t : list event) :
  auth_body_exn e ->
  exists m, authenticate_handlers e t = (Raise (ExceptionMigrosApi (Some "1") (Some m)), t).
Proof.
  intros [[le ->]|[[m ->]|[m ->]]].
  - destruct le; eexists; reflexivity.
  - eexists; reflexivity.
  - eexists; reflexivity.
Qed.

(** The outcomes of [__authenticate]: success after the GET, the two
    sleeps and the POST, or an exception of code 1 after a part of
    them. *)
Lemma authenticate_cases (t : list event) :
  let run := __authenticate net username password t in
  let g := Request (get login_url []) in
  (fst run = Ok tt
   /\ exists tok, snd run = t ++ [g; Sleep 1; Sleep 2;
                                  Request (login_post username password tok)])
  \/ ((exists m, fst run = Raise (ExceptionMigrosApi (Some "1") (Some m)))
      /\ (snd run = t ++ [g]
          \/ snd run = t ++ [g; Sleep 1]
          \/ exists tok, snd run = t ++ [g; Sleep 1; Sleep 2;
                                         Request (login_post username password tok)])).
Proof.
  intros run g. subst run. unfold __authenticate. rewrite try_except_unfold.
  assert (forall e t', auth_body_exn e ->
            exists m, fst (authenticate_handlers e t')
                      = Raise (ExceptionMigrosApi (Some "1") (Some m))
                      /\ snd (authenticate_handlers e t') = t') as Hh.
  { intros e t' He. destruct (authenticate_handlers_code e t' He) as [m ->]. eauto. }
  rewrite bind_send. fold g.
  destruct (net t (get login_url [])) as [le|r1].
  { right. destruct (Hh (exn_of le) (t ++ [g])) as [m [H1 H2]]; [left; eauto|].
    split; [eauto|]. left. exact H2. }
  rewrite bind_lift.
  destruct (raise_for_status_cases r1) as [->|[m1 ->]].
  2:{ right. destruct (Hh (RequestException m1) (t ++ [g])) as [m [H1 H2]];
        [right; left; eauto|].
      split; [eauto|]. left. exact H2. }
  rewrite bind_sleep, <- app_assoc. simpl app.
  destruct (csrf_search (body r1)) as [tok|].
  2:{ right. unfold lift. rewrite raise_api_custom.
      split; [eexists; reflexivity|]. right. left. reflexivity. }
  rewrite bind_sleep, <- app_assoc. simpl app.
  rewrite bind_send, <- app_assoc. simpl app.
  fold (login_post username password tok).
  set (tr := t ++ [g; Sleep 1; Sleep 2; Request (login_post username password tok)]).
  destruct (net _ (login_post username password tok)) as [le|r2].
  { right. destruct (Hh (exn_of le) tr) as [m [H1 H2]]; [left; eauto|].
    split; [eauto|]. right. right. exists tok. exact H2. }
  rewrite bind_lift.
  destruct (raise_for_status_cases r2) as [->|[m2 ->]].
  2:{ right. destruct (Hh (RequestException m2) tr) as [m [H1 H2]];
        [right; left; eauto|].
      split; [eauto|]. right. right. exists tok. exact H2. }
  rewrite bind_lift.
  destruct (html r2) as [le|soup]; simpl from_lib.
  { right. destruct (Hh (exn_of le) tr) as [m [H1 H2]]; [left; eauto|].
    split; [eauto|]. right. right. exists tok. exact H2. }
  cbv beta iota.
  match goal with
  | |- context [filter ?P (all_elements soup)] =>
      destruct (filter P (all_elements soup)) as [|em ems]
  end.
  - destruct (PyStr.contains "authentication_error" (PyStr.lower (resp_url r2))).
    + right. unfold lift. rewrite raise_api_custom.
      split; [eexists; reflexivity|]. right. right. exists tok. reflexivity.
    + left. split; [reflexivity|]. exists tok. reflexivity.
  - right. unfold lift. rewrite raise_api_custom.
    split; [eexists; reflexivity|]. right. right. exists tok. reflexivity.
Qed.

(** The outcomes of [_login_cumulus]: success after the events of
    [__authenticate] and the GET of the account page, or an exception of
    code 1 or 3 after a part of them. *)
Lemma login_cumulus_cases (t : list event) :
  let run := _login_cumulus net username password t in
  let g := Request (get login_url []) in
  let c := Request (get cumulus_login cumulus_params) in
  (fst run = Ok tt
   /\ exists tok, snd run = t ++ [g; Sleep 1; Sleep 2;
                                  Request (login_post username password tok); c])
  \/ ((exists m, fst run = Raise (ExceptionMigrosApi (Some "1") (Some m))
                 \/ fst run = Raise (ExceptionMigrosApi (Some "3") (Some m)))
      /\ (snd run = t ++ [g]
          \/ snd run = t ++ [g; Sleep 1]
          \/ (exists tok, snd run = t ++ [g; Sleep 1; Sleep 2;
                                          Request (login_post username password tok)])
          \/ exists tok, snd run = t ++ [g; Sleep 1; Sleep 2;
                                         Request (login_post username password tok); c])).
Proof.
  intros run g c. subst run.
  pose proof (authenticate_cases t) as Ha. cbv zeta in Ha. fold g in Ha.
  unfold _login_cumulus. rewrite try_except_unfold, bind_unfold.
  destruct (__authenticate net username password t) as [r1 t1].
  simpl fst in Ha. simpl snd in Ha.
  destruct Ha as [[-> [tok ->]]|[[m ->] Htr]].
  2:{ right. split; [exists m; left; reflexivity|].
      simpl snd. destruct Htr as [->|[->|[tok ->]]]; eauto. }
  rewrite bind_send. fold c.
  set (tr := (t ++ [g; Sleep 1; Sleep 2; Request (login_post username password tok)]) ++ [c]).
  assert (tr = t ++ [g; Sleep 1; Sleep 2; Request (login_post username password tok); c])
    as Htr by (subst tr; rewrite <- app_assoc; reflexivity).
  destruct (net _ (get cumulus_login cumulus_params)) as [le|r].
  { right. split; [|right; right; right; exists tok; destruct le; exact Htr].
    destruct le; eexists; right; reflexivity. }
  rewrite bind_lift.
  destruct (raise_for_status_cases r) as [->|[m ->]].
  2:{ right. split; [eexists; right; reflexivity|].
      right; right; right; exists tok; exact Htr. }
  rewrite bind_lift.
  destruct (html r) as [le|soup]; simpl from_lib.
  { right. split; [|right; right; right; exists tok; destruct le; exact Htr].
    destruct le; eexists; right; reflexivity. }
  cbv beta iota.
  match goal with
  | |- context [filter ?P (all_strings soup)] =>
      destruct (filter P (all_strings soup)) as [|x xs]
  end.
  - right. unfold lift. rewrite raise_api_custom.
    split; [eexists; right; reflexivity|].
    right; right; right; exists tok; exact Htr.
  - left. split; [reflexivity|]. exists tok. exact Htr.
Qed.

Lemma init_session_cases (t : list event) :
  let run := _init_session net t in
  let w := Request (get main_page []) in
  (run = (Ok tt, t ++ [w; Sleep 1]))
  \/ (snd run = t ++ [w]
      /\ ((exists le, fst run = Raise (exn_of le))
          \/ exists m, fst run = Raise (RequestException m))).
Proof.
  intros run w. subst run. unfold _init_session.
  rewrite try_except_unfold, bind_send. fold w.
  destruct (net t (get main_page [])) as [le|r].
  { right. split; [reflexivity|]. left. eauto. }
  rewrite bind_lift.
  destruct (raise_for_status_cases r) as [->|[m ->]].
  - left. unfold sleep. rewrite <- app_assoc. reflexivity.
  - right. split; [reflexivity|]. right. eauto.
Qed.

(** The events of the constructor are a beginning of the events of a
    whole login; they are all of them when it returns. *)
Lemma init_trace :
  let run := __init__ net username password [] in
  (exists tok, snd run `prefix_of` login_trace username password tok)
  /\ (fst run = Ok tt -> exists tok, snd run = login_trace username password tok)
  /\ (paced (snd run) = true
      \/ exists tok, snd run = login_trace username password tok).
Proof.
  intros run. subst run. unfold __init__. rewrite try_except_unfold, bind_unfold.
  pose proof (init_session_cases []) as Hi. cbv zeta in Hi.
  destruct (_init_session net []) as [r0 t0].
  destruct Hi as [Hi|[Hi Hf]].
  2:{ simpl in Hi, Hf. subst t0.
      assert (exists e, r0 = Raise e) as [e ->].
      { destruct Hf as [[le ->]|[m ->]]; eauto. }
      simpl. split; [exists EmptyString; eexists; reflexivity|].
      split; [discriminate|]. left. reflexivity. }
  injection Hi as -> ->.
  pose proof (login_cumulus_cases ([] ++ [Request (get main_page []); Sleep 1])) as Hl.
  cbv zeta in Hl.
  destruct (_login_cumulus net username password _) as [r1 t1].
  simpl fst in Hl. simpl snd in Hl. simpl app in Hl.
  destruct Hl as [[-> [tok ->]]|[[m Hm] Htr]].
  - simpl. split; [exists tok; reflexivity|]. split; [eauto|]. right. eauto.
  - assert (exists e, r1 = Raise e) as [e ->] by (destruct Hm as [->| ->]; eauto).
    simpl. split; [|split; [discriminate|]].
    + destruct Htr as [->|[->|[[tok ->]|[tok ->]]]];
        [exists EmptyString|exists EmptyString|exists tok|exists tok];
        eexists; reflexivity.
    + destruct Htr as [->|[->|[[tok ->]|[tok ->]]]];
        [left; reflexivity|left; reflexivity|left; reflexivity|right; eauto].
Qed.


End Login.

(** ** What is raised to the caller *)

Section Raised.
Import Net Exceptions Soup MigrosApi Props.

Variable net : network.

Lemma parse_receipt_data_raises (r : response) (d : receipts) (e : exn) :
  _parse_receipt_data r d = Raise e ->
  exists err, e = Exception ("Failed to parse receipt data: " +:+ str_of_exn err).
Proof.
  unfold _parse_receipt_data.
  destruct (rbind (from_lib (html r)) _) as [x|err]; [discriminate|].
  intros [= <-]. eauto.
Qed.

Lemma fetch_pages_raises (fuel : nat) (request_url : string) (p : nat) (d : receipts)
    (t : list event) (e : exn) :
  fst (fetch_pages net fuel request_url p d t) = Raise e ->
  (exists le, e = exn_of le)
  \/ exists err, e = Exception ("Failed to parse receipt data: " +:+ str_of_exn err).
Proof.
  revert p d t. induction fuel as [|fuel IH]; intros p d t H; [discriminate|].
  rewrite fetch_pages_step in H.
  destruct (net t (page_request request_url p)) as [le|r].
  { injection H as <-. left. eauto. }
  destruct (_parse_receipt_data r d) as [[total d']|err] eqn:E.
  - destruct (total <=? Z.of_nat p)%Z; [discriminate|]. eapply IH, H.
  - injection H as <-. right. eapply parse_receipt_data_raises, E.
Qed.



End Raised.




(** C9, as the code has it.  The events of the constructor are a
    beginning of: the GET of the main page, a sleep of 1, the GET of the
    login page, sleeps of 1 and 2, the POST of the credentials, the GET
    of the account page; they are all of these when the constructor
    returns.  So a delay of 1 separates the first two requests, a delay
    of 3 the second and the third, and none the POST and the last GET:
    up to the POST the events are paced, with the last GET they are not.
    The events of [get_all_receipts] are the page requests with a sleep
    of 1 between two of them, and are paced. *)
Theorem C9_pacing (net : Net.network) (username password : string) :
  let run := MigrosApi.__init__ net username password [] in
  (exists tok, snd run `prefix_of` Props.login_trace username password tok)
  /\ (fst run = Ok tt -> exists tok, snd run = Props.login_trace username password tok)
  /\ (Props.paced (snd run) = true
      \/ exists tok, snd run = Props.login_trace username password tok)
  /\ (forall tok,
        Props.paced (take 6 (Props.login_trace username password tok)) = true
        /\ Props.paced (Props.login_trace username password tok) = false)
  /\ (forall (fuel : nat) (period_from period_to : Datetime.pyobj),
        fst (MigrosApi.get_all_receipts net fuel period_from period_to []) <> Ok None ->
        exists request_url k,
          snd (MigrosApi.get_all_receipts net fuel period_from period_to [])
          = Props.pages_trace request_url 1 k
          /\ Props.paced (Props.pages_trace request_url 1 k) = true).
Proof.
  intros run. subst run.
  pose proof (init_trace net username password) as (H1 & H2 & H3). cbv zeta in H1, H2, H3.
  split; [exact H1|]. split; [exact H2|]. split; [exact H3|].
  split; [intros tok; split; reflexivity|].
  intros fuel period_from period_to H.
  destruct (get_all_receipts_trace net fuel period_from period_to [] H)
    as (request_url & k & _ & Htr).
  exists request_url, k. split; [exact Htr|].
  apply paced_pages_trace. left. reflexivity.
Qed.

Lemma C9_pacing_witness :
  exists tok, snd (MigrosApi.__init__ Props.friendly_net "user" "secret" [])
              = Props.login_trace "user" "secret" tok.
Proof.
  apply (proj1 (proj2 (C9_pacing Props.friendly_net "user" "secret"))).
  vm_compute. reflexivity.
Defined.

(** C9 as it was stated fails: on a portal where the login goes through,
    the GET of the account page follows the POST of the credentials with
    no sleep between the two. *)
Lemma C9_counterexample :
  MigrosApi.__init__ Props.friendly_net "user" "secret" []
  = (Ok tt, Props.login_trace "user" "secret" "tok123")
  /\ Props.login_trace "user" "secret" "tok123"
     = [ Net.Request (MigrosApi.get MigrosApi.main_page []); Net.Sleep 1;
         Net.Request (MigrosApi.get MigrosApi.login_url []); Net.Sleep 1; Net.Sleep 2;
         Net.Request (Props.login_post "user" "secret" "tok123");
         Net.Request (MigrosApi.get MigrosApi.cumulus_login MigrosApi.cumulus_params) ]
  /\ Props.paced (Props.login_trace "user" "secret" "tok123") = false.
Proof. repeat split; vm_compute; reflexivity. Qed.

(** ** Where the entries of the returned dictionary come from *)

Section Provenance.
Import Net Exceptions Soup MigrosApi Props.

Variable net : network.

Lemma parse_receipt_data_provenance (r : response) (d d' : receipts) (total : Z) :
  _parse_receipt_data r d = Ok (total, d') ->
  exists doc, html r = inr doc
    /\ forall k info, d' !! k = Some info ->
         d !! k = Some info \/ derived_from (all_elements doc) k info.
Proof.
  unfold _parse_receipt_data.
  destruct (html r) as [le|doc]; [discriminate|]. simpl.
  destruct (page_values (all_elements doc)) as [pages|e]; [|discriminate]. simpl.
  destruct (parse_items (all_elements doc) d) as [d1|e] eqn:E; [|discriminate]. simpl.
  intros [= _ <-]. exists doc. split; [reflexivity|].
  apply (parse_items_provenance (all_elements doc) [] (all_elements doc) d d1 eq_refl E).
Qed.

Lemma fetch_pages_provenance (fuel : nat) (request_url : string) (p : nat)
    (d d' : receipts) (t : list event) :
  fst (fetch_pages net fuel request_url p d t) = Ok (Some d') ->
  forall k info, d' !! k = Some info -> d !! k = Some info \/ from_page net k info.
Proof.
  revert p d t. induction fuel as [|fuel IH]; intros p d t H k info Hk; [discriminate|].
  rewrite fetch_pages_step in H.
  destruct (net t (page_request request_url p)) as [le|r] eqn:Hnet; [discriminate|].
  destruct (_parse_receipt_data r d) as [[total d1]|e] eqn:E; [|discriminate].
  destruct (parse_receipt_data_provenance r d d1 total E) as [doc [Hdoc Hprov]].
  assert (forall k info, d1 !! k = Some info -> d !! k = Some info \/ from_page net k info) as H1.
  { intros k0 info0 H0. destruct (Hprov k0 info0 H0) as [Hd|Hd]; [left; exact Hd|].
    right. exists t, (page_request request_url p), r, doc. auto. }
  destruct (total <=? Z.of_nat p)%Z.
  - injection H as <-. apply H1, Hk.
  - destruct (IH _ _ _ H k info Hk) as [Hd|Hd]; [apply H1, Hd|right; exact Hd].
Qed.

(** Every entry of a dictionary returned by [get_all_receipts] has for
    key the [value] attribute of a checkbox of a page that was received,
    and carries the [href] of the first detail link after that checkbox
    in document order, with what follows the last [receiptId=] in it. *)
Lemma get_all_receipts_provenance (fuel : nat) (period_from period_to : Datetime.pyobj)
    (t : list event) (d : receipts) :
  fst (get_all_receipts net fuel period_from period_to t) = Ok (Some d) ->
  forall k info, d !! k = Some info -> from_page net k info.
Proof.
  rewrite get_all_receipts_unfold.
  destruct (validate_dates period_from period_to) as [[a b]|e]; [|discriminate].
  pose proof (fetch_pages_provenance fuel
                (url_receipts (_format_date a) (_format_date b)) 1 ∅ d t) as Hf.
  destruct (fetch_pages net fuel _ 1 ∅ t) as [[r|e] t']; [|discriminate].
  simpl. intros [= ->] k info Hk.
  destruct (Hf eq_refl k info Hk) as [Hd|Hd]; [|exact Hd].
  rewrite lookup_empty in Hd. discriminate.
Qed.

End Provenance.

(** C6 at the failing input.  On the listing whose first row has the
    selector [A] and no detail link and whose second row, with the
    selector [B], has the link ending in [receiptId=R2], the returned
    dictionary has under the key [A] a record whose [receipt_id] is
    [R2]: it is taken from the link of the other row. *)
Theorem C6_receipt_id_of_other_row :
  Props.row_selector_value Props.row_without_link = Some "A"
  /\ Props.row_has_detail_link Props.row_without_link = false
  /\ Props.row_selector_value Props.row_complete = Some "B"
  /\ exists d : MigrosApi.receipts,
       MigrosApi.get_all_receipts Props.c6_net 10
         (Datetime.ODatetime Props.jan_1) (Datetime.ODatetime Props.jan_31) []
       = (Ok (Some d), [Net.Request (Props.page_request Props.january_url 1)])
       /\ MigrosApi.receipt_id <$> d !! Some "A" = Some "R2"
       /\ MigrosApi.pdf_ref <$> d !! Some "A"
          = Some "/service/avantaReceiptExport/html?receiptId=R2"
       /\ MigrosApi.receipt_id <$> d !! Some "B" = Some "R2".
Proof.
  split; [reflexivity|]. split; [reflexivity|]. split; [reflexivity|].
  eexists. split; [vm_compute; reflexivity|].
  repeat split; vm_compute; reflexivity.
Qed.

(** ** The text after the last marker *)

Section SplitLast.
Import PyStr Props.

Variable sep : string.
Hypothesis sep_nonempty : sep <> EmptyString.

Lemma append_assoc (a b c : string) : (a +:+ b) +:+ c = a +:+ (b +:+ c).
Proof. induction a as [|x a IH]; [reflexivity|]. rewrite !append_cons, IH. reflexivity. Qed.

Lemma append_nil_r (a : string) : a +:+ EmptyString = a.
Proof. induction a as [|x a IH]; [reflexivity|]. rewrite append_cons, IH. reflexivity. Qed.

Lemma length_append (a b : string) :
  String.length (a +:+ b) = (String.length a + String.length b)%nat.
Proof. induction a as [|x a IH]; [reflexivity|]. rewrite append_cons. simpl. rewrite IH. reflexivity. Qed.

Lemma of_chars_app (l1 l2 : list ascii) : of_chars (l1 ++ l2) = of_chars l1 +:+ of_chars l2.
Proof. induction l1 as [|x l1 IH]; [reflexivity|]. simpl. rewrite IH. reflexivity. Qed.

Lemma startswith_sep_nil : startswith sep EmptyString = false.
Proof. destruct sep; [contradiction|reflexivity]. Qed.

Lemma no_cut_contains (a : string) : no_cut sep a EmptyString -> contains sep a = false.
Proof.
  induction a as [|c a IH]; intros H.
  - simpl. rewrite startswith_sep_nil. reflexivity.
  - cbn [contains]. rewrite IH.
    + specialize (H EmptyString c a eq_refl). rewrite append_nil_r in H. rewrite H. reflexivity.
    + intros a1 x a2 ->. apply (H (String c a1) x a2). reflexivity.
Qed.

Lemma snoc_split (a a1 a2 : string) (c x : ascii) :
  a +:+ String c EmptyString = a1 +:+ String x a2 ->
  (a2 = EmptyString /\ x = c /\ a1 = a)
  \/ exists a2', a2 = a2' +:+ String c EmptyString /\ a = a1 +:+ String x a2'.
Proof.
  revert a. induction a1 as [|y a1 IH]; intros a H.
  - rewrite append_nil in H. destruct a as [|z a].
    + injection H as <- <-. left. auto.
    + rewrite append_cons in H. injection H as -> <-. right. exists a. auto.
  - destruct a as [|z a].
    + rewrite append_cons in H. injection H as _ H. destruct a1; discriminate H.
    + rewrite !append_cons in H. injection H as -> H.
      destruct (IH a H) as [[-> [-> ->]]|[a2' [-> ->]]]; [left; auto|right; eauto].
Qed.

Lemma split_last_from_spec (fuel : nat) (acc : list ascii) (s : string) :
  (String.length s < fuel)%nat ->
  no_cut sep (of_chars (rev acc)) s ->
  contains sep (split_last_from fuel sep acc s) = false
  /\ (split_last_from fuel sep acc s = of_chars (rev acc) +:+ s
      \/ exists pre,
           of_chars (rev acc) +:+ s = pre +:+ sep +:+ split_last_from fuel sep acc s).
Proof.
  revert acc s. induction fuel as [|fuel IH]; intros acc s Hlen Hcut; [lia|].
  cbn [split_last_from].
  destruct (startswith sep s) eqn:E.
  - pose proof (startswith_split sep s E) as Hs.
    assert (String.length (drop (String.length sep) s) < fuel)%nat as Hlen'.
    { assert (String.length s
              = String.length sep + String.length (drop (String.length sep) s))%nat as Hl
        by (rewrite Hs at 1; apply length_append).
      assert (1 <= String.length sep)%nat
        by (destruct sep; [contradiction|simpl; lia]).
      lia. }
    destruct (IH [] (drop (String.length sep) s) Hlen') as [Hc Hr].
    { intros a1 c a2 H. destruct a1; discriminate H. }
    split; [exact Hc|]. right. simpl of_chars in Hr. rewrite append_nil in Hr.
    destruct Hr as [Hr|[pre Hr]].
    + exists (of_chars (rev acc)). rewrite Hr. rewrite <- Hs. reflexivity.
    + exists (of_chars (rev acc) +:+ sep +:+ pre).
      rewrite !append_assoc. rewrite <- Hr, <- Hs. reflexivity.
  - destruct s as [|c s].
    + split; [apply no_cut_contains; exact Hcut|]. left. rewrite append_nil_r. reflexivity.
    + assert (of_chars (rev (c :: acc)) = of_chars (rev acc) +:+ String c EmptyString) as Ha.
      { simpl rev. rewrite of_chars_app. reflexivity. }
      assert (of_chars (rev (c :: acc)) +:+ s = of_chars (rev acc) +:+ String c s) as Hs.
      { rewrite Ha, append_assoc. reflexivity. }
      destruct (IH (c :: acc) s) as [Hc Hr]; [simpl in Hlen; lia| |].
      { intros a1 x a2 H. rewrite Ha in H.
        destruct (snoc_split _ _ _ _ _ H) as [[-> [-> _]]|[a2' [-> Hacc]]].
        - exact E.
        - replace (String x (a2' +:+ String c EmptyString) +:+ s)
            with (String x a2' +:+ String c s)
            by (rewrite !append_cons, append_assoc; reflexivity).
          apply (Hcut a1 x a2'). exact Hacc. }
      split; [exact Hc|]. rewrite <- Hs. exact Hr.
Qed.

(** [split_last sep s] holds no separator, and is [s] itself or what
    follows a separator in [s]: it is the text after the last
    separator. *)
Lemma split_last_spec (s : string) :
  contains sep (split_last sep s) = false
  /\ (split_last sep s = s \/ exists pre, s = pre +:+ sep +:+ split_last sep s).
Proof.
  unfold split_last.
  destruct (split_last_from_spec (S (String.length s)) [] s) as [Hc Hr]; [lia| |].
  - intros a1 c a2 H. destruct a1; discriminate H.
  - split; [exact Hc|exact Hr].
Qed.

End SplitLast.

(** The receipt id of a record is the text after the last [receiptId=]
    of the link, or the whole link when it has no [receiptId=]. *)
Lemma receipt_id_spec (href : string) :
  PyStr.contains "receiptId=" (PyStr.split_last "receiptId=" href) = false
  /\ (PyStr.split_last "receiptId=" href = href
      \/ exists pre, href = pre +:+ "receiptId=" +:+ PyStr.split_last "receiptId=" href).
Proof. apply split_last_spec. discriminate. Qed.

(** ** The helpers on concrete values *)

Example format_date_pads :
  MigrosApi._format_date (Datetime.mk_datetime 2024 3 7 10 30 0 0 None) = "2024-03-07"
  /\ MigrosApi._format_date (Datetime.mk_datetime 987 12 31 0 0 0 0 None) = "987-12-31".
Proof. split; reflexivity. Qed.

Example int_examples :
  PyInt.int "5" = Ok 5%Z
  /\ PyInt.int " 12 " = Ok 12%Z
  /\ PyInt.int "-7" = Ok (-7)%Z
  /\ PyInt.int "1_000" = Ok 1000%Z
  /\ PyInt.int "1__0" = Raise (ValueError "invalid literal for int() with base 10: '1__0'")
  /\ PyInt.int "12a" = Raise (ValueError "invalid literal for int() with base 10: '12a'")
  /\ PyInt.int EmptyString = Raise (ValueError "invalid literal for int() with base 10: ''").
Proof. repeat split; reflexivity. Qed.

Example isnumeric_examples :
  PyStr.isnumeric "2024" = true
  /\ PyStr.isnumeric "12a" = false
  /\ PyStr.isnumeric EmptyString = false
  /\ PyStr.isnumeric (String (ascii_of_nat 178) EmptyString) = true
  /\ PyStr.isdecimal (String (ascii_of_nat 178) EmptyString) = false.
Proof. repeat split; reflexivity. Qed.

Example split_last_examples :
  PyStr.split_last "receiptId=" "/service/avantaReceiptExport/html?receiptId=2024_17" = "2024_17"
  /\ PyStr.split_last "receiptId=" "/export?receiptId=a&receiptId=b" = "b"
  /\ PyStr.split_last "receiptId=" "/export/plain" = "/export/plain"
  /\ PyStr.split_last "receiptId=" "/export?receiptId=" = EmptyString.
Proof. repeat split; reflexivity. Qed.

Example csrf_search_examples :
  MigrosApi.csrf_search Props.login_page_body = Some "tok123"
  /\ MigrosApi.csrf_search "<html><head></head></html>" = None
  /\ MigrosApi.csrf_search (MigrosApi.csrf_marker +:+ String PyStr.dquote "/>") = None.
Proof. repeat split; reflexivity. Qed.

Example str_of_exn_examples :
  Exceptions.str_of_exn
    (ExceptionMigrosApi (Some "4")
       (Some "period_from and period_to should be datetime objects"))
  = "Error 4: period_from and period_to should be datetime objects"
  /\ Exceptions.str_of_exn (ExceptionMigrosApi (Some "7") None) = "Error 7: None"
  /\ Exceptions.init Exceptions.CNone None
     = Ok (ExceptionMigrosApi None (Some "Unknown error occurred"))
  /\ Exceptions.init (Exceptions.CInt 7) None = Ok (ExceptionMigrosApi (Some "7") None)
  /\ Exceptions.init (Exceptions.CStr " 1 ") None
     = Ok (ExceptionMigrosApi (Some " 1 ") (Some "Could not authenticate")).
Proof. repeat split; vm_compute; reflexivity. Qed.

Example datetime_gt_examples :
  Datetime.gt Props.jan_31 Props.jan_1 = Ok true
  /\ Datetime.gt Props.jan_1 Props.jan_31 = Ok false
  /\ Datetime.gt Props.jan_1 Props.jan_1 = Ok false
  /\ Datetime.gt (Datetime.mk_datetime 2024 1 1 12 0 0 0 (Some 0%Z))
                 (Datetime.mk_datetime 2024 1 1 13 0 0 0 (Some 7200000000%Z)) = Ok true
  /\ Datetime.gt Props.jan_1 (Datetime.mk_datetime 2024 1 1 0 0 0 0 (Some 0%Z))
     = Raise (TypeError "can't compare offset-naive and offset-aware datetimes").
Proof. repeat split; vm_compute; reflexivity. Qed.

(** * Further properties of the code *)

(** ** The receipt loop *)

Section ReceiptLoop.
Import Net Exceptions Soup MigrosApi Props Shapes.

(** What [find_next] for [td] finds is the first of the cells. *)
Lemma find_next_td_cells (l : list element) :
  match find_next is_td l with
  | Some (e, r) => cells_of l = e :: cells_of r
  | None => cells_of l = []
  end.
Proof.
  unfold cells_of. induction l as [|x l IH]; [reflexivity|].
  simpl. rewrite filter_cons. destruct (is_td x) eqn:E.
  - rewrite decide_True by reflexivity. reflexivity.
  - rewrite decide_False by discriminate.
    destruct (find_next is_td l) as [[e r]|]; exact IH.
Qed.

Lemma find_cells_cells_of (after : list element) :
  find_cells after
  = match cells_of after with
    | store :: cost_cell :: points :: _ => Some (store, cost_cell, points)
    | _ => None
    end.
Proof.
  unfold find_cells.
  pose proof (find_next_td_cells after) as H1.
  destruct (find_next is_td after) as [[e1 r1]|]; [|rewrite H1; reflexivity].
  rewrite H1. pose proof (find_next_td_cells r1) as H2.
  destruct (find_next is_td r1) as [[e2 r2]|]; [|rewrite H2; reflexivity].
  rewrite H2. pose proof (find_next_td_cells r2) as H3.
  destruct (find_next is_td r2) as [[e3 r3]|]; rewrite H3; reflexivity.
Qed.

(** One turn of the receipt loop: the element is passed, or the loop
    raises for a link without [href], or the record of the element is
    stored under its [value]. *)
Lemma parse_items_cons (item : element) (rest : list element) (d : receipts) :
  parse_items (item :: rest) d = parse_items rest d
  \/ (exists link after,
        find_next is_modal_link rest = Some (link, after)
        /\ Soup.get link "href" = None
        /\ parse_items (item :: rest) d
           = Raise (AttributeError "'NoneType' object has no attribute 'split'"))
  \/ (exists link after href store cost_cell points,
        is_checkbox item = true
        /\ Soup.get item "value" <> Some "all"
        /\ find_next is_modal_link rest = Some (link, after)
        /\ Soup.get link "href" = Some href
        /\ find_cells after = Some (store, cost_cell, points)
        /\ parse_items (item :: rest) d
           = parse_items rest
               (<[Soup.get item "value" := record_of href store cost_cell points]> d)).
Proof.
  cbn [parse_items].
  destruct (is_checkbox item) eqn:Hcb; [|left; reflexivity].
  destruct (bool_decide (Soup.get item "value" = Some "all")) eqn:Hall; [left; reflexivity|].
  apply bool_decide_eq_false in Hall.
  destruct (find_next is_modal_link rest) as [[link after]|]; [|left; reflexivity].
  destruct (Soup.get link "href") as [href|] eqn:Hhref.
  - destruct (find_cells after) as [[[s c] p]|] eqn:Hc; [|left; reflexivity].
    right. right. exists link, after, href, s, c, p. repeat split; auto.
  - right. left. exists link, after. repeat split; auto.
Qed.

Lemma parse_items_all_key (l : list element) (d d' : receipts) :
  parse_items l d = Ok d' -> d' !! Some "all" = d !! Some "all".
Proof.
  revert d. induction l as [|item rest IH]; intros d H.
  - injection H as <-. reflexivity.
  - destruct (parse_items_cons item rest d)
      as [E|[(link & after & _ & _ & E)|(link & after & href & s & c & p & _ & Hne & _ & _ & _ & E)]];
      rewrite E in H.
    + apply IH, H.
    + discriminate.
    + rewrite (IH _ H). apply lookup_insert_ne. exact Hne.
Qed.

Lemma parse_items_grows (l : list element) (d d' : receipts) :
  parse_items l d = Ok d' ->
  (forall k, is_Some (d !! k) -> is_Some (d' !! k))
  /\ (forall k, (forall e, e ∈ l -> is_checkbox e = true -> Soup.get e "value" <> k) ->
        d' !! k = d !! k).
Proof.
  revert d. induction l as [|item rest IH]; intros d H.
  - injection H as <-. split; [tauto|reflexivity].
  - assert (forall k, (forall e, e ∈ item :: rest -> is_checkbox e = true ->
                         Soup.get e "value" <> k) ->
                      forall e, e ∈ rest -> is_checkbox e = true -> Soup.get e "value" <> k)
      as Hrest.
    { intros k Hk e He. apply Hk. apply elem_of_cons. right. exact He. }
    destruct (parse_items_cons item rest d)
      as [E|[(link & after & _ & _ & E)|(link & after & href & s & c & p & Hcb & _ & _ & _ & _ & E)]];
      rewrite E in H.
    + destruct (IH _ H) as [H1 H2]. split; [exact H1|].
      intros k Hk. apply H2, Hrest, Hk.
    + discriminate.
    + destruct (IH _ H) as [H1 H2]. split.
      * intros k Hk. apply H1.
        destruct (decide (Soup.get item "value" = k)) as [->|Hne].
        -- rewrite lookup_insert_eq. eauto.
        -- rewrite lookup_insert_ne by exact Hne. exact Hk.
      * intros k Hk. rewrite (H2 k (Hrest k Hk)).
        apply lookup_insert_ne. apply Hk; [apply elem_of_cons; left; reflexivity|exact Hcb].
Qed.

End ReceiptLoop.

(** X1. The three cells of a record are the first three [td] elements
    among all the elements that follow the link in the document: the row
    is dropped for missing cells exactly when fewer than three [td]
    follow the link anywhere in the rest of the page. *)
Theorem X1_cells_are_first_three_td (after : list Soup.element) :
  MigrosApi.find_cells after
  = match Shapes.cells_of after with
    | store :: cost_cell :: points :: _ => Some (store, cost_cell, points)
    | _ => None
    end
  /\ (MigrosApi.find_cells after = None <-> (List.length (Shapes.cells_of after) < 3)%nat).
Proof.
  split; [apply find_cells_cells_of|].
  rewrite find_cells_cells_of.
  destruct (Shapes.cells_of after) as [|a [|b [|c l]]]; simpl; split;
    intros H; try reflexivity; try discriminate; lia.
Qed.

(** X2. The value [all] never becomes a key: after the receipt loop the
    dictionary holds under [all] what it held before, whatever the page;
    the checkbox that selects all rows adds no entry. *)
Theorem X2_select_all_is_no_entry (response : Net.response)
    (d d' : MigrosApi.receipts) (count : Z) :
  MigrosApi._parse_receipt_data response d = Ok (count, d') ->
  d' !! Some "all" = d !! Some "all".
Proof.
  unfold MigrosApi._parse_receipt_data.
  destruct (Net.html response) as [le|doc]; [discriminate|]. simpl.
  destruct (MigrosApi.page_values (Soup.all_elements doc)) as [pages|e]; [|discriminate].
  simpl.
  destruct (MigrosApi.parse_items (Soup.all_elements doc) d) as [d1|e] eqn:E; [|discriminate].
  simpl. intros [= _ <-]. eapply parse_items_all_key, E.
Qed.

Lemma X2_select_all_is_no_entry_witness :
  (<[Some "d1" := MigrosApi.mk_receipt_info
                    "/service/avantaReceiptExport/html?receiptId=r1" "r1"
                    "Store A" "1.00" "10"]> (∅ : MigrosApi.receipts)) !! Some "all"
  = (∅ : MigrosApi.receipts) !! Some "all".
Proof.
  apply (X2_select_all_is_no_entry
           (Props.ok_response Props.listing_url "(listing)" Shapes.page_with_select_all)
           ∅ _ 1%Z).
  vm_compute. reflexivity.
Defined.

(** X3. The receipt loop only adds to the dictionary and overwrites: a
    key present before the page is present after it, and a key that is
    the [value] of no checkbox of the page keeps its record. *)
Theorem X3_dictionary_only_grows (response : Net.response) (doc : list Soup.node)
    (d d' : MigrosApi.receipts) (count : Z) :
  Net.html response = inr doc ->
  MigrosApi._parse_receipt_data response d = Ok (count, d') ->
  (forall k, is_Some (d !! k) -> is_Some (d' !! k))
  /\ (forall k,
        (forall e, e ∈ Soup.all_elements doc -> MigrosApi.is_checkbox e = true ->
                   Soup.get e "value" <> k) ->
        d' !! k = d !! k).
Proof.
  intros Hdoc. unfold MigrosApi._parse_receipt_data. rewrite Hdoc. simpl.
  destruct (MigrosApi.page_values (Soup.all_elements doc)) as [pages|e]; [|discriminate].
  simpl.
  destruct (MigrosApi.parse_items (Soup.all_elements doc) d) as [d1|e] eqn:E; [|discriminate].
  simpl. intros [= _ <-]. eapply parse_items_grows, E.
Qed.

Lemma X3_dictionary_only_grows_witness :
  is_Some (Props.two_page_acc 2 !! Some "d1").
Proof.
  apply (proj1 (X3_dictionary_only_grows (Props.two_page_resp 2) Props.two_page_2
                  (Props.two_page_acc 1) (Props.two_page_acc 2) 1%Z
                  eq_refl ltac:(vm_compute; reflexivity)) (Some "d1")).
  exists (MigrosApi.mk_receipt_info "/service/avantaReceiptExport/html?receiptId=r1" "r1"
            "Store A" "1.00" "10").
  vm_compute. reflexivity.
Defined.

Section ReceiptLoopMore.
Import Net Exceptions Soup MigrosApi Props Shapes.

Lemma parse_receipt_data_Ok (response : response) (d d' : receipts) (count : Z) :
  _parse_receipt_data response d = Ok (count, d') ->
  exists doc pages,
    html response = inr doc
    /\ page_values (all_elements doc) = Ok pages
    /\ parse_items (all_elements doc) d = Ok d'
    /\ count = total_of pages.
Proof.
  unfold _parse_receipt_data.
  destruct (html response) as [le|doc]; [discriminate|]. simpl.
  destruct (page_values (all_elements doc)) as [pages|e] eqn:Ep; [|discriminate]. simpl.
  destruct (parse_items (all_elements doc) d) as [d1|e] eqn:Ei; [|discriminate]. simpl.
  intros [= <- <-]. exists doc, pages. repeat split; assumption || reflexivity.
Qed.

(** The record of the last checkbox with a given value is the one
    kept. *)
Lemma parse_items_last (pre rest after : list element) (item link store cost_cell points : element)
    (href : string) (d d' : receipts) :
  is_checkbox item = true ->
  Soup.get item "value" <> Some "all" ->
  find_next is_modal_link rest = Some (link, after) ->
  Soup.get link "href" = Some href ->
  find_cells after = Some (store, cost_cell, points) ->
  (forall e, e ∈ rest -> is_checkbox e = true ->
             Soup.get e "value" <> Soup.get item "value") ->
  parse_items (pre ++ item :: rest) d = Ok d' ->
  d' !! Soup.get item "value" = Some (record_of href store cost_cell points).
Proof.
  intros Hcb Hall Hlink Hhref Hcells Hlast.
  revert d. induction pre as [|x pre IH]; intros d H.
  - simpl app in H. cbn [parse_items] in H.
    rewrite Hcb, Hlink, Hhref, Hcells in H.
    rewrite bool_decide_eq_false_2 in H by exact Hall.
    destruct (parse_items_grows _ _ _ H) as [_ H2].
    rewrite (H2 _ Hlast). apply lookup_insert_eq.
  - change ((x :: pre) ++ item :: rest) with (x :: (pre ++ item :: rest)) in H.
    destruct (parse_items_cons x (pre ++ item :: rest) d)
      as [E|[(l1 & a1 & _ & _ & E)|(l1 & a1 & h1 & s1 & c1 & p1 & _ & _ & _ & _ & _ & E)]];
      rewrite E in H.
    + eapply IH, H.
    + discriminate.
    + eapply IH, H.
Qed.

(** Every record the loop adds is built from a checkbox, the first
    detail link after it and the first three cells after that link. *)
Lemma parse_items_built (els pre l : list element) (d d' : receipts) :
  els = pre ++ l ->
  parse_items l d = Ok d' ->
  forall k info, d' !! k = Some info -> d !! k = Some info \/ built_from els k info.
Proof.
  revert pre d. induction l as [|item rest IH]; intros pre d Hels Hrun k info Hk.
  - injection Hrun as <-. left. exact Hk.
  - assert (els = (pre ++ [item]) ++ rest) as Hels'.
    { rewrite <- app_assoc. exact Hels. }
    destruct (parse_items_cons item rest d)
      as [E|[(link & after & _ & _ & E)
            |(link & after & href & s & c & p & Hcb & Hall & Hlink & Hhref & Hcells & E)]];
      rewrite E in Hrun.
    + eapply IH; eassumption.
    + discriminate.
    + destruct (IH _ _ Hels' Hrun k info Hk) as [Hin|Hb]; [|right; exact Hb].
      destruct (decide (Soup.get item "value" = k)) as [Heq|Hne].
      * rewrite Heq, lookup_insert_eq in Hin. injection Hin as <-.
        right. exists pre, rest, after, item, link, s, c, p, href.
        rewrite <- Heq. repeat split; assumption || reflexivity.
      * rewrite lookup_insert_ne in Hin by exact Hne. left. exact Hin.
Qed.

Lemma fetch_pages_built (net : network) (fuel : nat) (request_url : string) (p : nat)
    (d d' : receipts) (t : list event) :
  fst (fetch_pages net fuel request_url p d t) = Ok (Some d') ->
  forall k info, d' !! k = Some info ->
    d !! k = Some info
    \/ received net request_url t (snd (fetch_pages net fuel request_url p d t)) k info.
Proof.
  revert p d t. induction fuel as [|fuel IH]; intros p d t H k info Hk; [discriminate|].
  assert (fst (fetch_pages net (S fuel) request_url p d t) <> Ok None) as Hend
    by (rewrite H; discriminate).
  destruct (fetch_pages_trace net (S fuel) request_url p d t Hend) as (n & Hn & Htrace).
  destruct n as [|n]; [lia|]. cbn [pages_trace] in Htrace.
  rewrite fetch_pages_step in H |- *.
  destruct (net t (page_request request_url p)) as [le|r] eqn:Hnet; [discriminate|].
  destruct (_parse_receipt_data r d) as [[total d1]|e] eqn:E; [|discriminate].
  destruct (parse_receipt_data_Ok r d d1 total E) as (doc & pages & Hdoc & _ & Hitems & _).
  rewrite fetch_pages_step, Hnet, E in Htrace.
  assert (forall k info, d1 !! k = Some info ->
            d !! k = Some info
            \/ received net request_url t
                 (snd (if (total <=? Z.of_nat p)%Z
                       then (Ok (Some d1), t ++ [Request (page_request request_url p)])
                       else fetch_pages net fuel request_url (S p) d1
                              (t ++ [Request (page_request request_url p); Sleep 1])))
                 k info) as H1.
  { intros k0 info0 H0.
    destruct (parse_items_built (all_elements doc) [] _ d d1 eq_refl Hitems k0 info0 H0)
      as [Hd|Hd]; [left; exact Hd|].
    right. eexists [], _, p, r, doc. rewrite app_nil_r.
    split; [exact Htrace|]. auto. }
  destruct (total <=? Z.of_nat p)%Z.
  - injection H as <-. apply H1, Hk.
  - destruct (IH _ _ _ H k info Hk) as [Hd|Hd]; [apply H1, Hd|right].
    destruct Hd as (mid & rest & q & r' & doc' & Ht' & Hnet' & Hdoc' & Hb).
    exists ([Request (page_request request_url p); Sleep 1] ++ mid), rest, q, r', doc'.
    rewrite app_assoc. auto.
Qed.

(** Stripping a text leaves nothing to strip. *)
Lemma rstrip_rstrip (s : string) : PyStr.rstrip (PyStr.rstrip s) = PyStr.rstrip s.
Proof.
  induction s as [|c s IH]; [reflexivity|].
  cbn [PyStr.rstrip]. destruct (PyStr.rstrip s) as [|c' r'] eqn:E.
  - destruct (PyStr.isspace_char c) eqn:Ec; [reflexivity|].
    cbn [PyStr.rstrip]. rewrite Ec. reflexivity.
  - change (PyStr.rstrip (String c (String c' r')))
      with (match PyStr.rstrip (String c' r') with
            | EmptyString =>
                if PyStr.isspace_char c then EmptyString else String c EmptyString
            | x => String c x
            end).
    rewrite IH. reflexivity.
Qed.

Lemma lstrip_head (s : string) :
  PyStr.lstrip s = EmptyString
  \/ exists c r, PyStr.lstrip s = String c r /\ PyStr.isspace_char c = false.
Proof.
  induction s as [|c s IH]; [left; reflexivity|].
  simpl. destruct (PyStr.isspace_char c) eqn:E; [exact IH|].
  right. exists c, s. auto.
Qed.

Lemma rstrip_head (c : ascii) (r : string) :
  PyStr.isspace_char c = false -> exists r', PyStr.rstrip (String c r) = String c r'.
Proof.
  intros H. cbn [PyStr.rstrip]. destruct (PyStr.rstrip r); [rewrite H|]; eauto.
Qed.

Lemma strip_trimmed (s : string) : trimmed (PyStr.strip s).
Proof.
  unfold trimmed, PyStr.strip.
  destruct (lstrip_head s) as [->|(c & r & -> & Hc)]; [reflexivity|].
  destruct (rstrip_head c r Hc) as [r' Hr]. rewrite Hr.
  cbn [PyStr.lstrip]. rewrite Hc. rewrite <- Hr. apply rstrip_rstrip.
Qed.

End ReceiptLoopMore.

(** X4. When a value stands in several checkboxes of a page, the record
    of the last one is the one the dictionary holds after the page,
    whatever it held under that value before: the last write wins. *)
Theorem X4_last_row_with_a_value_wins (response : Net.response) (doc : list Soup.node)
    (pre rest after : list Soup.element)
    (item link store cost_cell points : Soup.element) (href : string)
    (d d' : MigrosApi.receipts) (count : Z) :
  Net.html response = inr doc ->
  Soup.all_elements doc = pre ++ item :: rest ->
  MigrosApi.is_checkbox item = true ->
  Soup.get item "value" <> Some "all" ->
  Soup.find_next MigrosApi.is_modal_link rest = Some (link, after) ->
  Soup.get link "href" = Some href ->
  MigrosApi.find_cells after = Some (store, cost_cell, points) ->
  (forall e, e ∈ rest -> MigrosApi.is_checkbox e = true ->
             Soup.get e "value" <> Soup.get item "value") ->
  MigrosApi._parse_receipt_data response d = Ok (count, d') ->
  d' !! Soup.get item "value" = Some (Shapes.record_of href store cost_cell points).
Proof.
  intros Hdoc Hels Hcb Hall Hlink Hhref Hcells Hlast Hrun.
  destruct (parse_receipt_data_Ok _ _ _ _ Hrun) as (doc' & pages & Hdoc' & _ & Hitems & _).
  rewrite Hdoc in Hdoc'. injection Hdoc' as <-. rewrite Hels in Hitems.
  eapply parse_items_last; eassumption.
Qed.

Lemma X4_last_row_with_a_value_wins_witness :
  (<[Some "d1" := MigrosApi.mk_receipt_info
                    "/service/avantaReceiptExport/html?receiptId=r9" "r9"
                    "Store Z" "9.00" "90"]> (∅ : MigrosApi.receipts))
    !! Soup.get (Shapes.element_at 11 Shapes.page_with_duplicate) "value"
  = Some (Shapes.record_of "/service/avantaReceiptExport/html?receiptId=r9"
            (Shapes.element_at 14 Shapes.page_with_duplicate)
            (Shapes.element_at 15 Shapes.page_with_duplicate)
            (Shapes.element_at 16 Shapes.page_with_duplicate)).
Proof.
  apply (X4_last_row_with_a_value_wins
           (Props.ok_response Props.listing_url "(listing)" Shapes.page_with_duplicate)
           Shapes.page_with_duplicate
           (take 11 (Soup.all_elements Shapes.page_with_duplicate))
           (drop 12 (Soup.all_elements Shapes.page_with_duplicate))
           (drop 14 (Soup.all_elements Shapes.page_with_duplicate))
           (Shapes.element_at 11 Shapes.page_with_duplicate)
           (Shapes.element_at 13 Shapes.page_with_duplicate)
           (Shapes.element_at 14 Shapes.page_with_duplicate)
           (Shapes.element_at 15 Shapes.page_with_duplicate)
           (Shapes.element_at 16 Shapes.page_with_duplicate)
           "/service/avantaReceiptExport/html?receiptId=r9" ∅ _ 1%Z).
  - reflexivity.
  - vm_compute. reflexivity.
  - vm_compute. reflexivity.
  - vm_compute. discriminate.
  - vm_compute. reflexivity.
  - vm_compute. reflexivity.
  - vm_compute. reflexivity.
  - intros e He Hc. vm_compute in He.
    repeat (apply elem_of_cons in He as [->|He]; [vm_compute in Hc; discriminate Hc|]).
    apply elem_of_nil in He. destruct He.
  - vm_compute. reflexivity.
Defined.

(** X5. Every entry of a dictionary returned by [get_all_receipts] is
    built from a page the call has received: the call has sent the
    request for a page of its listing, the network has answered that
    request with a document, and there the key is the [value] of a
    checkbox and is not [all]; the [pdf_ref] is the [href] of the first
    detail link after the checkbox; the [receipt_id] is what follows the
    last [receiptId=] in that address; the store, cost and points are
    the stripped texts of the first three [td] after the link, so that
    none of them starts or ends with a blank. *)
Theorem X5_entries_are_built_from_pages (net : Net.network) (fuel : nat)
    (period_from period_to : Datetime.pyobj) (t : list Net.event)
    (d : MigrosApi.receipts) :
  let run := MigrosApi.get_all_receipts net fuel period_from period_to t in
  fst run = Ok (Some d) ->
  exists a b : Datetime.datetime,
    period_from = Datetime.ODatetime a
    /\ period_to = Datetime.ODatetime b
    /\ forall k info, d !! k = Some info ->
         Shapes.received net
           (MigrosApi.url_receipts (MigrosApi._format_date a) (MigrosApi._format_date b))
           t (snd run) k info
         /\ k <> Some "all"
         /\ MigrosApi.receipt_id info = PyStr.split_last "receiptId=" (MigrosApi.pdf_ref info)
         /\ Shapes.trimmed (MigrosApi.store_name info)
         /\ Shapes.trimmed (MigrosApi.cost info)
         /\ Shapes.trimmed (MigrosApi.cumulus_points info).
Proof.
  intros run. subst run. rewrite get_all_receipts_unfold.
  destruct (MigrosApi.validate_dates period_from period_to) as [[a b]|e] eqn:Ev;
    [|discriminate].
  assert (period_from = Datetime.ODatetime a /\ period_to = Datetime.ODatetime b) as [-> ->].
  { revert Ev. unfold MigrosApi.validate_dates.
    destruct period_from as [a0| | | |]; cbn [Datetime.is_datetime];
      try (rewrite raise_api_4; discriminate).
    destruct period_to as [b0| | | |]; cbn [Datetime.is_datetime];
      try (rewrite raise_api_4; discriminate).
    destruct (Datetime.gt a0 b0) as [[|]|e0]; cbn [rbind];
      [rewrite raise_api_5; discriminate| |discriminate].
    intros [= <- <-]. split; reflexivity. }
  pose proof (fetch_pages_built net fuel
                (MigrosApi.url_receipts (MigrosApi._format_date a) (MigrosApi._format_date b))
                1 ∅ d t) as Hf.
  destruct (MigrosApi.fetch_pages net fuel _ 1 ∅ t) as [[r|e] t']; [|discriminate].
  cbn [fst snd] in *. intros [= ->]. exists a, b. split; [reflexivity|]. split; [reflexivity|].
  intros k info Hk.
  destruct (Hf eq_refl k info Hk) as [Hd|Hd]; [rewrite lookup_empty in Hd; discriminate|].
  split; [exact Hd|].
  destruct Hd as (mid & rest0 & q & r0 & doc & _ & _ & _ & Hb).
  destruct Hb as (pre & rest & after & item & link & s & c & p & href
                  & _ & _ & _ & Hall & _ & _ & _ & ->).
  split; [exact Hall|]. split; [reflexivity|].
  repeat split; apply strip_trimmed.
Qed.

Lemma X5_entries_are_built_from_pages_witness :
  let run := MigrosApi.get_all_receipts Props.two_page_net 5
               (Datetime.ODatetime Props.jan_1) (Datetime.ODatetime Props.jan_31) [] in
  exists a b : Datetime.datetime,
    Datetime.ODatetime Props.jan_1 = Datetime.ODatetime a
    /\ Datetime.ODatetime Props.jan_31 = Datetime.ODatetime b
    /\ forall k info, Props.two_page_acc 2 !! k = Some info ->
         Shapes.received Props.two_page_net
           (MigrosApi.url_receipts (MigrosApi._format_date a) (MigrosApi._format_date b))
           [] (snd run) k info
         /\ k <> Some "all"
         /\ MigrosApi.receipt_id info = PyStr.split_last "receiptId=" (MigrosApi.pdf_ref info)
         /\ Shapes.trimmed (MigrosApi.store_name info)
         /\ Shapes.trimmed (MigrosApi.cost info)
         /\ Shapes.trimmed (MigrosApi.cumulus_points info).
Proof.
  apply (X5_entries_are_built_from_pages Props.two_page_net 5
           (Datetime.ODatetime Props.jan_1) (Datetime.ODatetime Props.jan_31) []
           (Props.two_page_acc 2)).
  vm_compute. reflexivity.
Defined.

(** X6. A checkbox for which the loop finds no detail link in the rest
    of the document, or finds a link with fewer than three cells after
    it, leaves no trace: the extraction gives for the page what it gives
    for the same page without that checkbox, the same page count and
    dictionary or the same exception. *)
Theorem X6_passed_checkbox_leaves_no_trace (r1 r2 : Net.response)
    (doc1 doc2 : list Soup.node) (pre post : list Soup.element) (item : Soup.element)
    (d : MigrosApi.receipts) :
  Net.html r1 = inr doc1 ->
  Net.html r2 = inr doc2 ->
  Soup.all_elements doc1 = pre ++ item :: post ->
  Soup.all_elements doc2 = pre ++ post ->
  MigrosApi.is_checkbox item = true ->
  Props.passed_over post ->
  MigrosApi._parse_receipt_data r1 d = MigrosApi._parse_receipt_data r2 d.
Proof.
  intros H1 H2 E1 E2 Hcb Hpass. unfold MigrosApi._parse_receipt_data.
  rewrite H1, H2. simpl Net.from_lib. unfold rbind at 1 4. rewrite E1, E2.
  destruct (checkbox_not_link item Hcb) as (_ & _ & Hpl).
  rewrite (page_values_without pre post item Hpl).
  rewrite (parse_items_passed_over pre post item d Hcb Hpass). reflexivity.
Qed.

Lemma X6_passed_checkbox_leaves_no_trace_witness :
  MigrosApi._parse_receipt_data
    (Props.ok_response Props.listing_url "(listing)" Shapes.page_last_row_no_link) ∅
  = MigrosApi._parse_receipt_data
      (Props.ok_response Props.listing_url "(listing)" Shapes.page_last_row_no_checkbox) ∅.
Proof.
  apply (X6_passed_checkbox_leaves_no_trace _ _
           Shapes.page_last_row_no_link Shapes.page_last_row_no_checkbox
           (take 11 (Soup.all_elements Shapes.page_last_row_no_link))
           (drop 12 (Soup.all_elements Shapes.page_last_row_no_link))
           (Shapes.element_at 11 Shapes.page_last_row_no_link) ∅).
  - reflexivity.
  - reflexivity.
  - vm_compute. reflexivity.
  - vm_compute. reflexivity.
  - vm_compute. reflexivity.
  - left. vm_compute. reflexivity.
Defined.

(** ** The page count of a page that is read *)

Section PageCount.
Import Net Exceptions Soup MigrosApi Props Shapes.

Lemma numeric_int_char (c : ascii) :
  PyStr.isnumeric_char c = true -> int_char c = true -> PyStr.isdecimal_char c = true.
Proof.
  destruct c as [b0 b1 b2 b3 b4 b5 b6 b7].
  destruct b0, b1, b2, b3, b4, b5, b6, b7; intros H1 H2;
    first [reflexivity | discriminate H1 | discriminate H2].
Qed.

Lemma numeric_int_chars (s : string) :
  PyStr.all_chars PyStr.isnumeric_char s = true ->
  PyStr.all_chars int_char s = true ->
  PyStr.all_chars PyStr.isdecimal_char s = true.
Proof.
  induction s as [|c s IH]; [reflexivity|]. simpl.
  intros H1 H2. apply andb_prop in H1 as [Hc1 Hs1]. apply andb_prop in H2 as [Hc2 Hs2].
  rewrite (numeric_int_char c Hc1 Hc2), (IH Hs1 Hs2). reflexivity.
Qed.

(** [int] on a text of decimal digits: the number, unless the digits
    are too many. *)
Lemma int_of_decimal (v : string) :
  PyStr.isdecimal v = true ->
  PyInt.int v
  = if (PyInt.int_max_str_digits <? String.length v)%nat
    then Raise (PyInt.too_many_digits (String.length v))
    else Ok (decimal_value v).
Proof.
  unfold PyStr.isdecimal. intros H.
  apply andb_prop in H as [Hne Hall].
  destruct v as [|c v]; [discriminate|].
  pose proof Hall as Hall'. simpl in Hall'. apply andb_prop in Hall' as [Hc _].
  destruct (decimal_char_plain c Hc) as [Hsp [Hplus [Hminus Hus]]].
  unfold PyInt.int. simpl PyInt.skip_space. rewrite Hsp, Hplus, Hminus.
  change (PyStr.startswith "_" (String c v))
    with (if Ascii.eqb PyInt.underscore c then true else false).
  rewrite Ascii.eqb_sym, Hus.
  rewrite (scan_digits_decimal _ _ _ Hall). simpl Nat.add.
  simpl String.length.
  destruct (PyInt.int_max_str_digits <? S (String.length v))%nat; reflexivity.
Qed.

Lemma numeric_int_decimal (v : string) (z : Z) :
  PyStr.isnumeric v = true -> PyInt.int v = Ok z ->
  PyStr.isdecimal v = true /\ z = decimal_value v.
Proof.
  intros Hn Hi. unfold PyStr.isnumeric in Hn. apply andb_prop in Hn as [Hne Hall].
  assert (PyStr.isdecimal v = true) as Hd.
  { unfold PyStr.isdecimal. rewrite Hne. simpl.
    apply numeric_int_chars; [exact Hall|]. eapply int_ok_chars, Hi. }
  split; [exact Hd|]. rewrite (int_of_decimal v Hd) in Hi.
  destruct (PyInt.int_max_str_digits <? String.length v)%nat; congruence.
Qed.

Lemma page_values_Ok (els : list element) (pages : list Z) :
  page_values els = Ok pages ->
  (forall v, v ∈ page_index_texts els -> PyStr.isdecimal v = true)
  /\ pages = map decimal_value (page_index_texts els).
Proof.
  revert pages. induction els as [|e els IH]; intros pages H.
  - injection H as <-. split; [|reflexivity]. intros v Hv. apply elem_of_nil in Hv. tauto.
  - unfold page_index_texts in *. simpl in *.
    destruct (is_page_link e); [|apply IH, H].
    destruct (Soup.get e "data-value") as [v|]; [|apply IH, H].
    assert (PyStr.nonempty v && PyStr.isnumeric v = PyStr.isnumeric v) as Hn.
    { unfold PyStr.isnumeric. destruct (PyStr.nonempty v); reflexivity. }
    rewrite Hn in H. destruct (PyStr.isnumeric v) eqn:En; [|apply IH, H].
    destruct (PyInt.int v) as [z|err] eqn:Ei; [|discriminate].
    simpl in H. destruct (page_values els) as [zs|err]; [|discriminate].
    simpl in H. injection H as <-.
    destruct (IH zs eq_refl) as [H1 H2].
    destruct (numeric_int_decimal v z En Ei) as [Hd ->].
    split.
    + intros w Hw. apply elem_of_cons in Hw as [->|Hw]; [exact Hd|apply H1, Hw].
    + simpl. rewrite H2. reflexivity.
Qed.

Lemma decimal_value_from_nonneg (s : string) (acc : Z) :
  (0 <= acc)%Z -> (0 <= decimal_value_from acc s)%Z.
Proof.
  revert acc. induction s as [|c s IH]; intros acc H; [exact H|].
  simpl. apply IH. lia.
Qed.

Lemma max_or_one_nonneg (count : Z) (values : list Z) :
  max_or_one count values -> (forall v, v ∈ values -> (0 <= v)%Z) -> (0 <= count)%Z.
Proof.
  destruct values as [|z zs]; simpl.
  - intros ->. lia.
  - intros [Hin _] H. apply H, Hin.
Qed.

(** A text that holds the separator somewhere holds it. *)
Lemma contains_eq (sub s : string) :
  PyStr.contains sub s
  = PyStr.startswith sub s
    || match s with
       | EmptyString => false
       | String _ r => PyStr.contains sub r
       end.
Proof. destruct s; reflexivity. Qed.

Lemma contains_append (sub pre r : string) :
  PyStr.contains sub (pre +:+ sub +:+ r) = true.
Proof.
  induction pre as [|c pre IH].
  - rewrite append_nil, contains_eq, startswith_append. reflexivity.
  - rewrite append_cons, contains_eq, IH. apply orb_true_r.
Qed.

End PageCount.

(** X7. Whenever the extraction returns, every numeric page-index text
    of the page was a text of decimal digits, and the page count is the
    greatest of their numbers, or 1 when there is none; it is never
    negative (it is 0 for a page whose only page index is 0). *)
Theorem X7_page_count_of_a_read_page (response : Net.response)
    (d d' : MigrosApi.receipts) (count : Z) :
  MigrosApi._parse_receipt_data response d = Ok (count, d') ->
  exists doc,
    Net.html response = inr doc
    /\ (forall v, v ∈ Props.page_index_texts (Soup.all_elements doc) ->
          PyStr.isdecimal v = true)
    /\ Props.max_or_one count
         (map Props.decimal_value (Props.page_index_texts (Soup.all_elements doc)))
    /\ (0 <= count)%Z.
Proof.
  intros H.
  destruct (parse_receipt_data_Ok _ _ _ _ H) as (doc & pages & Hdoc & Hp & _ & ->).
  destruct (page_values_Ok _ _ Hp) as [Hdec ->].
  exists doc. split; [exact Hdoc|]. split; [exact Hdec|].
  pose proof (total_of_spec
                (map Props.decimal_value (Props.page_index_texts (Soup.all_elements doc))))
    as Hm.
  split; [exact Hm|]. eapply max_or_one_nonneg; [exact Hm|].
  intros v Hv. apply list_elem_of_fmap in Hv as [s [-> _]].
  apply decimal_value_from_nonneg. lia.
Qed.

Lemma X7_page_count_of_a_read_page_witness :
  exists doc,
    Net.html (Props.ok_response Props.listing_url "(listing)" [Props.page_link "0"]) = inr doc
    /\ (forall v, v ∈ Props.page_index_texts (Soup.all_elements doc) ->
          PyStr.isdecimal v = true)
    /\ Props.max_or_one 0
         (map Props.decimal_value (Props.page_index_texts (Soup.all_elements doc)))
    /\ (0 <= 0)%Z.
Proof.
  apply (X7_page_count_of_a_read_page
           (Props.ok_response Props.listing_url "(listing)" [Props.page_link "0"]) ∅ ∅ 0%Z).
  vm_compute. reflexivity.
Defined.

(** X8. The receipt id of a record holds no [receiptId=]; when the
    address of the link holds [receiptId=], the receipt id is what
    follows an occurrence of it (the last one); when the address holds
    none, the receipt id is the whole address. *)
Theorem X8_receipt_id_is_text_after_last_marker (href : string)
    (store cost_cell points : Soup.element) :
  let rid := MigrosApi.receipt_id (Shapes.record_of href store cost_cell points) in
  PyStr.contains "receiptId=" rid = false
  /\ (PyStr.contains "receiptId=" href = true ->
      exists pre, href = pre +:+ "receiptId=" +:+ rid)
  /\ (PyStr.contains "receiptId=" href = false -> rid = href).
Proof.
  intros rid. subst rid. simpl MigrosApi.receipt_id.
  destruct (receipt_id_spec href) as [Hc Hr]. split; [exact Hc|]. split.
  - intros H. destruct Hr as [Hr|Hr]; [|exact Hr].
    rewrite Hr in Hc. congruence.
  - intros H. destruct Hr as [Hr|[pre Hr]]; [exact Hr|].
    rewrite Hr in H at 1. rewrite contains_append in H. discriminate.
Qed.

Lemma X8_receipt_id_is_text_after_last_marker_witness :
  exists pre,
    "/export?receiptId=a&receiptId=b"
    = pre +:+ "receiptId=" +:+
      MigrosApi.receipt_id
        (Shapes.record_of "/export?receiptId=a&receiptId=b"
           (Shapes.element_at 0 []) (Shapes.element_at 0 []) (Shapes.element_at 0 [])).
Proof.
  apply (proj1 (proj2 (X8_receipt_id_is_text_after_last_marker
                         "/export?receiptId=a&receiptId=b"
                         (Shapes.element_at 0 []) (Shapes.element_at 0 [])
                         (Shapes.element_at 0 [])))).
  reflexivity.
Defined.

(** ** The login, step by step *)

Section LoginSteps.
Import Net Exceptions Soup MigrosApi Props Shapes.

Variable net : network.
Variable username password : string.

Lemma authenticate_handlers_snd (e : exn) (t : list event) :
  snd (authenticate_handlers e t) = t.
Proof. destruct e; reflexivity. Qed.

(** [__authenticate] up to the POST, on a login page with a token. *)
Lemma authenticate_to_post (t : list event) (r1 : response) (tok : string) :
  net t (get login_url []) = inr r1 ->
  raise_for_status r1 = Ok tt ->
  csrf_search (body r1) = Some tok ->
  let tr := t ++ [Request (get login_url []); Sleep 1; Sleep 2] in
  __authenticate net username password t
  = match net tr (login_post username password tok) with
    | inl le => authenticate_handlers (exn_of le)
                  (tr ++ [Request (login_post username password tok)])
    | inr r2 =>
        match raise_for_status r2 with
        | Raise e => authenticate_handlers e
                       (tr ++ [Request (login_post username password tok)])
        | Ok _ =>
            match html r2 with
            | inl le => authenticate_handlers (exn_of le)
                          (tr ++ [Request (login_post username password tok)])
            | inr soup =>
                match error_elements soup with
                | _ :: _ =>
                    (Raise (ExceptionMigrosApi (Some "1")
                              (Some ("Login failed: "
                                     +:+ PyStr.join " | "
                                           (map get_text_strip (error_elements soup))))),
                     tr ++ [Request (login_post username password tok)])
                | [] =>
                    if PyStr.contains "authentication_error" (PyStr.lower (resp_url r2))
                    then (Raise (ExceptionMigrosApi (Some "1")
                                   (Some "Authentication failed")),
                          tr ++ [Request (login_post username password tok)])
                    else (Ok tt, tr ++ [Request (login_post username password tok)])
                end
            end
        end
    end.
Proof.
  intros Hnet Hst Htok tr. unfold __authenticate.
  rewrite try_except_unfold, bind_send, Hnet, bind_lift, Hst, bind_sleep, Htok.
  rewrite bind_sleep, <- !app_assoc. simpl app. fold tr.
  rewrite bind_send. fold (login_post username password tok).
  destruct (net tr (login_post username password tok)) as [le|r2]; [reflexivity|].
  rewrite bind_lift.
  destruct (raise_for_status_cases r2) as [E|[m E]]; rewrite E; [|reflexivity].
  rewrite bind_lift.
  destruct (html r2) as [le|soup]; simpl from_lib; [reflexivity|].
  cbv beta iota. fold (error_elements soup).
  destruct (error_elements soup) as [|em ems].
  - destruct (PyStr.contains "authentication_error" (PyStr.lower (resp_url r2)));
      reflexivity.
  - unfold lift. rewrite raise_api_custom. reflexivity.
Qed.

End LoginSteps.

(** X9. On a login page that passes the status check and holds a token,
    [__authenticate] sends, after the GET and sleeps of 1 and 2 seconds,
    one POST with that token and the credentials, and nothing after it.
    When the answer to the POST passes the status check and is turned
    into a document, the login is refused with code 1 if the document has
    an element of class [error], [error-message] or [alert-danger] (the
    message lists their stripped texts), or else if the final URL holds
    [authentication_error] in any letter case; otherwise it succeeds. *)
Theorem X9_credentials_posted_once_with_the_page_token (net : Net.network)
    (username password : string) (t : list Net.event) (r1 : Net.response) (tok : string) :
  net t (MigrosApi.get MigrosApi.login_url []) = inr r1 ->
  Net.raise_for_status r1 = Ok tt ->
  MigrosApi.csrf_search (Net.body r1) = Some tok ->
  let tr := t ++ [Net.Request (MigrosApi.get MigrosApi.login_url []);
                  Net.Sleep 1; Net.Sleep 2] in
  let post := Props.login_post username password tok in
  let run := MigrosApi.__authenticate net username password t in
  snd run = tr ++ [Net.Request post]
  /\ forall (r2 : Net.response) (soup : list Soup.node),
       net tr post = inr r2 ->
       Net.raise_for_status r2 = Ok tt ->
       Net.html r2 = inr soup ->
       (Shapes.error_elements soup <> [] ->
        fst run = Raise (ExceptionMigrosApi (Some "1")
                           (Some ("Login failed: "
                                  +:+ PyStr.join " | "
                                        (map Soup.get_text_strip
                                           (Shapes.error_elements soup))))))
       /\ (Shapes.error_elements soup = [] ->
           PyStr.contains "authentication_error" (PyStr.lower (Net.resp_url r2)) = true ->
           fst run = Raise (ExceptionMigrosApi (Some "1") (Some "Authentication failed")))
       /\ (Shapes.error_elements soup = [] ->
           PyStr.contains "authentication_error" (PyStr.lower (Net.resp_url r2)) = false ->
           fst run = Ok tt).
Proof.
  intros Hnet Hst Htok tr post run. subst run.
  rewrite (authenticate_to_post net username password t r1 tok Hnet Hst Htok).
  fold tr. fold post. split.
  - destruct (net tr post) as [le|r2]; [apply authenticate_handlers_snd|].
    destruct (Net.raise_for_status r2); [|apply authenticate_handlers_snd].
    destruct (Net.html r2) as [le|soup]; [apply authenticate_handlers_snd|].
    destruct (Shapes.error_elements soup); [|reflexivity].
    destruct (PyStr.contains _ _); reflexivity.
  - intros r2 soup Hpost Hst2 Hsoup. rewrite Hpost, Hst2, Hsoup.
    destruct (Shapes.error_elements soup) as [|em ems].
    + split; [intros H; contradiction|].
      split; intros _ ->; reflexivity.
    + split; [reflexivity|]. split; discriminate.
Qed.

Lemma X9_credentials_posted_once_with_the_page_token_witness :
  fst (MigrosApi.__authenticate Shapes.refusing_net "user" "secret" [])
  = Raise (ExceptionMigrosApi (Some "1") (Some "Login failed: Wrong password")).
Proof.
  apply (proj1 (proj2 (X9_credentials_posted_once_with_the_page_token
                         Shapes.refusing_net "user" "secret" []
                         (Props.ok_response MigrosApi.login_url Props.login_page_body [])
                         "tok123" eq_refl eq_refl eq_refl)
                  (Props.ok_response MigrosApi.login_url "(login)"
                     [Props.tag "div" [] ["alert"; "alert-danger"]
                        [Soup.Text " Wrong password "]])
                  [Props.tag "div" [] ["alert"; "alert-danger"]
                     [Soup.Text " Wrong password "]]
                  eq_refl eq_refl eq_refl)).
  vm_compute. discriminate.
Defined.

Section LoginComposition.
Import Net Exceptions Soup MigrosApi Props Shapes.

Variable net : network.
Variable username password : string.

Lemma authenticate_raises (t : list event) (e : exn) :
  fst (__authenticate net username password t) = Raise e ->
  exists m, e = ExceptionMigrosApi (Some "1") (Some m).
Proof.
  intros H. pose proof (authenticate_cases net username password t) as Ha.
  cbv zeta in Ha. destruct Ha as [[Hok _]|[[m Hm] _]].
  - rewrite Hok in H. discriminate.
  - rewrite Hm in H. injection H as <-. eauto.
Qed.

(** [_login_cumulus] after [__authenticate]. *)
Lemma login_cumulus_after (t : list event) :
  _login_cumulus net username password t
  = match __authenticate net username password t with
    | (Raise e, t') => (Raise e, t')
    | (Ok _, t') =>
        let tr := t' ++ [Request (get cumulus_login cumulus_params)] in
        match net t' (get cumulus_login cumulus_params) with
        | inl le =>
            (Raise (ExceptionMigrosApi (Some "3")
                      (Some ("Cumulus login failed: " +:+ str_of_exn (exn_of le)))), tr)
        | inr r =>
            match raise_for_status r with
            | Raise e =>
                (Raise (ExceptionMigrosApi (Some "3")
                          (Some ("Cumulus login failed: " +:+ str_of_exn e))), tr)
            | Ok _ =>
                match html r with
                | inl le =>
                    (Raise (ExceptionMigrosApi (Some "3")
                              (Some ("Cumulus login failed: "
                                     +:+ str_of_exn (exn_of le)))), tr)
                | inr soup =>
                    if existsb (PyStr.contains "Cumulus") (all_strings soup)
                    then (Ok tt, tr)
                    else (Raise (ExceptionMigrosApi (Some "3")
                                   (Some "Failed to access Cumulus account")), tr)
                end
            end
        end
    end.
Proof.
  unfold _login_cumulus. rewrite try_except_unfold, bind_unfold.
  pose proof (authenticate_raises t) as Hr.
  destruct (__authenticate net username password t) as [[[]|e] t'].
  - rewrite bind_send.
    destruct (net t' (get cumulus_login cumulus_params)) as [le|r];
      [destruct le; reflexivity|].
    rewrite bind_lift.
    destruct (raise_for_status_cases r) as [E|[m E]]; rewrite E; [|reflexivity].
    rewrite bind_lift. destruct (html r) as [le|soup]; simpl from_lib;
      [destruct le; reflexivity|].
    cbv beta iota.
    assert (forall l : list string,
              match filter (fun s => PyStr.contains "Cumulus" s = true) l with
              | [] => existsb (PyStr.contains "Cumulus") l = false
              | _ :: _ => existsb (PyStr.contains "Cumulus") l = true
              end) as Hf.
    { induction l as [|x l IH]; [reflexivity|].
      rewrite filter_cons. simpl. destruct (PyStr.contains "Cumulus" x) eqn:Ex.
      - rewrite decide_True by reflexivity. reflexivity.
      - rewrite decide_False by discriminate. exact IH. }
    specialize (Hf (all_strings soup)).
    destruct (filter _ (all_strings soup)); rewrite Hf; [|reflexivity].
    unfold lift. rewrite raise_api_custom. reflexivity.
  - destruct (Hr e eq_refl) as [m ->]. reflexivity.
Qed.

End LoginComposition.

(** X10. [_login_cumulus] passes a failure of [__authenticate] on as it
    is, exception and events, and asks for no account page.  After a
    successful [__authenticate] it sends exactly one more request, the
    GET of the account page, and any failure from then on carries the
    code 3; it succeeds exactly when the answer passes the status check,
    is turned into a document, and a text of the document holds
    [Cumulus]. *)
Theorem X10_login_cumulus_after_authenticate (net : Net.network)
    (username password : string) (t : list Net.event) :
  let auth := MigrosApi.__authenticate net username password t in
  let run := MigrosApi._login_cumulus net username password t in
  let account := MigrosApi.get MigrosApi.cumulus_login MigrosApi.cumulus_params in
  (forall e, fst auth = Raise e -> run = auth)
  /\ (fst auth = Ok tt ->
      snd run = snd auth ++ [Net.Request account]
      /\ (fst run = Ok tt
          \/ exists m, fst run = Raise (ExceptionMigrosApi (Some "3") (Some m)))
      /\ (fst run = Ok tt <->
          exists r soup,
            net (snd auth) account = inr r
            /\ Net.raise_for_status r = Ok tt
            /\ Net.html r = inr soup
            /\ existsb (PyStr.contains "Cumulus") (Soup.all_strings soup) = true)).
Proof.
  intros auth run account. subst run. rewrite login_cumulus_after. fold auth. fold account.
  destruct auth as [[[]|e0] t'] eqn:Ea; simpl fst; simpl snd.
  - split; [discriminate|]. intros _.
    destruct (net t' account) as [le|r].
    { split; [reflexivity|]. split; [right; eauto|].
      split; [discriminate|]. intros (r & soup & H & _). discriminate. }
    destruct (Net.raise_for_status r) as [[]|e1] eqn:Est.
    2:{ split; [reflexivity|]. split; [right; eauto|].
        split; [discriminate|]. intros (r' & soup & H & H' & _).
        injection H as <-. congruence. }
    destruct (Net.html r) as [le|soup] eqn:Eh.
    { split; [reflexivity|]. split; [right; eauto|].
      split; [discriminate|]. intros (r' & soup & H & _ & H' & _).
      injection H as <-. congruence. }
    destruct (existsb (PyStr.contains "Cumulus") (Soup.all_strings soup)) eqn:Ex.
    + split; [reflexivity|]. split; [left; reflexivity|].
      split; [intros _; exists r, soup; auto|reflexivity].
    + split; [reflexivity|]. split; [right; eauto|].
      split; [discriminate|]. intros (r' & soup' & H & _ & H' & H'').
      injection H as <-. rewrite Eh in H'. injection H' as <-. congruence.
  - split; [intros e _; reflexivity|discriminate].
Qed.

Lemma X10_login_cumulus_after_authenticate_witness :
  MigrosApi._login_cumulus Props.c3_net "user" "secret" []
  = MigrosApi.__authenticate Props.c3_net "user" "secret" [].
Proof.
  apply (proj1 (X10_login_cumulus_after_authenticate Props.c3_net "user" "secret" [])
           (ExceptionMigrosApi (Some "1")
              (Some "Network error during authentication: 404 Client Error: Not Found for url: https://login.migros.ch/login"))).
  vm_compute. reflexivity.
Defined.

(** X11. The constructor stops at a failed first request: when the GET
    of the main page fails in the transport or in the status check, the
    exception reaches the caller as it is and that GET is the only
    request sent, no login is tried.  When it passes, the constructor
    sleeps 1 second and is, from there, [_login_cumulus]. *)
Theorem X11_constructor_stops_at_failed_warm_up (net : Net.network)
    (username password : string) (t : list Net.event) :
  let warm_up := MigrosApi.get MigrosApi.main_page [] in
  let run := MigrosApi.__init__ net username password t in
  (forall le, net t warm_up = inl le ->
     run = (Raise (Net.exn_of le), t ++ [Net.Request warm_up]))
  /\ (forall r e, net t warm_up = inr r -> Net.raise_for_status r = Raise e ->
        run = (Raise e, t ++ [Net.Request warm_up]))
  /\ (forall r, net t warm_up = inr r -> Net.raise_for_status r = Ok tt ->
        run = MigrosApi._login_cumulus net username password
                (t ++ [Net.Request warm_up; Net.Sleep 1])).
Proof.
  intros warm_up run. subst run. unfold MigrosApi.__init__, MigrosApi._init_session.
  rewrite !try_except_unfold, !bind_unfold, !try_except_unfold, bind_send. fold warm_up.
  split; [|split].
  - intros le ->. reflexivity.
  - intros r e -> Hst. rewrite bind_lift, Hst. reflexivity.
  - intros r -> Hst. rewrite bind_lift, Hst. unfold Net.sleep. rewrite <- app_assoc.
    simpl app.
    destruct (MigrosApi._login_cumulus net username password _) as [[[]|e] t'];
      reflexivity.
Qed.

Lemma X11_constructor_stops_at_failed_warm_up_witness :
  MigrosApi.__init__ Props.down_net "user" "secret" []
  = (Raise (RequestException "Connection refused"),
     [] ++ [Net.Request (MigrosApi.get MigrosApi.main_page [])]).
Proof.
  apply (proj1 (X11_constructor_stops_at_failed_warm_up Props.down_net "user" "secret" [])
           (Net.RequestError "Connection refused")).
  reflexivity.
Defined.

(** X12. [get_receipt] sends its two requests one right after the
    other, before it looks at either answer: when the first request gets
    an answer, whatever its status, the second is sent too, with no
    sleep.  When both answers pass the status check, the record is made
    from the receipt id cut at its first question mark and from the two
    bodies, and what its constructor returns is returned. *)
Theorem X12_get_receipt_sends_both_requests (net : Net.network) (R : Type)
    (new_R : string -> string -> string -> result R) (receipt_id : string)
    (t : list Net.event) (r1 : Net.response) :
  let html_req := Shapes.receipt_html_request receipt_id in
  let pdf_req := Shapes.receipt_pdf_request receipt_id in
  let run := MigrosApi.get_receipt net R new_R receipt_id t in
  net t html_req = inr r1 ->
  snd run = t ++ [Net.Request html_req; Net.Request pdf_req]
  /\ forall (r2 : Net.response) (item : R),
       net (t ++ [Net.Request html_req]) pdf_req = inr r2 ->
       Net.raise_for_status r1 = Ok tt ->
       Net.raise_for_status r2 = Ok tt ->
       new_R (MigrosApi.split_first "?" receipt_id) (Net.body r1) (Net.body r2) = Ok item ->
       fst run = Ok item.
Proof.
  intros html_req pdf_req run H1. subst run. unfold MigrosApi.get_receipt.
  rewrite bind_unfold, try_except_unfold, bind_send.
  fold (Shapes.receipt_html_request receipt_id). fold html_req. rewrite H1.
  rewrite bind_send.
  fold (Shapes.receipt_pdf_request receipt_id). fold pdf_req.
  assert ((t ++ [Net.Request html_req]) ++ [Net.Request pdf_req]
          = t ++ [Net.Request html_req; Net.Request pdf_req]) as Happ
    by (rewrite <- app_assoc; reflexivity).
  rewrite Happ.
  assert (forall (A : Type) (rid : string) (e : exn) (t' : list Net.event),
            exists m, @MigrosApi.get_receipt_handlers A rid e t' = (Raise (ValueError m), t'))
    as Hh by (intros; apply get_receipt_handlers_raise).
  destruct (net (t ++ [Net.Request html_req]) pdf_req) as [le|r2].
  { destruct (Hh (Net.response * Net.response)%type receipt_id (Net.exn_of le)
                (t ++ [Net.Request html_req; Net.Request pdf_req])) as [m ->].
    split; [reflexivity|]. intros r2 item H. discriminate. }
  rewrite bind_lift.
  destruct (Net.raise_for_status r1) as [[]|e1].
  2:{ destruct (Hh (Net.response * Net.response)%type receipt_id e1
                  (t ++ [Net.Request html_req; Net.Request pdf_req])) as [m ->].
      split; [reflexivity|]. intros r2' item _ H. discriminate. }
  rewrite bind_lift.
  destruct (Net.raise_for_status r2) as [[]|e2] eqn:E2.
  2:{ destruct (Hh (Net.response * Net.response)%type receipt_id e2
                  (t ++ [Net.Request html_req; Net.Request pdf_req])) as [m ->].
      split; [reflexivity|]. intros r2' item H _ H'. injection H as <-. congruence. }
  unfold mret, Net.M_ret, Net.ret. cbv beta iota.
  rewrite try_except_unfold. unfold Net.lift.
  destruct (new_R (MigrosApi.split_first "?" receipt_id) (Net.body r1) (Net.body r2))
    as [item|e] eqn:En.
  - split; [reflexivity|]. intros r2' item' H _ _ H'. injection H as <-.
    rewrite En in H'. injection H' as <-. reflexivity.
  - destruct (Hh R (MigrosApi.split_first "?" receipt_id) e
                (t ++ [Net.Request html_req; Net.Request pdf_req])) as [m ->].
    split; [reflexivity|]. intros r2' item H _ _ H'. injection H as <-. congruence.
Qed.

Lemma X12_get_receipt_sends_both_requests_witness :
  snd (MigrosApi.get_receipt Shapes.missing_net (string * string * string)
         (fun a b c => Ok (a, b, c)) "2024_17?x=1" [])
  = [] ++ [Net.Request (Shapes.receipt_html_request "2024_17?x=1");
           Net.Request (Shapes.receipt_pdf_request "2024_17?x=1")].
Proof.
  apply (proj1 (X12_get_receipt_sends_both_requests Shapes.missing_net
                  (string * string * string) (fun a b c => Ok (a, b, c)) "2024_17?x=1" []
                  (Net.mk_response 404 "Not Found"
                     (Net.url (Shapes.receipt_html_request "2024_17?x=1")) "gone" (inr []))
                  eq_refl)).
Defined.

(** ** What the listing walk looks at *)

Section WalkFacts.
Import Net Exceptions Soup MigrosApi Props Shapes.

Lemma parse_html_only (r1 r2 : response) (d : receipts) :
  html r1 = html r2 -> _parse_receipt_data r1 d = _parse_receipt_data r2 d.
Proof. intros H. unfold _parse_receipt_data. rewrite H. reflexivity. Qed.

Lemma fetch_pages_same_documents (net1 net2 : network) :
  same_documents net1 net2 ->
  forall fuel request_url p d t,
    fetch_pages net1 fuel request_url p d t = fetch_pages net2 fuel request_url p d t.
Proof.
  intros Hsame. induction fuel as [|fuel IH]; intros request_url p d t; [reflexivity|].
  rewrite !fetch_pages_step. specialize (Hsame t (page_request request_url p)).
  destruct (net1 t (page_request request_url p)) as [e1|r1],
           (net2 t (page_request request_url p)) as [e2|r2]; try contradiction.
  - rewrite Hsame. reflexivity.
  - rewrite (parse_html_only r1 r2 d Hsame).
    destruct (_parse_receipt_data r2 d) as [[total d']|e]; [|reflexivity].
    destruct (total <=? Z.of_nat p)%Z; [reflexivity|apply IH].
Qed.

Lemma fetch_pages_goes_on (net : network) (request_url : string) (N : nat) :
  (forall t p d, (1 <= p <= N)%nat ->
     exists r total d',
       net t (page_request request_url p) = inr r
       /\ _parse_receipt_data r d = Ok (total, d')
       /\ (Z.of_nat p < total)%Z) ->
  forall fuel p d t, (1 <= p)%nat -> (p + fuel <= N + 1)%nat ->
    fst (fetch_pages net fuel request_url p d t) = Ok None
    /\ List.length (requests (snd (fetch_pages net fuel request_url p d t)))
       = (List.length (requests t) + fuel)%nat.
Proof.
  intros Hnet. induction fuel as [|fuel IH]; intros p d t Hp Hfuel.
  - simpl. split; [reflexivity|lia].
  - rewrite fetch_pages_step.
    destruct (Hnet t p d) as (r & total & d' & -> & -> & Hlt); [lia|].
    destruct (Z.leb_spec total (Z.of_nat p)) as [Hle|_]; [lia|].
    destruct (IH (S p) d' (t ++ [Request (page_request request_url p); Sleep 1]))
      as [H1 H2]; [lia|lia|].
    split; [exact H1|]. rewrite H2, requests_app, length_app. simpl. lia.
Qed.

End WalkFacts.

(** X13. [get_all_receipts] never looks at the status of a listing
    answer, nor at its final URL or its body as text: two networks whose
    answers the session hands on and have the same documents (and that
    fail alike in the transport) give the same result and the same
    events.  So a listing page answered with an error status that is not
    retried, such as 404, is read like any other. *)
Theorem X13_listing_status_is_not_looked_at (net1 net2 : Net.network) (fuel : nat)
    (period_from period_to : Datetime.pyobj) (t : list Net.event) :
  Shapes.handed_on net1 ->
  Shapes.handed_on net2 ->
  Shapes.same_documents net1 net2 ->
  MigrosApi.get_all_receipts net1 fuel period_from period_to t
  = MigrosApi.get_all_receipts net2 fuel period_from period_to t.
Proof.
  intros _ _ Hsame. rewrite !get_all_receipts_unfold.
  destruct (MigrosApi.validate_dates period_from period_to) as [[a b]|e]; [|reflexivity].
  rewrite (fetch_pages_same_documents net1 net2 Hsame). reflexivity.
Qed.

Lemma X13_listing_status_is_not_looked_at_witness :
  MigrosApi.get_all_receipts Props.two_page_net 5
    (Datetime.ODatetime Props.jan_1) (Datetime.ODatetime Props.jan_31) []
  = MigrosApi.get_all_receipts Shapes.two_page_net_404 5
      (Datetime.ODatetime Props.jan_1) (Datetime.ODatetime Props.jan_31) [].
Proof.
  apply X13_listing_status_is_not_looked_at.
  - intros t req r _ H. unfold Props.two_page_net in H.
    assert (Net.status_code r = 200%nat) as ->
      by (destruct (Soup.str_eqb (Props.asked_page req) "1"); injection H as <-; reflexivity).
    intros Hin. unfold MigrosApi.status_forcelist in Hin.
    repeat (apply elem_of_cons in Hin as [Hin|Hin]; [discriminate Hin|]).
    apply elem_of_nil in Hin. exact Hin.
  - intros t req r _ H. unfold Shapes.two_page_net_404 in H. injection H as <-.
    intros Hin. unfold MigrosApi.status_forcelist in Hin. cbn [Net.status_code] in Hin.
    repeat (apply elem_of_cons in Hin as [Hin|Hin]; [discriminate Hin|]).
    apply elem_of_nil in Hin. exact Hin.
  - intros t req. unfold Props.two_page_net, Shapes.two_page_net_404.
    destruct (Soup.str_eqb (Props.asked_page req) "1"); reflexivity.
Defined.

(** X14. The loop has no bound of its own on the number of pages: on a
    listing of which each of the pages 1 to [N] reports a page count
    above its own number, the call has, after any number of turns up to
    [N], sent that many listing requests and not returned. *)
Theorem X14_walk_goes_on_while_pages_report_more (net : Net.network)
    (a b : Datetime.datetime) (N : nat) (t : list Net.event) :
  let request_url :=
    MigrosApi.url_receipts (MigrosApi._format_date a) (MigrosApi._format_date b) in
  Datetime.gt a b = Ok false ->
  (forall t' p d, (1 <= p <= N)%nat ->
     exists r total d',
       net t' (Props.page_request request_url p) = inr r
       /\ MigrosApi._parse_receipt_data r d = Ok (total, d')
       /\ (Z.of_nat p < total)%Z) ->
  forall fuel, (fuel <= N)%nat ->
    let run :=
      MigrosApi.get_all_receipts net fuel (Datetime.ODatetime a) (Datetime.ODatetime b) t in
    fst run = Ok None
    /\ List.length (Props.requests (snd run))
       = (List.length (Props.requests t) + fuel)%nat.
Proof.
  intros request_url Hgt Hnet fuel Hfuel run. subst run.
  rewrite get_all_receipts_unfold, (validate_dates_ok a b Hgt). fold request_url.
  destruct (fetch_pages_goes_on net request_url N Hnet fuel 1 ∅ t) as [H1 H2]; [lia|lia|].
  destruct (MigrosApi.fetch_pages net fuel request_url 1 ∅ t) as [[r|e] t'];
    simpl in H1; [|discriminate].
  simpl. split; [exact H1|exact H2].
Qed.

Lemma X14_walk_goes_on_while_pages_report_more_witness :
  fst (MigrosApi.get_all_receipts Shapes.always_nine_net 8
         (Datetime.ODatetime Props.jan_1) (Datetime.ODatetime Props.jan_31) [])
  = Ok None
  /\ List.length
       (Props.requests
          (snd (MigrosApi.get_all_receipts Shapes.always_nine_net 8
                  (Datetime.ODatetime Props.jan_1) (Datetime.ODatetime Props.jan_31) [])))
     = (List.length (Props.requests []) + 8)%nat.
Proof.
  apply (X14_walk_goes_on_while_pages_report_more Shapes.always_nine_net
           Props.jan_1 Props.jan_31 8 [] eq_refl).
  - intros t' p d Hp.
    exists (Props.ok_response Props.listing_url "(listing)" [Props.page_link "9"]), 9%Z, d.
    split; [reflexivity|]. split; [reflexivity|lia].
  - lia.
Defined.

(** ** Codes, tokens and dates *)

Section IntCodes.
Import PyStr Exceptions Props.

Lemma digit_char_decimal (j : nat) :
  (j < 10)%nat -> isdecimal_char (digit_char j) = true /\ (code (digit_char j) - 48)%nat = j.
Proof.
  intros H. do 10 (destruct j as [|j]; [split; reflexivity|]). lia.
Qed.

Lemma all_chars_append (p : ascii -> bool) (a b : string) :
  all_chars p (a +:+ b) = all_chars p a && all_chars p b.
Proof.
  induction a as [|x a IH]; [reflexivity|].
  rewrite append_cons. simpl. rewrite IH. apply andb_assoc.
Qed.

Lemma decimal_value_from_append (a b : string) (acc : Z) :
  decimal_value_from acc (a +:+ b) = decimal_value_from (decimal_value_from acc a) b.
Proof.
  revert acc. induction a as [|x a IH]; intros acc; [reflexivity|].
  rewrite append_cons. simpl. apply IH.
Qed.

(** The digits [str] writes for a natural number: decimal digits, most
    significant first, as many as the number needs. *)
Lemma digits_of_nat_spec (fuel m : nat) (tail : string) :
  (m < fuel)%nat ->
  exists ds : string,
    digits_of_nat fuel m tail = ds +:+ tail
    /\ isdecimal ds = true
    /\ (forall acc, decimal_value_from acc ds
                    = (acc * 10 ^ Z.of_nat (String.length ds) + Z.of_nat m)%Z)
    /\ (m = 0%nat \/ (10 ^ (Z.of_nat (String.length ds) - 1) <= Z.of_nat m)%Z)
    /\ (String.length ds = 1%nat \/ m <> 0%nat)
    /\ (Z.of_nat m < 10 ^ Z.of_nat (String.length ds))%Z.
Proof.
  revert m tail. induction fuel as [|fuel IH]; intros m tail Hm; [lia|].
  cbn [digits_of_nat]. cbv zeta. destruct (Nat.ltb_spec m 10) as [Hlt|Hge].
  - exists (String (digit_char (m mod 10)) EmptyString).
    rewrite Nat.mod_small by exact Hlt.
    destruct (digit_char_decimal m Hlt) as [Hd Hc].
    split; [reflexivity|]. split; [unfold isdecimal; cbn [nonempty all_chars]; rewrite Hd; reflexivity|].
    split.
    { intros acc. cbn [decimal_value_from String.length]. rewrite Hc.
      change (Z.of_nat 1) with 1%Z. rewrite Z.pow_1_r. lia. }
    split.
    { destruct m; [left; reflexivity|right]. cbn [String.length].
      change (Z.of_nat 1 - 1)%Z with 0%Z. rewrite Z.pow_0_r. lia. }
    split; [left; reflexivity|].
    cbn [String.length]. change (Z.of_nat 1) with 1%Z. rewrite Z.pow_1_r. lia.
  - assert (m / 10 < fuel)%nat as Hq.
    { pose proof (Nat.div_lt m 10). lia. }
    destruct (IH (m / 10)%nat (String (digit_char (m mod 10)) tail) Hq)
      as (ds & Heq & Hdec & Hval & Hsize & _ & Hup).
    assert (m mod 10 < 10)%nat as Hr by (apply Nat.mod_upper_bound; lia).
    destruct (digit_char_decimal _ Hr) as [Hd Hc].
    exists (ds +:+ String (digit_char (m mod 10)) EmptyString).
    split; [rewrite Heq, append_assoc; reflexivity|].
    unfold isdecimal in *. apply andb_prop in Hdec as [Hne Hall].
    split.
    { rewrite all_chars_append, Hall. cbn [all_chars]. rewrite Hd.
      destruct ds; [discriminate|reflexivity]. }
    pose proof (Nat.div_mod_eq m 10) as Hdm.
    assert (Z.of_nat m = 10 * Z.of_nat (m / 10) + Z.of_nat (m mod 10))%Z as HZ by lia.
    rewrite length_append. simpl String.length.
    replace (Z.of_nat (String.length ds + 1)) with (Z.succ (Z.of_nat (String.length ds))) by lia.
    split.
    { intros acc. rewrite decimal_value_from_append. cbn [decimal_value_from]. rewrite Hval, Hc.
      rewrite Z.pow_succ_r by lia. lia. }
    split; [|split; [right; lia|rewrite Z.pow_succ_r by lia; lia]].
    right. destruct Hsize as [H0|Hsize]; [assert (m / 10 <> 0)%nat by (intros E; apply Nat.div_small_iff in E; lia); lia|].
    replace (Z.succ (Z.of_nat (String.length ds)) - 1)%Z
      with (Z.succ (Z.of_nat (String.length ds) - 1))%Z by lia.
    destruct ds; [discriminate|]. 
    rewrite Z.pow_succ_r by (simpl String.length; lia). lia.
Qed.


Lemma str_of_nat_spec (m : nat) :
  isdecimal (str_of_nat m) = true
  /\ decimal_value (str_of_nat m) = Z.of_nat m
  /\ (forall b : nat, (Z.of_nat m < 10 ^ Z.of_nat b)%Z -> (0 < b)%nat ->
        (String.length (str_of_nat m) <= b)%nat)
  /\ (Z.of_nat m < 10 ^ Z.of_nat (String.length (str_of_nat m)))%Z.
Proof.
  unfold str_of_nat.
  destruct (digits_of_nat_spec (S m) m EmptyString)
    as (ds & -> & Hdec & Hval & Hsize & Hone & Hup); [lia|].
  rewrite append_nil_r. split; [exact Hdec|]. split; [|split; [|exact Hup]].
  - unfold decimal_value. rewrite Hval. lia.
  - intros b Hb Hpos. destruct (Nat.le_gt_cases (String.length ds) b) as [|Hgt]; [assumption|].
    exfalso. destruct Hsize as [->|Hsize]; [destruct Hone as [Hone|Hone]; lia|].
    assert (10 ^ Z.of_nat b <= 10 ^ (Z.of_nat (String.length ds) - 1))%Z
      by (apply Z.pow_le_mono_r; lia).
    lia.
Qed.

(** [int] on a minus sign and decimal digits. *)
Lemma int_minus_decimal (v : string) :
  isdecimal v = true ->
  PyInt.int (String "-" v)
  = if (PyInt.int_max_str_digits <? String.length v)%nat
    then Raise (PyInt.too_many_digits (String.length v))
    else Ok (- decimal_value v)%Z.
Proof.
  unfold isdecimal. intros H.
  apply andb_prop in H as [Hne Hall].
  destruct v as [|c v]; [discriminate|].
  pose proof Hall as Hall'. cbn [all_chars] in Hall'. apply andb_prop in Hall' as [Hc _].
  destruct (decimal_char_plain c Hc) as [Hsp [Hplus [Hminus Hus]]].
  unfold PyInt.int.
  change (PyInt.skip_space (String "-" (String c v))) with (String "-"%char (String c v)).
  cbv beta iota. change (Ascii.eqb "-" "+") with false. change (Ascii.eqb "-" "-") with true.
  cbv beta iota.
  change (startswith "_" (String c v))
    with (if Ascii.eqb PyInt.underscore c then true else false).
  rewrite (Ascii.eqb_sym PyInt.underscore c), Hus.
  rewrite (scan_digits_decimal _ _ _ Hall). simpl Nat.add.
  simpl String.length.
  destruct (PyInt.int_max_str_digits <? S (String.length v))%nat; reflexivity.
Qed.

(** [int(str(z))] is [z] for an integer [str] can write. *)
Lemma int_str_of_Z (z : Z) :
  (Z.abs z < 10 ^ Z.of_nat PyInt.int_max_str_digits)%Z ->
  PyInt.int (str_of_Z z) = Ok z.
Proof.
  intros Hz.
  assert (forall m : nat, (Z.of_nat m < 10 ^ Z.of_nat PyInt.int_max_str_digits)%Z ->
            (PyInt.int_max_str_digits <? String.length (str_of_nat m))%nat = false) as Hlen.
  { intros m Hm. apply Nat.ltb_ge.
    apply (proj1 (proj2 (proj2 (str_of_nat_spec m)))); [exact Hm|]. unfold PyInt.int_max_str_digits. lia. }
  destruct z as [|p|p].
  - reflexivity.
  - unfold str_of_Z. destruct (str_of_nat_spec (Z.to_nat (Z.pos p))) as (Hdec & Hval & _ & _).
    rewrite (int_of_decimal _ Hdec), Hlen, Hval by lia. f_equal. lia.
  - unfold str_of_Z. rewrite append_cons, append_nil.
    destruct (str_of_nat_spec (Pos.to_nat p)) as (Hdec & Hval & _ & _).
    rewrite (int_minus_decimal _ Hdec), Hlen, Hval by lia. f_equal. lia.
Qed.

End IntCodes.

(** X15. An [int] passed as code never makes the constructor raise:
    [str] writes it, [int] reads it back as the same number, so without
    a custom message the message is the entry of [ERROR_CODES] under
    that number, [None] when it has none; and [str] of the exception is
    then [Error <code>: <message>], with the text [None] for a missing
    entry.  (The bound is that of [str] itself on an [int].) *)
Theorem X15_int_code_is_looked_up_as_written (z : Z) :
  (Z.abs z < 10 ^ Z.of_nat PyInt.int_max_str_digits)%Z ->
  let found := Exceptions.ERROR_CODES !! (inl z : Exceptions.key) in
  PyInt.int (PyStr.str_of_Z z) = Ok z
  /\ Exceptions.init (Exceptions.CInt z) None
     = Ok (ExceptionMigrosApi (Some (PyStr.str_of_Z z)) found)
  /\ Exceptions.str_of_exn (ExceptionMigrosApi (Some (PyStr.str_of_Z z)) found)
     = "Error " +:+ PyStr.str_of_Z z +:+ ": " +:+ Exceptions.str_of_opt found.
Proof.
  intros Hz found. subst found.
  pose proof (int_str_of_Z z Hz) as Hrt. split; [exact Hrt|]. split.
  - unfold Exceptions.init. cbn [Exceptions.str_of_code].
    destruct (Exceptions.ERROR_CODES !! (inr (PyStr.str_of_Z z) : Exceptions.key))
      as [m|] eqn:E.
    + apply catalog_lookup_inv in E. unfold Props.catalog_entries in E.
      repeat (apply elem_of_cons in E as [E|E];
        [ first [ discriminate E
                | injection E as Hs ->; rewrite Hs in Hrt; vm_compute in Hrt;
                  injection Hrt as <-; reflexivity ] |]).
      apply elem_of_nil in E. contradiction.
    + rewrite Hrt. reflexivity.
  - destruct (PyStr.str_of_Z z) as [|c r]; [|reflexivity].
    vm_compute in Hrt. discriminate Hrt.
Qed.

Lemma X15_int_code_is_looked_up_as_written_witness :
  PyInt.int (PyStr.str_of_Z 7) = Ok 7%Z
  /\ Exceptions.init (Exceptions.CInt 7) None
     = Ok (ExceptionMigrosApi (Some (PyStr.str_of_Z 7))
             (Exceptions.ERROR_CODES !! (inl 7%Z : Exceptions.key)))
  /\ Exceptions.str_of_exn
       (ExceptionMigrosApi (Some (PyStr.str_of_Z 7))
          (Exceptions.ERROR_CODES !! (inl 7%Z : Exceptions.key)))
     = "Error " +:+ PyStr.str_of_Z 7 +:+ ": "
       +:+ Exceptions.str_of_opt (Exceptions.ERROR_CODES !! (inl 7%Z : Exceptions.key)).
Proof.
  apply X15_int_code_is_looked_up_as_written. vm_compute. reflexivity.
Defined.

Section TokenShape.
Import PyStr MigrosApi.

Lemma until_quote_spec (u : string) :
  exists rest,
    u = until_quote u +:+ rest
    /\ all_chars (fun c => negb (Ascii.eqb c dquote)) (until_quote u) = true
    /\ (rest = EmptyString \/ exists r, rest = String dquote r).
Proof.
  induction u as [|c u IH].
  - exists EmptyString. repeat split. left. reflexivity.
  - cbn [until_quote]. destruct (Ascii.eqb_spec c dquote) as [->|Hne].
    + exists (String dquote u). repeat split. right. eauto.
    + destruct IH as (rest & Heq & Hall & Hrest). exists rest.
      rewrite append_cons, <- Heq. split; [reflexivity|]. split; [|exact Hrest].
      cbn [all_chars]. rewrite Hall.
      destruct (Ascii.eqb_spec c dquote); [contradiction|reflexivity].
Qed.

Lemma csrf_search_shape (s tok : string) :
  csrf_search s = Some tok ->
  exists pre rest,
    s = pre +:+ csrf_marker +:+ tok +:+ rest
    /\ tok <> EmptyString
    /\ all_chars (fun c => negb (Ascii.eqb c dquote)) tok = true
    /\ (rest = EmptyString \/ exists r, rest = String dquote r)
    /\ forall pre' c rest',
         s = pre' +:+ csrf_marker +:+ String c rest' -> c <> dquote ->
         (String.length pre <= String.length pre')%nat.
Proof.
  revert tok. induction s as [|a s IH]; intros tok H.
  - vm_compute in H. discriminate.
  - rewrite csrf_search_eq in H.
    destruct (startswith csrf_marker (String a s)) eqn:Hst.
    + pose proof (startswith_split _ _ Hst) as Hsplit.
      destruct (until_quote_spec (drop (String.length csrf_marker) (String a s)))
        as (rest & Heq & Hall & Hrest).
      destruct (until_quote (drop (String.length csrf_marker) (String a s)))
        as [|x y] eqn:Hu.
      * (* an empty value here: the search goes on *)
        destruct (IH tok H) as (pre & rest0 & Hs & Hne & Hall0 & Hrest0 & Hleft).
        exists (String a pre), rest0. rewrite append_cons, <- Hs.
        split; [reflexivity|]. split; [exact Hne|]. split; [exact Hall0|].
        split; [exact Hrest0|].
        intros pre' c rest' Heq' Hc. destruct pre' as [|a' pre'].
        -- exfalso. rewrite append_nil in Heq'. rewrite Heq' in Hu.
           rewrite drop_append in Hu. cbn [until_quote] in Hu.
           destruct (Ascii.eqb_spec c dquote); [contradiction|discriminate].
        -- rewrite append_cons in Heq'. injection Heq' as _ Heq'.
           cbn [String.length]. apply le_n_S. eapply Hleft; eassumption.
      * injection H as <-. exists EmptyString, rest. rewrite append_nil.
        split; [rewrite Hsplit at 1; rewrite Heq; reflexivity|].
        split; [discriminate|]. split; [exact Hall|]. split; [exact Hrest|].
        intros. cbn [String.length]. lia.
    + destruct (IH tok H) as (pre & rest0 & Hs & Hne & Hall0 & Hrest0 & Hleft).
      exists (String a pre), rest0. rewrite append_cons, <- Hs.
      split; [reflexivity|]. split; [exact Hne|]. split; [exact Hall0|].
      split; [exact Hrest0|].
      intros pre' c rest' Heq' Hc. destruct pre' as [|a' pre'].
      * exfalso. rewrite append_nil in Heq'. rewrite Heq', startswith_append in Hst.
        discriminate.
      * rewrite append_cons in Heq'. injection Heq' as _ Heq'.
        cbn [String.length]. apply le_n_S. eapply Hleft; eassumption.
Qed.

End TokenShape.

Section TokenPosted.
Import Net Exceptions Soup MigrosApi Props Shapes.

Lemma authenticate_snd_post (net : network) (username password : string)
    (t : list event) (r1 : response) (tok : string) :
  net t (get login_url []) = inr r1 ->
  raise_for_status r1 = Ok tt ->
  csrf_search (body r1) = Some tok ->
  snd (__authenticate net username password t)
  = t ++ [Request (get login_url []); Sleep 1; Sleep 2;
          Request (login_post username password tok)].
Proof.
  intros Hnet Hst Htok.
  rewrite (authenticate_to_post net username password t r1 tok Hnet Hst Htok).
  cbv zeta.
  replace (t ++ [Request (get login_url []); Sleep 1; Sleep 2;
                 Request (login_post username password tok)])
    with ((t ++ [Request (get login_url []); Sleep 1; Sleep 2])
          ++ [Request (login_post username password tok)])
    by (rewrite <- app_assoc; reflexivity).
  destruct (net _ (login_post username password tok)) as [le|r2];
    [apply authenticate_handlers_snd|].
  destruct (raise_for_status r2); [|apply authenticate_handlers_snd].
  destruct (html r2) as [le|soup]; [apply authenticate_handlers_snd|].
  destruct (error_elements soup); [|reflexivity].
  destruct (PyStr.contains _ _); reflexivity.
Qed.

End TokenPosted.

(** X16. The token a successful [__authenticate] has posted is the value
    of the first [_csrf] attribute of the login page that is not empty:
    the page is some text, the marker, the token and a rest; the token
    is not empty and holds no double quote; the rest is empty or starts
    with a double quote; and no earlier place of the page has the marker
    followed by a character other than the double quote, so a [_csrf]
    attribute with an empty value is skipped. *)
Theorem X16_token_is_first_nonempty_csrf_value (net : Net.network)
    (username password : string) (t : list Net.event) (r1 : Net.response) :
  net t (MigrosApi.get MigrosApi.login_url []) = inr r1 ->
  fst (MigrosApi.__authenticate net username password t) = Ok tt ->
  exists tok pre rest,
    snd (MigrosApi.__authenticate net username password t)
    = t ++ [Net.Request (MigrosApi.get MigrosApi.login_url []); Net.Sleep 1; Net.Sleep 2;
            Net.Request (Props.login_post username password tok)]
    /\ Net.body r1 = pre +:+ MigrosApi.csrf_marker +:+ tok +:+ rest
    /\ tok <> EmptyString
    /\ PyStr.all_chars (fun c => negb (Ascii.eqb c PyStr.dquote)) tok = true
    /\ (rest = EmptyString \/ exists r, rest = String PyStr.dquote r)
    /\ forall pre' c rest',
         Net.body r1 = pre' +:+ MigrosApi.csrf_marker +:+ String c rest' ->
         c <> PyStr.dquote ->
         (String.length pre <= String.length pre')%nat.
Proof.
  intros Hnet Hok.
  destruct (raise_for_status_cases r1) as [Hst|[m Hst]].
  2:{ rewrite (authenticate_bad_status net username password t r1 m Hnet Hst) in Hok.
      discriminate. }
  destruct (MigrosApi.csrf_search (Net.body r1)) as [tok|] eqn:Htok.
  2:{ rewrite (authenticate_no_token net username password t r1 Hnet Hst Htok) in Hok.
      discriminate. }
  destruct (csrf_search_shape _ _ Htok) as (pre & rest & H1 & H2 & H3 & H4 & H5).
  exists tok, pre, rest.
  split; [exact (authenticate_snd_post net username password t r1 tok Hnet Hst Htok)|].
  repeat split; assumption.
Qed.

Lemma X16_token_is_first_nonempty_csrf_value_witness :
  exists tok pre rest,
    snd (MigrosApi.__authenticate Props.friendly_net "user" "secret" [])
    = [] ++ [Net.Request (MigrosApi.get MigrosApi.login_url []); Net.Sleep 1; Net.Sleep 2;
             Net.Request (Props.login_post "user" "secret" tok)]
    /\ Net.body (Props.ok_response MigrosApi.login_url Props.login_page_body [])
       = pre +:+ MigrosApi.csrf_marker +:+ tok +:+ rest
    /\ tok <> EmptyString
    /\ PyStr.all_chars (fun c => negb (Ascii.eqb c PyStr.dquote)) tok = true
    /\ (rest = EmptyString \/ exists r, rest = String PyStr.dquote r)
    /\ forall pre' c rest',
         Net.body (Props.ok_response MigrosApi.login_url Props.login_page_body [])
         = pre' +:+ MigrosApi.csrf_marker +:+ String c rest' ->
         c <> PyStr.dquote ->
         (String.length pre <= String.length pre')%nat.
Proof.
  apply (X16_token_is_first_nonempty_csrf_value Props.friendly_net "user" "secret" []
           (Props.ok_response MigrosApi.login_url Props.login_page_body [])).
  - reflexivity.
  - vm_compute. reflexivity.
Defined.

Section DateCheck.
Import Net Exceptions Datetime MigrosApi Props.

Lemma lex_gt_asym (a b : list Z) : lex_gt a b = true -> lex_gt b a = false.
Proof.
  revert b. induction a as [|x a IH]; intros [|y b] H; try reflexivity.
  cbn [lex_gt] in *.
  destruct (Z.ltb_spec y x), (Z.ltb_spec x y), (Z.eqb_spec x y), (Z.eqb_spec y x);
    cbn [orb andb] in *; try reflexivity; try lia; try discriminate.
  apply IH, H.
Qed.

Lemma lex_gt_irrefl (a : list Z) : lex_gt a a = false.
Proof.
  induction a as [|x a IH]; [reflexivity|]. cbn [lex_gt].
  rewrite Z.ltb_irrefl, Z.eqb_refl. exact IH.
Qed.

Lemma gt_asym (a b : datetime) : gt a b = Ok true -> gt b a = Ok false.
Proof.
  unfold gt. destruct (utcoffset a) as [oa|], (utcoffset b) as [ob|]; try discriminate.
  - rewrite (Z.eqb_sym ob oa). destruct (oa =? ob)%Z.
    + destruct (lex_gt (fields a) (fields b)) eqn:E; [|discriminate].
      intros _. rewrite (lex_gt_asym _ _ E). reflexivity.
    + destruct (Z.ltb_spec (instant b ob) (instant a oa)) as [Hlt|]; [|discriminate].
      intros _. f_equal. apply Z.ltb_ge. lia.
  - destruct (lex_gt (fields a) (fields b)) eqn:E; [|discriminate].
    intros _. rewrite (lex_gt_asym _ _ E). reflexivity.
Qed.

Lemma gt_irrefl (a : datetime) : gt a a = Ok false.
Proof.
  unfold gt. destruct (utcoffset a) as [oa|].
  - rewrite Z.eqb_refl, lex_gt_irrefl. reflexivity.
  - rewrite lex_gt_irrefl. reflexivity.
Qed.

Lemma validate_dates_5 (a b : datetime) (m : option string) :
  validate_dates (ODatetime a) (ODatetime b) = Raise (ExceptionMigrosApi (Some "5") m) ->
  gt a b = Ok true.
Proof.
  unfold validate_dates. cbn [is_datetime].
  destruct (gt a b) as [[|]|e] eqn:G; [reflexivity|discriminate|].
  cbn [rbind]. intros [= ->]. exfalso. revert G. unfold gt.
  destruct (utcoffset a) as [oa|], (utcoffset b) as [ob|];
    try destruct (oa =? ob)%Z; discriminate.
Qed.

End DateCheck.

(** X17. The date check of [get_all_receipts] is an order check that
    lets equal ends through: a call refused with code 5 has ends that
    pass the check when they are swapped, so that the swapped call can
    no longer fail with an error of the package, only with a plain
    [Exception]; and a period whose two ends are the same [datetime] is
    never refused. *)
Theorem X17_refused_period_passes_when_swapped (net : Net.network) (fuel : nat)
    (a b : Datetime.datetime) (t : list Net.event) (m : option string) :
  fst (MigrosApi.get_all_receipts net fuel (Datetime.ODatetime a) (Datetime.ODatetime b) t)
  = Raise (ExceptionMigrosApi (Some "5") m) ->
  MigrosApi.validate_dates (Datetime.ODatetime b) (Datetime.ODatetime a) = Ok (b, a)
  /\ MigrosApi.validate_dates (Datetime.ODatetime a) (Datetime.ODatetime a) = Ok (a, a)
  /\ forall (net' : Net.network) (fuel' : nat) (t' : list Net.event) (e : exn),
       fst (MigrosApi.get_all_receipts net' fuel' (Datetime.ODatetime b)
              (Datetime.ODatetime a) t') = Raise e ->
       exists err, e = Exception ("Failed to get receipts: " +:+ Exceptions.str_of_exn err).
Proof.
  intros H.
  assert (MigrosApi.validate_dates (Datetime.ODatetime a) (Datetime.ODatetime b)
          = Raise (ExceptionMigrosApi (Some "5") m)) as Hv.
  { rewrite get_all_receipts_unfold in H.
    destruct (MigrosApi.validate_dates (Datetime.ODatetime a) (Datetime.ODatetime b))
      as [[a0 b0]|e0] eqn:E.
    - pose proof (fetch_pages_raises net fuel
                    (MigrosApi.url_receipts (MigrosApi._format_date a0)
                       (MigrosApi._format_date b0)) 1 ∅ t) as Hf.
      destruct (MigrosApi.fetch_pages net fuel _ 1 ∅ t) as [[r|e1] t1]; [discriminate|].
      destruct (Hf e1 eq_refl) as [[le ->]|[err ->]]; [destruct le|]; discriminate.
    - cbn [fst] in H. destruct e0; try discriminate. injection H as -> ->. reflexivity. }
  pose proof (gt_asym a b (validate_dates_5 a b m Hv)) as Hswap.
  pose proof (validate_dates_ok b a Hswap) as Hok.
  split; [exact Hok|]. split; [apply validate_dates_ok, gt_irrefl|].
  intros net' fuel' t' e He. rewrite get_all_receipts_unfold, Hok in He.
  pose proof (fetch_pages_raises net' fuel'
                (MigrosApi.url_receipts (MigrosApi._format_date b)
                   (MigrosApi._format_date a)) 1 ∅ t') as Hf.
  destruct (MigrosApi.fetch_pages net' fuel' _ 1 ∅ t') as [[r|e1] t1]; [discriminate|].
  cbn [fst] in He. injection He as <-.
  destruct (Hf e1 eq_refl) as [[le ->]|[err ->]]; [destruct le|]; eauto.
Qed.

Lemma X17_refused_period_passes_when_swapped_witness :
  MigrosApi.validate_dates (Datetime.ODatetime Props.jan_1) (Datetime.ODatetime Props.jan_31)
  = Ok (Props.jan_1, Props.jan_31).
Proof.
  apply (X17_refused_period_passes_when_swapped Props.two_page_net 3
           Props.jan_31 Props.jan_1 []
           (Some "`period_from` should be <= to `period_to`")).
  vm_compute. reflexivity.
Defined.

Section DateText.
Import PyStr Datetime MigrosApi Props.

Lemma two_digits (n : nat) :
  (n < 100)%nat ->
  let s := zfill 2 (str_of_Z (Z.of_nat n)) in
  String.length s = 2%nat /\ isdecimal s = true /\ decimal_value s = Z.of_nat n.
Proof.
  intros H. do 100 (destruct n as [|n]; [vm_compute; auto|]). lia.
Qed.

Lemma str_of_Z_nonneg (z : Z) : (0 <= z)%Z -> str_of_Z z = str_of_nat (Z.to_nat z).
Proof. destruct z; [reflexivity|reflexivity|lia]. Qed.

End DateText.

(** X18. For the fields a [datetime] can hold, [_format_date] writes the
    year, a dash, the month as two digits, a dash and the day as two
    digits, and each part reads back as its field.  The year is written
    as [str] writes it, without padding: it has four digits exactly for
    the years from 1000 on, fewer before. *)
Theorem X18_format_date_parts (d : Datetime.datetime) :
  (1 <= Datetime.year d <= 9999)%Z ->
  (1 <= Datetime.month d <= 12)%Z ->
  (1 <= Datetime.day d <= 31)%Z ->
  exists y mo da : string,
    MigrosApi._format_date d = y +:+ "-" +:+ mo +:+ "-" +:+ da
    /\ PyStr.isdecimal y = true /\ PyStr.isdecimal mo = true /\ PyStr.isdecimal da = true
    /\ Props.decimal_value y = Datetime.year d
    /\ Props.decimal_value mo = Datetime.month d
    /\ Props.decimal_value da = Datetime.day d
    /\ String.length mo = 2%nat /\ String.length da = 2%nat
    /\ (String.length y <= 4)%nat
    /\ (String.length y = 4%nat <-> (1000 <= Datetime.year d)%Z).
Proof.
  intros Hy Hm Hd.
  exists (PyStr.str_of_Z (Datetime.year d)),
         (PyStr.zfill 2 (PyStr.str_of_Z (Datetime.month d))),
         (PyStr.zfill 2 (PyStr.str_of_Z (Datetime.day d))).
  split; [reflexivity|].
  destruct (two_digits (Z.to_nat (Datetime.month d))) as (Hm1 & Hm2 & Hm3); [lia|].
  destruct (two_digits (Z.to_nat (Datetime.day d))) as (Hd1 & Hd2 & Hd3); [lia|].
  rewrite Z2Nat.id in Hm1, Hm2, Hm3, Hd1, Hd2, Hd3 by lia.
  rewrite (str_of_Z_nonneg (Datetime.year d)) by lia.
  destruct (str_of_nat_spec (Z.to_nat (Datetime.year d))) as (Hdec & Hval & Hle & Hup).
  rewrite Z2Nat.id in Hval, Hle, Hup by lia.
  assert (String.length (PyStr.str_of_nat (Z.to_nat (Datetime.year d))) <= 4)%nat as H4.
  { apply Hle; [|lia]. change (10 ^ Z.of_nat 4)%Z with 10000%Z. lia. }
  repeat (split; [assumption|]).
  split.
  - intros E. rewrite E in Hup. change (10 ^ Z.of_nat 4)%Z with 10000%Z in Hup.
    destruct (Z.le_gt_cases 1000 (Datetime.year d)) as [|Hlt]; [assumption|].
    exfalso. assert (String.length (PyStr.str_of_nat (Z.to_nat (Datetime.year d))) <= 3)%nat.
    { apply Hle; [|lia]. change (10 ^ Z.of_nat 3)%Z with 1000%Z. lia. }
    lia.
  - intros Hge.
    destruct (Nat.le_gt_cases 4 (String.length (PyStr.str_of_nat (Z.to_nat (Datetime.year d)))))
      as [|Hlt]; [lia|].
    exfalso.
    assert (10 ^ Z.of_nat (String.length (PyStr.str_of_nat (Z.to_nat (Datetime.year d))))
            <= 10 ^ 3)%Z by (apply Z.pow_le_mono_r; lia).
    change (10 ^ 3)%Z with 1000%Z in *. lia.
Qed.

Lemma X18_format_date_parts_witness :
  exists y mo da : string,
    MigrosApi._format_date Props.jan_1 = y +:+ "-" +:+ mo +:+ "-" +:+ da
    /\ PyStr.isdecimal y = true /\ PyStr.isdecimal mo = true /\ PyStr.isdecimal da = true
    /\ Props.decimal_value y = Datetime.year Props.jan_1
    /\ Props.decimal_value mo = Datetime.month Props.jan_1
    /\ Props.decimal_value da = Datetime.day Props.jan_1
    /\ String.length mo = 2%nat /\ String.length da = 2%nat
    /\ (String.length y <= 4)%nat
    /\ (String.length y = 4%nat <-> (1000 <= Datetime.year Props.jan_1)%Z).
Proof.
  apply X18_format_date_parts; vm_compute; split; discriminate.
Defined.

(** ** The page count, exactly *)

Section PageCountExact.
Import Net Exceptions Soup MigrosApi Props Shapes.

Lemma int_Ok_readable (v : string) (z : Z) :
  PyStr.isnumeric v = true -> PyInt.int v = Ok z -> readable v.
Proof.
  intros Hn Hi. destruct (numeric_int_decimal v z Hn Hi) as [Hd _].
  split; [exact Hd|]. rewrite (int_of_decimal v Hd) in Hi.
  destruct (Nat.ltb_spec PyInt.int_max_str_digits (String.length v)); [discriminate|lia].
Qed.

Lemma page_values_Ok_readable (els : list element) (pages : list Z) :
  page_values els = Ok pages ->
  forall v, v ∈ page_index_texts els -> readable v.
Proof.
  revert pages. induction els as [|e els IH]; intros pages H v Hv.
  - apply elem_of_nil in Hv. tauto.
  - unfold page_index_texts in *. cbn [page_values omap list_omap] in *.
    destruct (is_page_link e); [|eapply IH; eassumption].
    destruct (Soup.get e "data-value") as [w|]; [|eapply IH; eassumption].
    assert (PyStr.nonempty w && PyStr.isnumeric w = PyStr.isnumeric w) as Hn.
    { unfold PyStr.isnumeric. destruct (PyStr.nonempty w); reflexivity. }
    rewrite Hn in H. destruct (PyStr.isnumeric w) eqn:En; [|eapply IH; eassumption].
    destruct (PyInt.int w) as [z|err] eqn:Ei; [|discriminate].
    cbn [rbind] in H. destruct (page_values els) as [zs|err]; [|discriminate].
    apply elem_of_cons in Hv as [->|Hv].
    + eapply int_Ok_readable; eassumption.
    + eapply IH; [reflexivity|exact Hv].
Qed.

Lemma parse_items_unaddressed (els : list element) (d : receipts) :
  unaddressed els -> exists e, parse_items els d = Raise e.
Proof.
  intros (pre & rest & after & item & link & -> & Hcb & Hall & Hlink & Hhref).
  revert d. induction pre as [|x pre IH]; intros d.
  - cbn [app parse_items]. rewrite Hcb, bool_decide_eq_false_2 by exact Hall.
    rewrite Hlink, Hhref. eexists. reflexivity.
  - cbn [app].
    destruct (parse_items_cons x (pre ++ item :: rest) d)
      as [E|[(l & a & _ & _ & E)|(l & a & h & s & c & p & _ & _ & _ & _ & _ & E)]];
      rewrite E; [apply IH|eexists; reflexivity|apply IH].
Qed.

Lemma parse_items_addressed (els : list element) (d : receipts) :
  ~ unaddressed els -> exists d', parse_items els d = Ok d'.
Proof.
  revert d. induction els as [|item rest IH]; intros d H; [eexists; reflexivity|].
  assert (forall d0, exists d', parse_items rest d0 = Ok d') as IH'.
  { intros d0. apply IH.
    intros (pre & rest' & after & item' & link & -> & Hcb & Hall & Hlink & Hhref).
    apply H. exists (item :: pre), rest', after, item', link. auto. }
  cbn [parse_items]. destruct (is_checkbox item) eqn:Hcb; [|apply IH'].
  destruct (bool_decide (Soup.get item "value" = Some "all")) eqn:Hall; [apply IH'|].
  apply bool_decide_eq_false in Hall.
  destruct (find_next is_modal_link rest) as [[link after]|] eqn:Hlink; [|apply IH'].
  destruct (Soup.get link "href") as [href|] eqn:Hhref.
  - destruct (find_cells after) as [[[s c] p]|]; apply IH'.
  - exfalso. apply H. exists [], rest, after, item, link. auto.
Qed.

End PageCountExact.

(** C4.  The extraction reports a page count exactly for the pages whose
    numeric page-index texts are all what [int] reads and on which the
    receipt loop comes to no link without [href]; the count is then the
    greatest of the numbers of those texts, or 1 when there is none.
    On every other page it reports none: a page-index text for which
    [isnumeric] holds and [int] fails, or a detail link without [href]
    after a checkbox, ends the extraction in a plain [Exception]. *)
Theorem C4_page_count_unless_extraction_raises (response : Net.response)
    (doc : list Soup.node) (d : MigrosApi.receipts) :
  Net.html response = inr doc ->
  let els := Soup.all_elements doc in
  let texts := Props.page_index_texts els in
  let raises :=
    exists err,
      MigrosApi._parse_receipt_data response d
      = Raise (Exception ("Failed to parse receipt data: " +:+ Exceptions.str_of_exn err)) in
  ((exists count d', MigrosApi._parse_receipt_data response d = Ok (count, d'))
   <-> (forall v, v ∈ texts -> Props.readable v) /\ ~ Props.unaddressed els)
  /\ (forall count d',
        MigrosApi._parse_receipt_data response d = Ok (count, d') ->
        Props.max_or_one count (map Props.decimal_value texts))
  /\ (forall v, v ∈ texts -> ~ Props.readable v -> raises)
  /\ (Props.unaddressed els -> raises).
Proof.
  intros Hdoc els texts raises.
  assert (forall count d',
            MigrosApi._parse_receipt_data response d = Ok (count, d') ->
            MigrosApi.page_values els = Ok (map Props.decimal_value texts)
            /\ MigrosApi.parse_items els d = Ok d'
            /\ count = MigrosApi.total_of (map Props.decimal_value texts)) as Hok.
  { intros count d' H.
    destruct (parse_receipt_data_Ok response d d' count H)
      as (doc0 & pages & Hdoc0 & Hp & Hi & ->).
    rewrite Hdoc in Hdoc0. injection Hdoc0 as <-.
    destruct (page_values_Ok _ _ Hp) as [_ ->]. auto. }
  assert ((exists count d', MigrosApi._parse_receipt_data response d = Ok (count, d'))
          \/ raises) as Hcases.
  { destruct (MigrosApi._parse_receipt_data response d) as [[count d']|e] eqn:E.
    - left. eauto.
    - right. destruct (parse_receipt_data_raises response d e E) as [err ->].
      exists err. reflexivity. }
  split; [split|split; [|split]].
  - intros (count & d' & H). destruct (Hok count d' H) as (Hp & Hi & _). split.
    + eapply page_values_Ok_readable, Hp.
    + intros Hun. destruct (parse_items_unaddressed els d Hun) as [e He]. congruence.
  - intros [Hread Hadd].
    destruct (parse_items_addressed els d Hadd) as [d' Hd'].
    exists (MigrosApi.total_of (map Props.decimal_value texts)), d'.
    unfold MigrosApi._parse_receipt_data. rewrite Hdoc. cbn [Net.from_lib rbind].
    fold els. rewrite (page_values_decimal els Hread). cbn [rbind].
    rewrite Hd'. reflexivity.
  - intros count d' H. destruct (Hok count d' H) as (_ & _ & ->). apply total_of_spec.
  - intros v Hv Hnot. destruct Hcases as [(count & d' & H)|Hr]; [|exact Hr].
    exfalso. apply Hnot. destruct (Hok count d' H) as (Hp & _ & _).
    eapply page_values_Ok_readable; eassumption.
  - intros Hun. destruct Hcases as [(count & d' & H)|Hr]; [|exact Hr].
    exfalso. destruct (Hok count d' H) as (_ & Hi & _).
    destruct (parse_items_unaddressed els d Hun) as [e He]. congruence.
Qed.

Lemma C4_page_count_unless_extraction_raises_witness :
  exists err,
    MigrosApi._parse_receipt_data
      (Props.ok_response Props.listing_url "(listing)" Props.c4_page) ∅
    = Raise (Exception ("Failed to parse receipt data: " +:+ Exceptions.str_of_exn err)).
Proof.
  apply (proj2 (proj2 (proj2
           (C4_page_count_unless_extraction_raises
              (Props.ok_response Props.listing_url "(listing)" Props.c4_page)
              Props.c4_page ∅ eq_refl)))).
  exists (firstn 3 (Soup.all_elements Props.c4_page)),
         (skipn 4 (Soup.all_elements Props.c4_page)),
         (skipn 6 (Soup.all_elements Props.c4_page)),
         (Shapes.element_at 3 Props.c4_page),
         (Shapes.element_at 5 Props.c4_page).
  split; [vm_compute; reflexivity|]. split; [vm_compute; reflexivity|].
  split; [vm_compute; discriminate|]. split; vm_compute; reflexivity.
Defined.
